(** * The streaming response rewriter of the OpenAI -> NVIDIA NIM proxy

    A shallow embedding of [server.js]: the chat-completions handler, its
    event-stream rewriter (line framing, record classification, the
    reasoning/content splice, the terminator handling), the non-streaming
    translation, the reading of the request and the building of the
    upstream call, and the error surface of the handler.  The repository
    holds a second revision of the file; the two agree on the rewriter, the
    translation, the defaults of the request body and the errors, while the
    other one has other model tables, adds no system prompt and hands
    [messages] to the upstream without mapping over them.

    Conventions.
    - A JavaScript string is the list of its UTF-16 code units ([jsstring]);
      [str] turns an ASCII literal into one.
    - A value that may be [undefined] is an [option json], [None] being
      [undefined].
    - A [TypeError] is the [None] of a result that is an [option], and the
      [Throws] of an [attempt] where the state at the throw matters.
    - [JSON.parse], [JSON.stringify], the environment switches and the clock
      are parameters of the development (Section variables): the theorems hold
      for every implementation of them.  [JSONText] gives a reference
      implementation of the two JSON built-ins, used to run the rewriter on
      concrete event-stream text. *)

From Stdlib Require Import List String Ascii NArith ZArith Bool DecimalString.
Import ListNotations.

Local Open Scope N_scope.
Local Open Scope list_scope.

#[local] Set Default Proof Using "Type".

(** ** JavaScript strings *)

Definition code_unit := N.
Definition jsstring := list code_unit.

(** An ASCII literal as a JavaScript string. *)
Definition str (s : string) : jsstring :=
  map N_of_ascii (list_ascii_of_string s).

(** Decimal rendering of a non-negative integer, as a template literal or
    [JSON.stringify] prints it. *)
Definition dec (n : N) : jsstring :=
  str (NilZero.string_of_uint (N.to_uint n)).

(** JSON text as a literal, an apostrophe standing for the double quote. *)
Definition txt (s : string) : jsstring :=
  map (fun c => if c =? 0x27 then 0x22 else c) (str s).

(** [a === b] on strings. *)
Fixpoint jseqb (a b : jsstring) : bool :=
  match a, b with
  | [], [] => true
  | x :: a', y :: b' => (x =? y) && jseqb a' b'
  | _, _ => false
  end.

(** [s.startsWith(p)] *)
Fixpoint startsWith (p s : jsstring) : bool :=
  match p, s with
  | [], _ => true
  | x :: p', y :: s' => (x =? y) && startsWith p' s'
  | _ :: _, [] => false
  end.

(** [s.slice(n)] for [n >= 0] *)
Definition slice (n : nat) (s : jsstring) : jsstring := skipn n s.

(** The code units [String.prototype.trim] strips: the WhiteSpace and
    LineTerminator productions of ECMAScript. *)
Definition is_white (c : code_unit) : bool :=
  ((0x09 <=? c) && (c <=? 0x0D)) || (c =? 0x20) || (c =? 0xA0) ||
  (c =? 0x1680) || ((0x2000 <=? c) && (c <=? 0x200A)) ||
  (c =? 0x2028) || (c =? 0x2029) || (c =? 0x202F) || (c =? 0x205F) ||
  (c =? 0x3000) || (c =? 0xFEFF).

Fixpoint trimStart (s : jsstring) : jsstring :=
  match s with
  | c :: s' => if is_white c then trimStart s' else s
  | [] => []
  end.

Definition trimEnd (s : jsstring) : jsstring := rev (trimStart (rev s)).

(** [s.trim()] *)
Definition trim (s : jsstring) : jsstring := trimEnd (trimStart s).

(** [s.split('\n')]: never empty, the last element is the text after the last
    line feed. *)
Fixpoint split_lf (s : jsstring) : list jsstring :=
  match s with
  | [] => [[]]
  | c :: s' =>
      if c =? 0x0A then [] :: split_lf s'
      else match split_lf s' with
           | l :: ls => (c :: l) :: ls
           | [] => [[c]]
           end
  end.

(** [lines.pop() ?? ''] and what is left of [lines]. *)
Definition pop (lines : list jsstring) : list jsstring * jsstring :=
  (removelast lines, last lines []).

(** ** JSON values, as [JSON.parse] builds them *)

(** A number is kept by its canonical rendering ([Number::toString]); the
    zeros print as ["0"].  An object is the list of its own properties in
    enumeration order. *)
#[warnings="-register-all"] Inductive json : Type :=
| JNull
| JBool (b : bool)
| JNum (repr : jsstring)
| JStr (s : jsstring)
| JArr (items : list json)
| JObj (props : list (jsstring * json)).

Definition object := list (jsstring * json).

(** Own-property lookup. *)
Fixpoint lookup (k : jsstring) (o : object) : option json :=
  match o with
  | [] => None
  | (k', v) :: o' => if jseqb k k' then Some v else lookup k o'
  end.

(** [o[k] = v] on a plain object, for a key that is not an array index: an
    existing property keeps its place, a new one goes last. *)
Fixpoint obj_set (k : jsstring) (v : json) (o : object) : object :=
  match o with
  | [] => [(k, v)]
  | (k', v') :: o' =>
      if jseqb k k' then (k', v) :: o' else (k', v') :: obj_set k v o'
  end.

(** [delete o[k]] *)
Fixpoint obj_delete (k : jsstring) (o : object) : object :=
  match o with
  | [] => []
  | (k', v') :: o' =>
      if jseqb k k' then obj_delete k o' else (k', v') :: obj_delete k o'
  end.

(** [v.name] for a value [v] that is not [null] and a name that is neither an
    array index nor [length] (the names the program reads: [choices],
    [delta], [content], [reasoning_content], [message], ...).  Primitives and
    arrays have no such property. *)
Definition prop (v : json) (name : jsstring) : option json :=
  match v with
  | JObj o => lookup name o
  | _ => None
  end.

(** [v[i]] for a value [v] that is not [null]. *)
Definition at_index (v : json) (i : nat) : option json :=
  match v with
  | JArr items => nth_error items i
  | JObj o => lookup (dec (N.of_nat i)) o
  | JStr s => match nth_error s i with Some c => Some (JStr [c]) | None => None end
  | _ => None
  end.

(** ToBoolean *)
Definition truthy (v : option json) : bool :=
  match v with
  | None | Some JNull => false
  | Some (JBool b) => b
  | Some (JNum r) => negb (jseqb r (str "0"))
  | Some (JStr s) => negb (jseqb s [])
  | Some (JArr _) | Some (JObj _) => true
  end.

(** [v ?? d] *)
Definition nullish_or (v : option json) (d : json) : json :=
  match v with
  | None | Some JNull => d
  | Some x => x
  end.

(** [Array.prototype.join(',')] over already rendered elements. *)
Fixpoint join_comma (parts : list jsstring) : jsstring :=
  match parts with
  | [] => []
  | [p] => p
  | p :: ps => p ++ str "," ++ join_comma ps
  end.

(** ToString, as string concatenation, a template literal and a property
    key apply it; [None] is the [TypeError] it throws.  An object is
    converted by the [toString] it finds: parsed JSON holds no function, so
    an object with a property [toString] of its own cannot be converted
    (the [valueOf] it has or inherits gives no primitive either), and every
    other object is ['[object Object]'].  An array joins the conversions of
    its elements, [null] counting as the empty string. *)
Fixpoint ToString (v : json) : option jsstring :=
  match v with
  | JNull => Some (str "null")
  | JBool true => Some (str "true")
  | JBool false => Some (str "false")
  | JNum r => Some r
  | JStr s => Some s
  | JArr items =>
      match
        (fix parts (xs : list json) : option (list jsstring) :=
           match xs with
           | [] => Some []
           | x :: rest =>
               match match x with JNull => Some [] | _ => ToString x end with
               | Some p =>
                   match parts rest with
                   | Some ps => Some (p :: ps)
                   | None => None
                   end
               | None => None
               end
           end) items
      with
      | Some ps => Some (join_comma ps)
      | None => None
      end
  | JObj o =>
      match lookup (str "toString") o with
      | Some _ => None
      | None => Some (str "[object Object]")
      end
  end.

(** ToString of a value that may be [undefined]: the property key it stands
    for, and its text in a concatenation. *)
Definition to_text (v : option json) : option jsstring :=
  match v with
  | None => Some (str "undefined")
  | Some x => ToString x
  end.

(** Whether a value has a text. *)
Definition converts (v : option json) : bool :=
  match to_text v with
  | Some _ => true
  | None => false
  end.

(** [a === b] where [b] is a string literal. *)
Definition is_string (v : json) (s : jsstring) : bool :=
  match v with
  | JStr s' => jseqb s' s
  | _ => false
  end.

Definition is_null (v : json) : bool :=
  match v with JNull => true | _ => false end.

(** Whether some object inside the value has a property [k]. *)
Fixpoint mentions (k : jsstring) (v : json) : bool :=
  match v with
  | JArr items => existsb (mentions k) items
  | JObj o => existsb (fun kv => jseqb k (fst kv) || mentions k (snd kv)) o
  | _ => false
  end.

(** ** [Buffer.prototype.toString()]: UTF-8 decoding

    The stream delivers [Buffer]s; [chunk.toString()] decodes each one on its
    own as UTF-8, every ill-formed or truncated sequence becoming U+FFFD
    (the WHATWG decoder, which replaces maximal subparts). *)

Definition byte := N.

Record utf8_state : Type := {
  needed : nat;      (* continuation bytes still expected *)
  cp : N;            (* code point accumulated so far *)
  lower : N;         (* bounds of the next continuation byte *)
  upper : N
}.

Definition utf8_start : utf8_state :=
  {| needed := 0; cp := 0; lower := 0x80; upper := 0xBF |}.

(** A code point as UTF-16. *)
Definition utf16 (c : N) : jsstring :=
  if c <? 0x10000 then [c]
  else [0xD800 + N.shiftr (c - 0x10000) 10; 0xDC00 + N.land (c - 0x10000) 0x3FF].

(** A byte met where a sequence starts. *)
Definition utf8_lead (b : byte) : jsstring * utf8_state :=
  if b <=? 0x7F then ([b], utf8_start)
  else if (0xC2 <=? b) && (b <=? 0xDF) then
    ([], {| needed := 1; cp := N.land b 0x1F; lower := 0x80; upper := 0xBF |})
  else if (0xE0 <=? b) && (b <=? 0xEF) then
    ([], {| needed := 2; cp := N.land b 0x0F;
            lower := if b =? 0xE0 then 0xA0 else 0x80;
            upper := if b =? 0xED then 0x9F else 0xBF |})
  else if (0xF0 <=? b) && (b <=? 0xF4) then
    ([], {| needed := 3; cp := N.land b 0x07;
            lower := if b =? 0xF0 then 0x90 else 0x80;
            upper := if b =? 0xF4 then 0x8F else 0xBF |})
  else ([0xFFFD], utf8_start).

Definition utf8_step (st : utf8_state) (b : byte) : jsstring * utf8_state :=
  match needed st with
  | O => utf8_lead b
  | S n =>
      if (lower st <=? b) && (b <=? upper st) then
        let c := N.lor (N.shiftl (cp st) 6) (N.land b 0x3F) in
        match n with
        | O => (utf16 c, utf8_start)
        | S _ => ([], {| needed := n; cp := c; lower := 0x80; upper := 0xBF |})
        end
      else
        (* the sequence is cut short: U+FFFD, and [b] starts afresh *)
        let '(out, st') := utf8_lead b in (0xFFFD :: out, st')
  end.

Fixpoint utf8_decode (st : utf8_state) (bs : list byte) : jsstring :=
  match bs with
  | [] => match needed st with O => [] | S _ => [0xFFFD] end
  | b :: bs' => let '(out, st') := utf8_step st b in out ++ utf8_decode st' bs'
  end.

Definition Buffer_toString (chunk : list byte) : jsstring :=
  utf8_decode utf8_start chunk.

(** ** The frame: [data.choices?.[0]?.delta] *)

(** The delta the splicer works on; the outer [None] is the [TypeError] of
    reading [choices] of [null]. *)
Definition frame_delta (data : json) : option (option json) :=
  match data with
  | JNull => None
  | _ =>
      Some match prop data (str "choices") with
           | None | Some JNull => None
           | Some choices =>
               match at_index choices 0 with
               | None | Some JNull => None
               | Some choice => prop choice (str "delta")
               end
           end
  end.

(** [choices[0] = v] where [choices[0]] exists. *)
Definition set_first (choices v : json) : json :=
  match choices with
  | JArr (_ :: rest) => JArr (v :: rest)
  | JObj o => JObj (obj_set (dec 0) v o)
  | _ => choices
  end.

(** The frame once its delta object, which the program mutates through the
    alias [delta], holds the properties [d]. *)
Definition with_delta (data : json) (d : object) : json :=
  match data with
  | JObj o =>
      match lookup (str "choices") o with
      | Some choices =>
          match at_index choices 0 with
          | Some (JObj choice) =>
              JObj (obj_set (str "choices")
                      (set_first choices
                         (JObj (obj_set (str "delta") (JObj d) choice))) o)
          | _ => data
          end
      | None => data
      end
  | _ => data
  end.

(** The content of the first choice's delta, if any. *)
Definition delta_content (data : json) : option json :=
  match frame_delta data with
  | Some (Some delta) => prop delta (str "content")
  | _ => None
  end.

(** The reasoning field of the first choice's delta, if any. *)
Definition delta_reasoning (data : json) : option json :=
  match frame_delta data with
  | Some (Some delta) => prop delta (str "reasoning_content")
  | _ => None
  end.

(** ** Markers *)

Definition LF : jsstring := [0x0A].

(** What the program appends to [inject]; [Text] is upstream text, the others
    are the literals of the program. *)
Inductive piece : Type :=
| Open                 (* '<think>\n' *)
| Close                (* '\n</think>\n\n' *)
| CloseAtEnd           (* '</think>\n\n', before the terminator *)
| Text (s : jsstring).

Definition render_piece (p : piece) : jsstring :=
  match p with
  | Open => str "<think>" ++ LF
  | Close => LF ++ str "</think>" ++ LF ++ LF
  | CloseAtEnd => str "</think>" ++ LF ++ LF
  | Text s => s
  end.

(** The string [inject] holds. *)
Definition render (inject : list piece) : jsstring :=
  List.concat (map render_piece inject).


(** The span after a sequence of pieces, [None] when an opening marker meets
    an open span or a closing marker a closed one. *)
Fixpoint span_after (open : bool) (ps : list piece) : option bool :=
  match ps with
  | [] => Some open
  | Text _ :: ps' => span_after open ps'
  | Open :: ps' => if open then None else span_after true ps'
  | (Close | CloseAtEnd) :: ps' => if open then span_after false ps' else None
  end.

(** ** The JSON built-ins on text

    A reference implementation of [JSON.stringify] and [JSON.parse] over
    [json], by which the rewriter runs on concrete event-stream text.  A
    numeral is rendered the way [Number::toString] renders its value, which
    is exact for numerals of at most 15 significant digits in the range of
    doubles. *)

Module JSONText.

Definition hex_digit (n : N) : code_unit :=
  if n <? 10 then 0x30 + n else 0x57 + n.

(** [\uXXXX], in lower case as [JSON.stringify] writes it. *)
Definition unicode_escape (c : code_unit) : jsstring :=
  [0x5C; 0x75; hex_digit (c / 4096 mod 16); hex_digit (c / 256 mod 16);
   hex_digit (c / 16 mod 16); hex_digit (c mod 16)].

Definition is_high (c : code_unit) : bool := (0xD800 <=? c) && (c <=? 0xDBFF).
Definition is_low (c : code_unit) : bool := (0xDC00 <=? c) && (c <=? 0xDFFF).

(** One code unit that is no half of a surrogate pair. *)
Definition escape_unit (c : code_unit) : jsstring :=
  if c =? 0x08 then [0x5C; 0x62]
  else if c =? 0x09 then [0x5C; 0x74]
  else if c =? 0x0A then [0x5C; 0x6E]
  else if c =? 0x0C then [0x5C; 0x66]
  else if c =? 0x0D then [0x5C; 0x72]
  else if c =? 0x22 then [0x5C; 0x22]
  else if c =? 0x5C then [0x5C; 0x5C]
  else if (c <? 0x20) || is_high c || is_low c then unicode_escape c
  else [c].

Fixpoint escape_units (s : jsstring) : jsstring :=
  match s with
  | [] => []
  | c :: s' =>
      match s' with
      | c2 :: s'' =>
          if is_high c && is_low c2 then c :: c2 :: escape_units s''
          else escape_unit c ++ escape_units s'
      | [] => escape_unit c
      end
  end.

(** QuoteJSONString *)
Definition quote (s : jsstring) : jsstring := [0x22] ++ escape_units s ++ [0x22].

Definition finite (r : jsstring) : bool :=
  negb (jseqb r (str "Infinity") || jseqb r (str "-Infinity") || jseqb r (str "NaN")).

(** [JSON.stringify(v)] *)
Fixpoint stringify (v : json) : jsstring :=
  match v with
  | JNull => str "null"
  | JBool true => str "true"
  | JBool false => str "false"
  | JNum r => if finite r then r else str "null"
  | JStr s => quote s
  | JArr items => str "[" ++ join_comma (map stringify items) ++ str "]"
  | JObj o =>
      str "{"
      ++ join_comma (map (fun kv => quote (fst kv) ++ str ":" ++ stringify (snd kv)) o)
      ++ str "}"
  end.

(** *** Parsing *)

Definition is_ws (c : code_unit) : bool :=
  (c =? 0x20) || (c =? 0x09) || (c =? 0x0A) || (c =? 0x0D).

Fixpoint skip_ws (s : jsstring) : jsstring :=
  match s with
  | c :: s' => if is_ws c then skip_ws s' else s
  | [] => []
  end.

Definition is_digit (c : code_unit) : bool := (0x30 <=? c) && (c <=? 0x39).

Definition hex_value (c : code_unit) : option N :=
  if is_digit c then Some (c - 0x30)
  else if (0x41 <=? c) && (c <=? 0x46) then Some (c - 0x37)
  else if (0x61 <=? c) && (c <=? 0x66) then Some (c - 0x57)
  else None.

Definition hex4 (a b c d : code_unit) : option code_unit :=
  match hex_value a, hex_value b, hex_value c, hex_value d with
  | Some x, Some y, Some z, Some w => Some (x * 4096 + y * 256 + z * 16 + w)
  | _, _, _, _ => None
  end.

(** The code unit of a one-letter escape. *)
Definition simple_escape (e : code_unit) : option code_unit :=
  if e =? 0x22 then Some 0x22
  else if e =? 0x5C then Some 0x5C
  else if e =? 0x2F then Some 0x2F
  else if e =? 0x62 then Some 0x08
  else if e =? 0x66 then Some 0x0C
  else if e =? 0x6E then Some 0x0A
  else if e =? 0x72 then Some 0x0D
  else if e =? 0x74 then Some 0x09
  else None.

Definition cons_unit (c : code_unit) (r : option (jsstring * jsstring))
  : option (jsstring * jsstring) :=
  match r with
  | Some (s, rest) => Some (c :: s, rest)
  | None => None
  end.

(** A string from after its opening quote: its value and the text left. *)
Fixpoint string_body (s : jsstring) : option (jsstring * jsstring) :=
  match s with
  | [] => None
  | c :: s' =>
      if c =? 0x22 then Some ([], s')
      else if c =? 0x5C then
        match s' with
        | e :: s'' =>
            if e =? 0x75 then
              match s'' with
              | h1 :: h2 :: h3 :: h4 :: s3 =>
                  match hex4 h1 h2 h3 h4 with
                  | Some u => cons_unit u (string_body s3)
                  | None => None
                  end
              | _ => None
              end
            else
              match simple_escape e with
              | Some u => cons_unit u (string_body s'')
              | None => None
              end
        | [] => None
        end
      else if c <? 0x20 then None
      else cons_unit c (string_body s')
  end.

(** The digits at the head of a text, as values, and the text left. *)
Fixpoint digits (s : jsstring) : list N * jsstring :=
  match s with
  | c :: s' =>
      if is_digit c then let '(ds, rest) := digits s' in ((c - 0x30) :: ds, rest)
      else ([], s)
  | [] => ([], [])
  end.

Fixpoint strip_zeros (ds : list N) : list N * nat :=
  match ds with
  | 0 :: ds' => let '(r, n) := strip_zeros ds' in (r, S n)
  | _ => (ds, O)
  end.

Definition digit_chars (ds : list N) : jsstring := map (fun d => 0x30 + d) ds.

Fixpoint number_of (ds : list N) (acc : N) : N :=
  match ds with
  | [] => acc
  | d :: ds' => number_of ds' (10 * acc + d)
  end.

(** [Number::toString] of the value [0.ds * 10^n], where [ds] neither starts
    nor ends with a zero. *)
Definition render_number (negative : bool) (ds : list N) (n : Z) : jsstring :=
  match ds with
  | [] => str "0"
  | d1 :: tail =>
      let k := Z.of_nat (List.length ds) in
      (if negative then str "-" else [])
      ++ (if ((k <=? n) && (n <=? 21))%Z then
            digit_chars ds ++ repeat 0x30 (Z.to_nat (n - k))
          else if ((0 <? n) && (n <=? 21))%Z then
            digit_chars (firstn (Z.to_nat n) ds) ++ str "."
            ++ digit_chars (skipn (Z.to_nat n) ds)
          else if ((-6 <? n) && (n <=? 0))%Z then
            str "0." ++ repeat 0x30 (Z.to_nat (- n)) ++ digit_chars ds
          else
            digit_chars [d1]
            ++ match tail with [] => [] | _ => str "." ++ digit_chars tail end
            ++ str "e" ++ (if (0 <=? n - 1)%Z then str "+" else str "-")
            ++ dec (Z.to_N (Z.abs (n - 1))))
  end.

(** A numeral: the rendering of its value and the text left. *)
Definition numeral (s : jsstring) : option (jsstring * jsstring) :=
  let '(negative, s1) :=
    match s with
    | c :: s' => if c =? 0x2D then (true, s') else (false, s)
    | [] => (false, s)
    end in
  let '(int, s2) := digits s1 in
  match int with
  | [] => None
  | d :: int' =>
      if (d =? 0) && negb (List.length int' =? 0)%nat then None
      else
        let frac_part :=
          match s2 with
          | c :: s' =>
              if c =? 0x2E then
                match digits s' with
                | ([], _) => None
                | (fs, rest) => Some (fs, rest)
                end
              else Some ([], s2)
          | [] => Some ([], s2)
          end in
        match frac_part with
        | None => None
        | Some (frac, s3) =>
            let exp_part :=
              match s3 with
              | c :: s' =>
                  if (c =? 0x65) || (c =? 0x45) then
                    let '(minus, s'') :=
                      match s' with
                      | g :: t =>
                          if g =? 0x2D then (true, t)
                          else if g =? 0x2B then (false, t)
                          else (false, s')
                      | [] => (false, s')
                      end in
                    match digits s'' with
                    | ([], _) => None
                    | (es, rest) =>
                        let e := Z.of_N (number_of es 0) in
                        Some ((if minus then - e else e)%Z, rest)
                    end
                  else Some (0%Z, s3)
              | [] => Some (0%Z, s3)
              end in
            match exp_part with
            | None => None
            | Some (e, rest) =>
                let '(ds, lead) := strip_zeros (int ++ frac) in
                let ds := rev (fst (strip_zeros (rev ds))) in
                Some (render_number negative ds
                        (Z.of_nat (List.length int) - Z.of_nat lead + e)%Z,
                      rest)
            end
        end
  end.

(** The array index a property key stands for, if it is one. *)
Definition index_key (k : jsstring) : option N :=
  match digits k with
  | (d :: ds, []) =>
      let n := number_of (d :: ds) 0 in
      if jseqb (dec n) k && (n <? 0xFFFFFFFF) then Some n else None
  | _ => None
  end.

Fixpoint insert_index (n : N) (k : jsstring) (v : json) (o : object) : object :=
  match o with
  | [] => [(k, v)]
  | (k', v') :: o' =>
      match index_key k' with
      | Some n' => if n <? n' then (k, v) :: o else (k', v') :: insert_index n k v o'
      | None => (k, v) :: o
      end
  end.

(** CreateDataProperty on the object under construction: a repeated key
    keeps its place and takes the later value; index keys come first, in
    ascending order; the other keys follow in order of creation. *)
Definition define (k : jsstring) (v : json) (o : object) : object :=
  match lookup k o with
  | Some _ => obj_set k v o
  | None =>
      match index_key k with
      | Some n => insert_index n k v o
      | None => o ++ [(k, v)]
      end
  end.

(** A value at the head of a text (after white space), and the text left.
    [elements] and [members] read on after the opening bracket or a comma. *)
Fixpoint value (fuel : nat) (s : jsstring) {struct fuel} : option (json * jsstring) :=
  match fuel with
  | O => None
  | S fuel' =>
      match skip_ws s with
      | [] => None
      | c :: s' =>
          if c =? 0x7B then
            match skip_ws s' with
            | c2 :: s'' =>
                if c2 =? 0x7D then Some (JObj [], s'') else members fuel' s' []
            | [] => None
            end
          else if c =? 0x5B then
            match skip_ws s' with
            | c2 :: s'' =>
                if c2 =? 0x5D then Some (JArr [], s'') else elements fuel' s' []
            | [] => None
            end
          else if c =? 0x22 then
            match string_body s' with
            | Some (v, rest) => Some (JStr v, rest)
            | None => None
            end
          else if startsWith (str "true") (c :: s') then Some (JBool true, skipn 4 (c :: s'))
          else if startsWith (str "false") (c :: s') then Some (JBool false, skipn 5 (c :: s'))
          else if startsWith (str "null") (c :: s') then Some (JNull, skipn 4 (c :: s'))
          else
            match numeral (c :: s') with
            | Some (r, rest) => Some (JNum r, rest)
            | None => None
            end
      end
  end
with elements (fuel : nat) (s : jsstring) (acc : list json) {struct fuel}
  : option (json * jsstring) :=
  match fuel with
  | O => None
  | S fuel' =>
      match value fuel' s with
      | Some (v, rest) =>
          match skip_ws rest with
          | c :: rest' =>
              if c =? 0x2C then elements fuel' rest' (acc ++ [v])
              else if c =? 0x5D then Some (JArr (acc ++ [v]), rest')
              else None
          | [] => None
          end
      | None => None
      end
  end
with members (fuel : nat) (s : jsstring) (acc : object) {struct fuel}
  : option (json * jsstring) :=
  match fuel with
  | O => None
  | S fuel' =>
      match skip_ws s with
      | q :: s1 =>
          if q =? 0x22 then
            match string_body s1 with
            | Some (k, s2) =>
                match skip_ws s2 with
                | c :: s3 =>
                    if c =? 0x3A then
                      match value fuel' s3 with
                      | Some (v, rest) =>
                          match skip_ws rest with
                          | c' :: rest' =>
                              if c' =? 0x2C then members fuel' rest' (define k v acc)
                              else if c' =? 0x7D then Some (JObj (define k v acc), rest')
                              else None
                          | [] => None
                          end
                      | None => None
                      end
                    else None
                | [] => None
                end
            | None => None
            end
          else None
      | [] => None
      end
  end.

(** [JSON.parse(text)], [None] being its [SyntaxError].  The readers above
    count their nested calls down from twice the length of the text plus
    two; at least every second call takes a code unit off the text. *)
Definition parse (text : jsstring) : option json :=
  match value (2 * List.length text + 2) text with
  | Some (v, rest) =>
      match skip_ws rest with
      | [] => Some v
      | _ :: _ => None
      end
  | None => None
  end.

End JSONText.

(** ** The chat-completions handler *)

(** How the body of the [try] is left: it completes, or a [TypeError] takes
    it to the [catch], [thinkOpen] being what it was set to by then. *)
Inductive attempt (A : Type) : Type :=
| Completes (a : A)
| Throws (thinkOpen : bool).

Arguments Completes {A} a.
Arguments Throws {A} thinkOpen.

Section Proxy.

(** [JSON.parse], [None] being its [SyntaxError]. *)
Variable JSON_parse : jsstring -> option json.
Variable JSON_stringify : json -> jsstring.
(** [process.env.SHOW_REASONING !== 'false'] *)
Variable SHOW_REASONING : bool.
(** What [Date.now()] reads. *)
Variable Date_now : N.

(** *** The event-stream rewriter *)

(** [buildDeltaChunk(model, content)].  A [model] that is [undefined] leaves
    no trace in the serialized chunk, so the property is left out here. *)
Definition buildDeltaChunk (model : option json) (content : jsstring) : json :=
  JObj ([(str "id", JStr (str "chatcmpl-inject-" ++ dec Date_now));
         (str "object", JStr (str "chat.completion.chunk"));
         (str "created", JNum (dec (Date_now / 1000)))]
        ++ match model with Some m => [(str "model", m)] | None => [] end
        ++ [(str "choices",
             JArr [JObj [(str "index", JNum (str "0"));
                         (str "delta", JObj [(str "content", JStr content)]);
                         (str "finish_reason", JNull)]])]).

(** The body of the [try] from the reading of the two chunks to the last
    write to [delta.content], on a delta that is a plain object: the delta
    and [thinkOpen] afterwards, and what went into [inject].  The two
    [inject += ...] convert a chunk that is no string; a chunk that cannot
    be converted throws, after [thinkOpen] was set. *)
Definition splice_delta (d : object) (thinkOpen : bool)
  : attempt (object * bool * list piece) :=
  let reasoningChunk := nullish_or (lookup (str "reasoning_content") d) JNull in
  let contentChunk := nullish_or (lookup (str "content") d) JNull in
  let d := obj_delete (str "reasoning_content") d in
  if SHOW_REASONING then
    match
      (if truthy (Some reasoningChunk) then
         match ToString reasoningChunk with
         | Some text =>
             Completes ((if thinkOpen then [] else [Open]) ++ [Text text], true)
         | None => Throws true
         end
       else Completes ([], thinkOpen))
    with
    | Throws thinkOpen => Throws thinkOpen
    | Completes (inject, thinkOpen) =>
        match
          (if negb (is_null contentChunk) && negb (is_string contentChunk []) then
             match ToString contentChunk with
             | Some text =>
                 Completes (inject ++ (if thinkOpen then [Close] else [])
                                   ++ [Text text],
                            false)
             | None => Throws false
             end
           else Completes (inject, thinkOpen))
        with
        | Throws thinkOpen => Throws thinkOpen
        | Completes (inject, thinkOpen) =>
            let content :=
              match render inject with
              | _ :: _ => JStr (render inject)
              | [] => if is_string contentChunk [] then JStr [] else JNull
              end in
            let d := obj_set (str "content") content d in
            let d := if is_null content then obj_delete (str "content") d else d in
            Completes (d, thinkOpen, inject)
        end
    end
  else
    Completes
      (obj_set (str "content")
         (if negb (is_null contentChunk) then contentChunk else JStr []) d,
       thinkOpen, []).

(** The same on a decoded frame.  Reading [choices] of [null] throws.  A
    falsy delta is the early write of the unchanged frame.  A truthy delta
    that is no plain object (an array, a non-empty string, a number, [true])
    has neither field, and what the program stores on it does not reach the
    serialized frame. *)
Definition splice_frame (data : json) (thinkOpen : bool)
  : attempt (json * bool * list piece) :=
  match frame_delta data with
  | None => Throws thinkOpen
  | Some delta =>
      if negb (truthy delta) then Completes (data, thinkOpen, [])
      else match delta with
           | Some (JObj d) =>
               match splice_delta d thinkOpen with
               | Completes (d', thinkOpen', inject) =>
                   Completes (with_delta data d', thinkOpen', inject)
               | Throws thinkOpen' => Throws thinkOpen'
               end
           | _ => Completes (data, thinkOpen, [])
           end
  end.

(** One [res.write] of the stream handler. *)
Inductive output : Type :=
| Frame (data : json) (inject : list piece)  (* `data: ${JSON.stringify(data)}\n\n` *)
| Opaque (trimmed : jsstring)                (* trimmed + '\n' *)
| Done.                                      (* 'data: [DONE]\n\n' *)

(** The text written. *)
Definition write_of (o : output) : jsstring :=
  match o with
  | Frame data _ => str "data: " ++ JSON_stringify data ++ LF ++ LF
  | Opaque trimmed => trimmed ++ LF
  | Done => str "data: [DONE]" ++ LF ++ LF
  end.

(** The pieces a write carries. *)
Definition pieces_of (o : output) : list piece :=
  match o with
  | Frame _ inject => inject
  | _ => []
  end.

(** The body of [for (const line of lines)]; the [catch] writes the line of
    a payload that does not parse and of a frame the splice throws on. *)
Definition process_line (model : option json) (thinkOpen : bool) (line : jsstring)
  : list output * bool :=
  let trimmed := trim line in
  if jseqb trimmed [] then ([], thinkOpen)
  else if jseqb trimmed (str "data: [DONE]") then
    if thinkOpen && SHOW_REASONING then
      ([Frame (buildDeltaChunk model (render [CloseAtEnd])) [CloseAtEnd]; Done],
       false)
    else ([Done], thinkOpen)
  else if negb (startsWith (str "data: ") trimmed) then
    ([Opaque trimmed], thinkOpen)
  else
    match JSON_parse (slice 6 trimmed) with
    | None => ([Opaque trimmed], thinkOpen)
    | Some data =>
        match splice_frame data thinkOpen with
        | Completes (data', thinkOpen', inject) => ([Frame data' inject], thinkOpen')
        | Throws thinkOpen' => ([Opaque trimmed], thinkOpen')
        end
    end.

(** The [for] loop. *)
Fixpoint process_lines (model : option json) (thinkOpen : bool)
  (lines : list jsstring) : list output * bool :=
  match lines with
  | [] => ([], thinkOpen)
  | line :: rest =>
      let '(out1, thinkOpen1) := process_line model thinkOpen line in
      let '(out2, thinkOpen2) := process_lines model thinkOpen1 rest in
      (out1 ++ out2, thinkOpen2)
  end.

(** The two variables the ['data'] handler closes over. *)
Record state : Type := {
  buffer : jsstring;
  thinkOpen : bool
}.

Definition initial : state := {| buffer := []; thinkOpen := false |}.

(** The ['data'] handler, from the decoded text of the chunk on. *)
Definition on_text (model : option json) (st : state) (text : jsstring)
  : list output * state :=
  let '(lines, rest) := pop (split_lf (buffer st ++ text)) in
  let '(out, thinkOpen') := process_lines model (thinkOpen st) lines in
  (out, {| buffer := rest; thinkOpen := thinkOpen' |}).

(** The ['data'] handler. *)
Definition on_data (model : option json) (st : state) (chunk : list byte)
  : list output * state :=
  on_text model st (Buffer_toString chunk).

(** The handler over the chunks of a stream, in order of arrival. *)
Fixpoint on_chunks (model : option json) (st : state) (chunks : list (list byte))
  : list output * state :=
  match chunks with
  | [] => ([], st)
  | chunk :: rest =>
      let '(out1, st1) := on_data model st chunk in
      let '(out2, st2) := on_chunks model st1 rest in
      (out1 ++ out2, st2)
  end.

(** The same over chunks of text. *)
Fixpoint on_texts (model : option json) (st : state) (texts : list jsstring)
  : list output * state :=
  match texts with
  | [] => ([], st)
  | text :: rest =>
      let '(out1, st1) := on_text model st text in
      let '(out2, st2) := on_texts model st1 rest in
      (out1 ++ out2, st2)
  end.

(** What a frame shows a client as content: nothing for a missing or [null]
    content, the text otherwise (a content that has no text counts as none;
    the statements that compare contents leave such a content out). *)
Definition content_text (c : option json) : jsstring :=
  match c with
  | None | Some JNull => []
  | Some v => match ToString v with Some s => s | None => [] end
  end.

(** The frame a line decodes to, when it is a data record. *)
Definition line_frame (line : jsstring) : option json :=
  let trimmed := trim line in
  if jseqb trimmed [] then None
  else if jseqb trimmed (str "data: [DONE]") then None
  else if startsWith (str "data: ") trimmed then JSON_parse (slice 6 trimmed)
  else None.


(** The content a write carries out. *)
Definition output_content (o : output) : jsstring :=
  match o with
  | Frame data _ => content_text (delta_content data)
  | _ => []
  end.

(** *** The non-streaming translation *)

(** A property of an object literal whose value may be [undefined]:
    serialization leaves such a property out. *)
Definition field (k : string) (v : option json) : object :=
  match v with
  | Some x => [(str k, x)]
  | None => []
  end.

(** The callback of [response.data.choices.map]; [None] is a [TypeError]:
    of reading [message] of [null], or of the template literal on a
    reasoning or a content that cannot be converted. *)
Definition translate_choice (choice : json) : option json :=
  match choice with
  | JNull => None
  | _ =>
      let msg := nullish_or (prop choice (str "message")) (JObj []) in
      let finalContent := nullish_or (prop msg (str "content")) (JStr []) in
      match
        match prop msg (str "reasoning_content") with
        | Some reasoning =>
            if SHOW_REASONING && truthy (Some reasoning) then
              match ToString reasoning, ToString finalContent with
              | Some r, Some c =>
                  Some (JStr (str "<think>" ++ LF ++ r ++ LF
                              ++ str "</think>" ++ LF ++ LF ++ c))
              | _, _ => None
              end
            else Some finalContent
        | None => Some finalContent
        end
      with
      | Some finalContent =>
          Some (JObj (field "index" (prop choice (str "index"))
                      ++ [(str "message",
                           JObj [(str "role",
                                  nullish_or (prop msg (str "role"))
                                    (JStr (str "assistant")));
                                 (str "content", finalContent)])]
                      ++ field "finish_reason" (prop choice (str "finish_reason"))))
      | None => None
      end
  end.

(** The content of a translated choice. *)
Definition message_content (choice : json) : option json :=
  match prop choice (str "message") with
  | Some msg => prop msg (str "content")
  | None => None
  end.

Fixpoint map_all {A B : Type} (f : A -> option B) (l : list A) : option (list B) :=
  match l with
  | [] => Some []
  | x :: l' =>
      match f x, map_all f l' with
      | Some y, Some ys => Some (y :: ys)
      | _, _ => None
      end
  end.

(** The body of the non-streaming answer; [None] is a [TypeError]
    ([response.data] is [null], [choices] is no array, the callback
    throws). *)
Definition completion (model : option json) (data : json) : option json :=
  match data with
  | JNull => None
  | _ =>
      match prop data (str "choices") with
      | Some (JArr choices) =>
          match map_all translate_choice choices with
          | Some choices' =>
              Some (JObj ([(str "id", JStr (str "chatcmpl-" ++ dec Date_now));
                           (str "object", JStr (str "chat.completion"));
                           (str "created", JNum (dec (Date_now / 1000)))]
                          ++ field "model" model
                          ++ [(str "choices", JArr choices');
                              (str "usage",
                               nullish_or (prop data (str "usage"))
                                 (JObj [(str "prompt_tokens", JNum (str "0"));
                                        (str "completion_tokens", JNum (str "0"));
                                        (str "total_tokens", JNum (str "0"))]))]))
          | None => None
          end
      | _ => None
      end
  end.

(** *** The body of the upstream request *)

(** [v || d] *)
Definition or_else (v : option json) (d : json) : json :=
  match v with
  | Some x => if truthy v then x else d
  | None => d
  end.

Record nim_request : Type := {
  nim_model : option json;
  nim_messages : json;
  nim_temperature : json;
  nim_max_tokens : json;
  nim_stream : json
}.

(** The object literal [nimRequestBody], over the values the handler has at
    that point. *)
Definition nimRequestBody (nimModel : option json) (finalMessages : json)
  (temperature max_tokens stream : option json) : nim_request :=
  {| nim_model := nimModel;
     nim_messages := finalMessages;
     nim_temperature := nullish_or temperature (JNum (str "0.6"));
     nim_max_tokens := or_else max_tokens (JNum (str "16384"));
     nim_stream := or_else stream (JBool false) |}.

(** *** The reading of the request and the upstream call *)

Definition MODEL_MAPPING : list (string * string) :=
  [("gpt-3.5-turbo", "nvidia/llama-3.1-nemotron-ultra-253b-v1");
   ("gpt-4", "qwen/qwen3-235b-a22b");
   ("gpt-4-turbo", "deepseek-ai/deepseek-r1-0528");
   ("gpt-4o", "deepseek-ai/deepseek-v3");
   ("gpt-4o-mini", "meta/llama-3.3-70b-instruct");
   ("claude-3-opus", "nvidia/llama-3.1-nemotron-ultra-253b-v1");
   ("claude-3-sonnet", "qwen/qwen3-235b-a22b");
   ("claude-3-haiku", "deepseek-ai/deepseek-r1-distill-qwen-32b");
   ("gemini-pro", "deepseek-ai/deepseek-r1-0528")]%string.

Definition NATIVE_REASONING_MODELS : list string :=
  ["deepseek-ai/deepseek-r1-0528";
   "deepseek-ai/deepseek-r1-distill-qwen-32b";
   "deepseek-ai/deepseek-r1-distill-qwen-14b";
   "deepseek-ai/deepseek-r1-distill-llama-8b"]%string.

Definition QWEN3_THINKING_MODELS : list string :=
  ["qwen/qwen3-235b-a22b"; "qwen/qwen3-coder-480b-a35b-instruct"]%string.

Definition NEMOTRON_REASONING_MODELS : list string :=
  ["nvidia/llama-3.1-nemotron-ultra-253b-v1"]%string.

Definition NEMOTRON_THINKING_SYSTEM_PROMPT : string := "detailed thinking on".

(** The properties every object literal inherits from [Object.prototype]. *)
Definition Object_prototype_names : list string :=
  ["constructor"; "__defineGetter__"; "__defineSetter__"; "hasOwnProperty";
   "__lookupGetter__"; "__lookupSetter__"; "isPrototypeOf";
   "propertyIsEnumerable"; "toString"; "valueOf"; "__proto__";
   "toLocaleString"]%string.

(** What [nimModel] can hold: a JSON value or [undefined], or a value that a
    name of [Object.prototype] yields (a function, or the prototype itself
    for [__proto__]). *)
Inductive model_value : Type :=
| Json (v : option json)
| Inherited (name : jsstring).

(** An own property of a table of strings. *)
Fixpoint assoc (k : jsstring) (table : list (string * string)) : option jsstring :=
  match table with
  | [] => None
  | (name, id) :: rest => if jseqb k (str name) then Some (str id) else assoc k rest
  end.

(** [MODEL_MAPPING[model] || model]; [None] is the [TypeError] of a model
    that is no property key.  Every identifier of the table is a non-empty
    string, and so is truthy, as an inherited value is. *)
Definition resolve_model (model : option json) : option model_value :=
  match to_text model with
  | Some key =>
      Some match assoc key MODEL_MAPPING with
           | Some id => Json (Some (JStr id))
           | None =>
               if existsb (fun name => jseqb key (str name)) Object_prototype_names
               then Inherited key
               else Json model
           end
  | None => None
  end.

(** [set.has(nimModel)] for a [Set] of strings. *)
Definition has (set : list string) (v : model_value) : bool :=
  match v with
  | Json (Some (JStr s)) => existsb (fun x => jseqb s (str x)) set
  | _ => false
  end.

(** The own enumerable properties of the elements of an array, or of the
    code units of a string, from index [i] on. *)
Fixpoint indexed (i : N) (items : list json) : object :=
  match items with
  | [] => []
  | x :: rest => (dec i, x) :: indexed (i + 1) rest
  end.

(** [{ ...m }] *)
Definition spread (m : json) : object :=
  match m with
  | JObj o => o
  | JArr items => indexed 0 items
  | JStr s => indexed 0 (map (fun c => JStr [c]) s)
  | _ => []
  end.

(** The body of the request as axios serializes it: a function is left out,
    [Object.prototype] is an empty object. *)
Definition serialized (v : model_value) : option json :=
  match v with
  | Json m => m
  | Inherited name => if jseqb name (str "__proto__") then Some (JObj []) else None
  end.

(** What is handed to [axios.post]. *)
Record upstream_call : Type := {
  call_model : model_value;
  call_messages : list object;
  call_body : nim_request;
  call_kwargs : option json;        (* nimRequestBody.chat_template_kwargs *)
  call_authorization : jsstring;
  call_accept : jsstring;
  call_responseType : jsstring
}.

Section Request.

(** [process.env.ENABLE_THINKING_MODE !== 'false'] *)
Variable ENABLE_THINKING_MODE : bool.

(** [{ role: 'system', content: NEMOTRON_THINKING_SYSTEM_PROMPT }] *)
Definition system_message : object :=
  [(str "role", JStr (str "system"));
   (str "content", JStr (str NEMOTRON_THINKING_SYSTEM_PROMPT))].

(** [finalMessages] once the clones are made and the system prompt of
    Nemotron is in; [None] is the [TypeError] of a first content that cannot
    be converted to a string. *)
Definition finalMessages (nimModel : model_value) (messages : list json)
  : option (list object) :=
  let clones := map spread messages in
  if ENABLE_THINKING_MODE && has NEMOTRON_REASONING_MODELS nimModel then
    match clones with
    | first :: rest =>
        if match lookup (str "role") first with
           | Some role => is_string role (str "system")
           | None => false
           end
        then
          match to_text (lookup (str "content") first) with
          | Some content =>
              Some (obj_set (str "content")
                      (JStr (str NEMOTRON_THINKING_SYSTEM_PROMPT ++ LF ++ LF
                             ++ content))
                      first
                    :: rest)
          | None => None
          end
        else Some (system_message :: clones)
    | [] => Some [system_message]
    end
  else Some clones.

(** The [try] block up to the call of [axios.post]; [None] is a [TypeError]:
    of destructuring [null], of a model that is no property key, of
    [messages.map] on what is no array, or of a content that is no
    string. *)
Definition build_call (NIM_API_KEY : jsstring) (body : json) : option upstream_call :=
  match body with
  | JNull => None
  | _ =>
      let stream := prop body (str "stream") in
      match resolve_model (prop body (str "model")) with
      | Some nimModel =>
          match prop body (str "messages") with
          | Some (JArr messages) =>
              match finalMessages nimModel messages with
              | Some final =>
                  Some {| call_model := nimModel;
                          call_messages := final;
                          call_body :=
                            nimRequestBody (serialized nimModel)
                              (JArr (map JObj final))
                              (prop body (str "temperature"))
                              (prop body (str "max_tokens")) stream;
                          call_kwargs :=
                            if ENABLE_THINKING_MODE
                               && has QWEN3_THINKING_MODELS nimModel
                            then Some (JObj [(str "enable_thinking", JBool true)])
                            else None;
                          call_authorization := str "Bearer " ++ NIM_API_KEY;
                          call_accept :=
                            if truthy stream then str "text/event-stream"
                            else str "application/json";
                          call_responseType :=
                            if truthy stream then str "stream" else str "json" |}
              | None => None
              end
          | _ => None
          end
      | None => None
      end
  end.

End Request.

(** *** Errors and the response *)

(** What the handler does to [res] that reaches the client.  [res.setHeader]
    only records a header; the first of these actions sends the headers. *)
Inductive action : Type :=
| Write (text : jsstring)              (* res.write(text) *)
| SendJson (status : N) (body : json)  (* res.status(status).json(body) *)
| End.                                 (* res.end() *)

(** [res.headersSent] *)
Definition headersSent (log : list action) : bool :=
  match log with
  | [] => false
  | _ :: _ => true
  end.

(** [error.response.data]: for a call made with responseType 'json' the
    body of the answer, parsed when it is JSON text and a string when it is
    not; for a call made with responseType 'stream' the response stream. *)
Inductive response_data : Type :=
| Body (data : json)
| BodyStream.

(** An exception: [error.response] (status and data) and [error.message]. *)
Record js_error : Type := {
  response : option (N * response_data);
  message : jsstring
}.

(** [error.response?.status || 500] *)
Definition error_status (e : js_error) : N :=
  match response e with
  | Some (status, _) => if status =? 0 then 500 else status
  | None => 500
  end.

(** [error.response?.data || error.message]; a stream is an object, and so
    is truthy. *)
Definition error_detail (e : js_error) : response_data :=
  match response e with
  | Some (_, Body data) =>
      if truthy (Some data) then Body data else Body (JStr (message e))
  | Some (_, BodyStream) => BodyStream
  | None => Body (JStr (message e))
  end.

(** The JSON error object of the [catch], for a [detail] that is no
    stream. *)
Definition error_body (status : N) (detail : json) : json :=
  JObj [(str "error",
         JObj [(str "message",
                match detail with
                | JNull | JArr _ | JObj _ => JStr (JSON_stringify detail)
                | _ => or_else (Some detail) (JStr (str "Internal server error"))
                end);
               (str "type", JStr (str "proxy_error"));
               (str "code", JNum (dec status))])].

(** The [catch], after the [log] of what reached the client.  For a detail
    that is the response stream, [JSON.stringify(detail)] in the call of
    [console.error] throws (the stream refers to itself through its socket)
    and the handler is left with nothing sent. *)
Definition catch_block (e : js_error) (log : list action) : list action :=
  match error_detail e with
  | BodyStream => log
  | Body detail =>
      if headersSent log then log
      else log ++ [SendJson (error_status e) (error_body (error_status e) detail)]
  end.

(** What the upstream stream emits. *)
Inductive stream_event : Type :=
| OnData (chunk : list byte)
| OnEnd
| OnError (message : jsstring).

(** What [axios.post] comes to.  A rejection has the message of its error
    and, when the provider answered (with a status that is no success), the
    status and the body of the answer, the body as responseType 'json'
    presents it.  A response has as [data] the parsed body (responseType
    'json') or the stream emitting [events] (responseType 'stream'). *)
Inductive upstream : Type :=
| Rejects (answered : option (N * json)) (message : jsstring)
| Resolves (data : json) (events : list stream_event).

(** The error of a rejected call: with responseType 'stream' its
    [response.data] is the response stream. *)
Definition axios_error (stream : bool) (answered : option (N * json))
  (message : jsstring) : js_error :=
  {| response :=
       match answered with
       | Some (status, data) =>
           Some (status, if stream then BodyStream else Body data)
       | None => None
       end;
     message := message |}.

(** The three listeners on [response.data], over the events in order. *)
Fixpoint listeners (model : option json) (st : state) (events : list stream_event)
  : list action :=
  match events with
  | [] => []
  | OnData chunk :: rest =>
      let '(out, st') := on_data model st chunk in
      map (fun o => Write (write_of o)) out ++ listeners model st' rest
  | OnEnd :: _ => [End]
  | OnError _ :: _ => [End]
  end.

Section Handler.

(** [process.env.ENABLE_THINKING_MODE !== 'false'] *)
Variable ENABLE_THINKING_MODE : bool.

(** The text of the engine's [TypeError]s, which the handler only passes on. *)
Variable TypeError_message : jsstring.

Definition TypeError : js_error :=
  {| response := None; message := TypeError_message |}.

(** The [try] block, for a key that is set: what reached the client, and
    the exception thrown if any.  The reading of the request and the
    building of the call are [build_call]; what the call comes to is an
    input. *)
Definition try_block (NIM_API_KEY : jsstring) (body : json) (up : upstream)
  : list action * option js_error :=
  match build_call ENABLE_THINKING_MODE NIM_API_KEY body with
  | None => ([], Some TypeError)
  | Some _ =>
      let model := prop body (str "model") in
      let stream := truthy (prop body (str "stream")) in
      match up with
      | Rejects answered message => ([], Some (axios_error stream answered message))
      | Resolves data events =>
          if stream then (listeners model initial events, None)
          else
            match completion model data with
            | Some answer => ([SendJson 200 answer], None)
            | None => ([], Some TypeError)
            end
      end
  end.

(** [app.post('/v1/chat/completions', ...)] *)
Definition handler (NIM_API_KEY : option jsstring) (body : json) (up : upstream)
  : list action :=
  match NIM_API_KEY with
  | None | Some [] =>
      [SendJson 500
         (JObj [(str "error",
                 JObj [(str "message",
                        JStr (str "NIM_API_KEY environment variable not set"));
                       (str "type", JStr (str "server_error"))])])]
  | Some key =>
      let '(log, thrown) := try_block key body up in
      match thrown with
      | None => log
      | Some e => catch_block e log
      end
  end.

End Handler.

(** The pieces of a run of writes, in order. *)
Definition pieces (out : list output) : list piece := flat_map pieces_of out.

(** A frame whose only choice holds the delta [d]. *)
Definition frame_of (d : object) : json :=
  JObj [(str "choices", JArr [JObj [(str "delta", JObj d)]])].

(** *** Decoding a stream of chunks *)

(** The decoder over the bytes of a chunk, without the replacement of a
    sequence the chunk leaves unfinished: what is emitted, and the state
    reached. *)
Fixpoint utf8_feed (st : utf8_state) (bs : list byte) : jsstring * utf8_state :=
  match bs with
  | [] => ([], st)
  | b :: bs' =>
      let '(out1, st1) := utf8_step st b in
      let '(out2, st2) := utf8_feed st1 bs' in
      (out1 ++ out2, st2)
  end.

(** The chunk does not end inside a multi-byte sequence. *)
Definition ends_on_boundary (chunk : list byte) : Prop :=
  needed (snd (utf8_feed utf8_start chunk)) = O.

(** *** The texts of a frame *)

(** The upstream texts among pieces, the markers left out. *)
Definition texts_of (ps : list piece) : list jsstring :=
  flat_map (fun p => match p with Text s => [s] | _ => [] end) ps.

(** The text of a value, when it has one. *)
Definition text_of (v : json) : list jsstring :=
  match ToString v with
  | Some s => [s]
  | None => []
  end.

(** The reasoning text and the content text the delta of a frame carries:
    the reasoning when it is truthy, the content when it is neither missing,
    [null] nor empty. *)
Definition frame_texts (data : json) : list jsstring :=
  match frame_delta data with
  | Some (Some (JObj d)) =>
      let reasoning := nullish_or (lookup (str "reasoning_content") d) JNull in
      let content := nullish_or (lookup (str "content") d) JNull in
      (if truthy (Some reasoning) then text_of reasoning else [])
      ++ (if negb (is_null content) && negb (is_string content [])
          then text_of content else [])
  | _ => []
  end.

Definition line_texts (line : jsstring) : list jsstring :=
  match line_frame line with
  | Some data => frame_texts data
  | None => []
  end.

Definition is_write (a : action) : Prop :=
  match a with Write _ => True | _ => False end.

(** *** Frames the splice converts *)

(** A frame whose reasoning and content, in the delta of its first choice,
    have a text: the conversions of the splice do not throw on it. *)
Definition textual (data : json) : bool :=
  converts (delta_reasoning data) && converts (delta_content data).

Definition textual_line (line : jsstring) : bool :=
  match line_frame line with
  | Some data => textual data
  | None => true
  end.

(** The lines of a text that a line feed closes. *)
Definition complete_lines (text : jsstring) : list jsstring :=
  fst (pop (split_lf text)).


(** A choice the callback of the non-streaming translation throws on: it is
    [null], or reasoning is displayed and the truthy reasoning of its
    message, or the content beside it, cannot be converted. *)
Definition untranslatable (choice : json) : Prop :=
  choice = JNull
  \/ (SHOW_REASONING = true
      /\ exists reasoning,
           let msg := nullish_or (prop choice (str "message")) (JObj []) in
           prop msg (str "reasoning_content") = Some reasoning
           /\ truthy (Some reasoning) = true
           /\ (ToString reasoning = None
               \/ ToString (nullish_or (prop msg (str "content")) (JStr [])) = None)).


(** ** Properties *)

(** *** Strings and objects *)

Lemma jseqb_eq (a b : jsstring) : jseqb a b = true <-> a = b.
Proof.
  revert b; induction a as [|x a IH]; intros [|y b]; simpl.
  - tauto.
  - split; intros H; inversion H.
  - split; intros H; inversion H.
  - rewrite andb_true_iff, N.eqb_eq, IH. split.
    + intros [-> ->]. reflexivity.
    + intros H. inversion H. auto.
Qed.

Lemma jseqb_refl (a : jsstring) : jseqb a a = true.
Proof. now apply jseqb_eq. Qed.

Lemma lookup_obj_set_same (k : jsstring) (v : json) (o : object) :
  lookup k (obj_set k v o) = Some v.
Proof.
  induction o as [|[k' v'] o IH]; simpl.
  - now rewrite jseqb_refl.
  - destruct (jseqb k k') eqn:E; simpl; rewrite E; auto.
Qed.

Lemma lookup_obj_set_other (k1 k : jsstring) (v : json) (o : object) :
  jseqb k1 k = false -> lookup k1 (obj_set k v o) = lookup k1 o.
Proof.
  intros Hk. induction o as [|[k' v'] o IH]; simpl.
  - now rewrite Hk.
  - destruct (jseqb k k') eqn:E; simpl.
    + apply jseqb_eq in E. subst k'. now rewrite Hk.
    + now rewrite IH.
Qed.

Lemma lookup_obj_delete_same (k : jsstring) (o : object) :
  lookup k (obj_delete k o) = None.
Proof.
  induction o as [|[k' v'] o IH]; simpl; auto.
  destruct (jseqb k k') eqn:E; simpl; auto. now rewrite E.
Qed.

Lemma lookup_obj_delete_other (k1 k : jsstring) (o : object) :
  jseqb k1 k = false -> lookup k1 (obj_delete k o) = lookup k1 o.
Proof.
  intros Hk. induction o as [|[k' v'] o IH]; simpl; auto.
  destruct (jseqb k k') eqn:E; simpl.
  - apply jseqb_eq in E. subst k'. now rewrite Hk.
  - now rewrite IH.
Qed.

(** The delta read back from a frame is the one [with_delta] stored. *)
Lemma frame_delta_with_delta (data : json) (d d' : object) :
  frame_delta data = Some (Some (JObj d)) ->
  frame_delta (with_delta data d') = Some (Some (JObj d')).
Proof.
  destruct data as [| | | | |o]; simpl; try discriminate.
  destruct (lookup (str "choices") o) as [choices|] eqn:Hc; try discriminate.
  destruct choices as [| | |s|items|co]; simpl; try discriminate.
  - destruct s; simpl; discriminate.
  - destruct items as [|choice rest]; simpl; try discriminate.
    destruct choice as [| | | | |c]; simpl; try discriminate.
    intros H. rewrite lookup_obj_set_same. simpl.
    now rewrite lookup_obj_set_same.
  - destruct (lookup (dec 0) co) as [choice|] eqn:H0; try discriminate.
    destruct choice as [| | | | |c]; simpl; try discriminate.
    intros H. rewrite lookup_obj_set_same. simpl.
    rewrite lookup_obj_set_same. simpl.
    now rewrite lookup_obj_set_same.
Qed.

Lemma delta_content_with_delta (data : json) (d d' : object) :
  frame_delta data = Some (Some (JObj d)) ->
  delta_content (with_delta data d') = lookup (str "content") d'.
Proof.
  intros H. unfold delta_content.
  now rewrite (frame_delta_with_delta _ _ d' H).
Qed.

Lemma delta_reasoning_with_delta (data : json) (d d' : object) :
  frame_delta data = Some (Some (JObj d)) ->
  delta_reasoning (with_delta data d') = lookup (str "reasoning_content") d'.
Proof.
  intros H. unfold delta_reasoning.
  now rewrite (frame_delta_with_delta _ _ d' H).
Qed.

(** *** The cases of a line *)

Lemma process_line_blank (model : option json) (o : bool) (line : jsstring) :
  trim line = [] -> process_line model o line = ([], o).
Proof. intros H. unfold process_line. now rewrite H. Qed.

Lemma process_line_done (model : option json) (o : bool) (line : jsstring) :
  trim line = str "data: [DONE]" ->
  process_line model o line =
    if o && SHOW_REASONING then
      ([Frame (buildDeltaChunk model (render [CloseAtEnd])) [CloseAtEnd]; Done],
       false)
    else ([Done], o).
Proof. intros H. unfold process_line. now rewrite H. Qed.

Lemma process_line_frame (model : option json) (o : bool) (line : jsstring)
  (data : json) :
  line_frame line = Some data ->
  process_line model o line =
    match splice_frame data o with
    | Completes (data', o', inject) => ([Frame data' inject], o')
    | Throws o' => ([Opaque (trim line)], o')
    end.
Proof.
  unfold line_frame, process_line.
  destruct (jseqb (trim line) []); try discriminate.
  destruct (jseqb (trim line) (str "data: [DONE]")); try discriminate.
  destruct (startsWith (str "data: ") (trim line)); try discriminate.
  simpl. now intros ->.
Qed.

Lemma process_line_opaque (model : option json) (o : bool) (line : jsstring) :
  trim line <> [] -> trim line <> str "data: [DONE]" ->
  line_frame line = None ->
  process_line model o line = ([Opaque (trim line)], o).
Proof.
  unfold line_frame, process_line. intros H1 H2.
  destruct (jseqb (trim line) []) eqn:E1.
  { apply jseqb_eq in E1. contradiction. }
  destruct (jseqb (trim line) (str "data: [DONE]")) eqn:E2.
  { apply jseqb_eq in E2. contradiction. }
  destruct (startsWith (str "data: ") (trim line)); simpl; auto.
  now intros ->.
Qed.

Lemma line_cases (line : jsstring) :
  trim line = [] \/ trim line = str "data: [DONE]" \/
  (trim line <> [] /\ trim line <> str "data: [DONE]" /\ line_frame line = None) \/
  (exists data, line_frame line = Some data).
Proof.
  destruct (jseqb (trim line) []) eqn:E1.
  { left. now apply jseqb_eq. }
  destruct (jseqb (trim line) (str "data: [DONE]")) eqn:E2.
  { right; left. now apply jseqb_eq. }
  destruct (line_frame line) as [data|] eqn:E3.
  { right; right; right. now exists data. }
  right; right; left. repeat split; auto.
  - intros H. apply jseqb_eq in H. congruence.
  - intros H. apply jseqb_eq in H. congruence.
Qed.

Lemma process_lines_app (model : option json) (o : bool) (l1 l2 : list jsstring) :
  process_lines model o (l1 ++ l2) =
    let '(out1, o1) := process_lines model o l1 in
    let '(out2, o2) := process_lines model o1 l2 in
    (out1 ++ out2, o2).
Proof.
  revert o; induction l1 as [|line l1 IH]; intros o; simpl.
  - now destruct (process_lines model o l2).
  - destruct (process_line model o line) as [outa oa].
    rewrite IH.
    destruct (process_lines model oa l1) as [outb ob].
    destruct (process_lines model ob l2) as [outc oc].
    now rewrite app_assoc.
Qed.

(** *** The span and its markers *)

Lemma span_after_app (o : bool) (a b : list piece) :
  span_after o (a ++ b) =
    match span_after o a with
    | Some o1 => span_after o1 b
    | None => None
    end.
Proof.
  revert o; induction a as [|p a IH]; intros o; simpl; auto.
  destruct p, o; simpl; auto.
Qed.

Lemma span_closed_has_close (ps : list piece) :
  span_after true ps = Some false -> In Close ps \/ In CloseAtEnd ps.
Proof.
  induction ps as [|p ps IH]; simpl; try discriminate.
  destruct p; simpl; try discriminate; auto.
  intros H. destruct (IH H); auto.
Qed.

Lemma span_balanced_has_close (ps : list piece) :
  span_after false ps = Some false ->
  In Open ps -> In Close ps \/ In CloseAtEnd ps.
Proof.
  induction ps as [|p ps IH]; simpl; try tauto.
  destruct p; simpl; try discriminate.
  - intros H _. destruct (span_closed_has_close _ H); auto.
  - intros H [Hd|Hin]; try discriminate. destruct (IH H Hin); auto.
Qed.

(** The splice keeps the span in step with the markers it writes, and opens
    it only when reasoning is displayed. *)
Lemma splice_delta_span (d d' : object) (o o' : bool) (inject : list piece) :
  splice_delta d o = Completes (d', o', inject) ->
  span_after o inject = Some o' /\ (o' = true -> o = true \/ SHOW_REASONING = true).
Proof.
  unfold splice_delta. destruct SHOW_REASONING.
  - destruct (truthy _); [destruct (ToString _); try discriminate|];
      (destruct (negb _ && negb _); [destruct (ToString _); try discriminate|]);
      destruct o; intros H; injection H as _ <- <-; simpl; auto.
  - intros H; injection H as _ <- <-; simpl; auto.
Qed.

(** It throws only when reasoning is displayed. *)
Lemma splice_delta_throws (d : object) (o o' : bool) :
  splice_delta d o = Throws o' -> SHOW_REASONING = true.
Proof.
  unfold splice_delta. destruct SHOW_REASONING; auto. discriminate.
Qed.

Lemma converts_text (v : option json) :
  converts v = true -> ToString (nullish_or v JNull) <> None.
Proof.
  unfold converts, to_text. destruct v as [x|]; [|discriminate].
  assert (E : nullish_or (Some x) JNull = x) by (destruct x; reflexivity).
  rewrite E. destruct (ToString x); intros H; [discriminate | discriminate H].
Qed.

Lemma converts_false (v : option json) :
  converts v = false -> ToString (nullish_or v JNull) = None.
Proof.
  unfold converts, to_text. destruct v as [x|]; [|discriminate].
  assert (E : nullish_or (Some x) JNull = x) by (destruct x; reflexivity).
  rewrite E. destruct (ToString x); [discriminate | reflexivity].
Qed.

(** What has no text is an array or an object. *)
Lemma unconvertible (x : json) :
  ToString x = None ->
  truthy (Some x) = true /\ is_null x = false /\ is_string x [] = false.
Proof. destruct x as [|[]| | | |]; simpl; try discriminate; auto. Qed.

(** It completes on a delta whose reasoning and content have a text. *)
Lemma splice_delta_completes (d : object) (o : bool) :
  converts (lookup (str "reasoning_content") d) = true ->
  converts (lookup (str "content") d) = true ->
  exists r, splice_delta d o = Completes r.
Proof.
  intros Hr Hc. apply converts_text in Hr. apply converts_text in Hc.
  unfold splice_delta. destruct SHOW_REASONING; eauto.
  destruct (ToString (nullish_or (lookup (str "reasoning_content") d) JNull));
    try contradiction.
  destruct (ToString (nullish_or (lookup (str "content") d) JNull));
    try contradiction.
  destruct (truthy _), (negb _ && negb _); eauto.
Qed.

(** With reasoning displayed, it throws on a delta whose reasoning or
    content has no text. *)
Lemma splice_delta_throws_on (d : object) (o : bool) :
  SHOW_REASONING = true ->
  converts (lookup (str "reasoning_content") d)
  && converts (lookup (str "content") d) = false ->
  exists o', splice_delta d o = Throws o'.
Proof.
  intros HS H. unfold splice_delta. rewrite HS.
  destruct (converts (lookup (str "reasoning_content") d)) eqn:Er.
  - apply converts_text in Er. simpl in H. apply converts_false in H.
    destruct (unconvertible _ H) as (_ & Hn & He). rewrite Hn, He, H.
    destruct (ToString (nullish_or (lookup (str "reasoning_content") d) JNull));
      [|contradiction].
    destruct (truthy _); simpl; eauto.
  - apply converts_false in Er.
    destruct (unconvertible _ Er) as (Ht & _). rewrite Ht, Er. eauto.
Qed.

Lemma splice_frame_span (data data' : json) (o o' : bool) (inject : list piece) :
  splice_frame data o = Completes (data', o', inject) ->
  span_after o inject = Some o' /\ (o' = true -> o = true \/ SHOW_REASONING = true).
Proof.
  unfold splice_frame.
  destruct (frame_delta data) as [delta|]; try discriminate.
  destruct (negb (truthy delta)).
  { intros H; injection H as _ <- <-; simpl; auto. }
  destruct delta as [[| | | | |d]|];
    try (intros H; injection H as _ <- <-; simpl; auto).
  destruct (splice_delta d o) as [[[d1 o1] inj1]|o1] eqn:E; try discriminate.
  intros H; injection H as _ <- <-. eapply splice_delta_span; eauto.
Qed.

Lemma splice_frame_throws (data : json) (o o' : bool) :
  splice_frame data o = Throws o' -> o' = o \/ SHOW_REASONING = true.
Proof.
  unfold splice_frame.
  destruct (frame_delta data) as [delta|].
  - destruct (negb (truthy delta)); try discriminate.
    destruct delta as [[| | | | |d]|]; try discriminate.
    destruct (splice_delta d o) as [[[d1 o1] inj1]|o1] eqn:E; try discriminate.
    intros _. right. eapply splice_delta_throws; eauto.
  - intros H; injection H as <-. auto.
Qed.

Lemma frame_delta_dec (data : json) :
  (exists d, frame_delta data = Some (Some (JObj d)))
  \/ (forall d, frame_delta data <> Some (Some (JObj d))).
Proof.
  destruct (frame_delta data) as [[[]|]|]; try (right; intros d; discriminate).
  left. eauto.
Qed.

Lemma splice_frame_object (data : json) (d : object) (o : bool) :
  frame_delta data = Some (Some (JObj d)) ->
  splice_frame data o =
    match splice_delta d o with
    | Completes (d', o', inject) => Completes (with_delta data d', o', inject)
    | Throws o' => Throws o'
    end.
Proof. intros H. unfold splice_frame. now rewrite H. Qed.

Lemma splice_frame_plain (data : json) (o : bool) :
  (forall d, frame_delta data <> Some (Some (JObj d))) ->
  (data = JNull /\ splice_frame data o = Throws o)
  \/ (data <> JNull /\ splice_frame data o = Completes (data, o, [])).
Proof.
  intros H. unfold splice_frame.
  destruct (frame_delta data) as [[delta|]|] eqn:E.
  - right. split; [intros ->; discriminate|].
    destruct delta; simpl; auto.
    + destruct b; auto.
    + destruct (negb _); auto.
    + destruct (negb _); auto.
    + now destruct (H props).
  - right. split; [intros ->; discriminate | reflexivity].
  - left. split; auto. destruct data; try discriminate. reflexivity.
Qed.

(** A frame that is not [null] and whose reasoning and content have a text
    is spliced. *)
Lemma splice_frame_completes (data : json) (o : bool) :
  data <> JNull -> textual data = true ->
  exists r, splice_frame data o = Completes r.
Proof.
  intros Hn Ht. destruct (frame_delta_dec data) as [[d Hd]|Hd].
  - rewrite (splice_frame_object _ _ _ Hd).
    unfold textual, delta_reasoning, delta_content in Ht. rewrite Hd in Ht.
    apply andb_true_iff in Ht as [Hr Hc].
    destruct (splice_delta_completes d o Hr Hc) as [[[d1 o1] inj1] ->]. eauto.
  - destruct (splice_frame_plain data o Hd) as [[E _]|[_ E]];
      [contradiction | eauto].
Qed.

Lemma splice_frame_throws_on (data : json) (o : bool) :
  SHOW_REASONING = true -> textual data = false ->
  exists o', splice_frame data o = Throws o'.
Proof.
  intros HS Ht. destruct (frame_delta_dec data) as [[d Hd]|Hd].
  - rewrite (splice_frame_object _ _ _ Hd).
    unfold textual, delta_reasoning, delta_content in Ht. rewrite Hd in Ht.
    destruct (splice_delta_throws_on d o HS Ht) as [o' ->]. eauto.
  - unfold textual, delta_reasoning, delta_content in Ht.
    destruct (frame_delta data) as [[[]|]|]; try discriminate.
    now destruct (Hd props).
Qed.

Lemma process_line_span (model : option json) (o o' : bool) (line : jsstring)
  (out : list output) :
  process_line model o line = (out, o') ->
  (o' = true -> o = true \/ SHOW_REASONING = true)
  /\ (textual_line line = true -> span_after o (pieces out) = Some o').
Proof.
  destruct (line_cases line) as [H|[H|[(H1 & H2 & H3)|[data H]]]].
  - rewrite (process_line_blank _ _ _ H). intros E; injection E as <- <-; auto.
  - rewrite (process_line_done _ _ _ H).
    destruct o, SHOW_REASONING; simpl; intros E; injection E as <- <-; auto.
  - rewrite (process_line_opaque _ _ _ H1 H2 H3).
    intros E; injection E as <- <-; auto.
  - rewrite (process_line_frame _ _ _ _ H). unfold textual_line. rewrite H.
    destruct (splice_frame data o) as [[[data1 o1] inj1]|o1] eqn:E.
    + intros E'; injection E' as <- <-. unfold pieces; simpl.
      rewrite app_nil_r. destruct (splice_frame_span _ _ _ _ _ E). auto.
    + intros E'; injection E' as <- <-. split.
      * intros ->. destruct (splice_frame_throws _ _ _ E); auto.
      * intros Ht. simpl. destruct data as [| | | | |p].
        -- unfold splice_frame in E. simpl in E. now injection E as <-.
        -- destruct (splice_frame_completes (JBool b) o) as [r Hr];
             [discriminate | exact Ht | congruence].
        -- destruct (splice_frame_completes (JNum repr) o) as [r Hr];
             [discriminate | exact Ht | congruence].
        -- destruct (splice_frame_completes (JStr s) o) as [r Hr];
             [discriminate | exact Ht | congruence].
        -- destruct (splice_frame_completes (JArr items) o) as [r Hr];
             [discriminate | exact Ht | congruence].
        -- destruct (splice_frame_completes (JObj p) o) as [r Hr];
             [discriminate | exact Ht | congruence].
Qed.

Lemma process_lines_span (model : option json) (lines : list jsstring) :
  forall (o o' : bool) (out : list output),
    (o = true -> SHOW_REASONING = true) ->
    process_lines model o lines = (out, o') ->
    (o' = true -> SHOW_REASONING = true)
    /\ (Forall (fun l => textual_line l = true) lines ->
        span_after o (pieces out) = Some o').
Proof.
  induction lines as [|line lines IH]; intros o o' out Hg; simpl.
  - intros E; injection E as <- <-; auto.
  - destruct (process_line model o line) as [out1 o1] eqn:E1.
    destruct (process_lines model o1 lines) as [out2 o2] eqn:E2.
    intros E; injection E as <- <-.
    destruct (process_line_span _ _ _ _ _ E1) as [G1 S1].
    assert (Hg1 : o1 = true -> SHOW_REASONING = true).
    { intros H. destruct (G1 H); auto. }
    destruct (IH _ _ _ Hg1 E2) as [G2 S2].
    split; auto. intros Ht. inversion Ht as [|? ? Ht1 Ht2]; subst.
    unfold pieces in *. rewrite flat_map_app, span_after_app.
    rewrite (S1 Ht1). auto.
Qed.

(** *** The terminator *)

(** C1 (amended).  Let the lines of a stream be processed from the start
    and a terminator line (one that trims to [data: [DONE]]) come after
    them.  If [thinkOpen] is set when the terminator comes, the rewriter
    writes exactly two records: a synthesized data record, the chunk of
    [buildDeltaChunk] whose delta content is exactly the closing marker text
    ['</think>\n\n'], and then the terminator.  Whatever comes after the
    terminator, what is written up to it is written first, the terminator
    is its last record and [thinkOpen] is clear after it.  When the
    reasoning and the content of every frame before the terminator have a
    text, [thinkOpen] is the span of the markers written, the markers
    written up to the terminator alternate as opening, closing, opening,
    closing from a closed span back to a closed span, and so an opening
    marker among them comes with a closing one, no later than the
    terminator. *)
Theorem terminator_closes_open_span
  (model : option json) (lines after : list jsstring) (t : jsstring)
  (out : list output) (o : bool) :
  trim t = str "data: [DONE]" ->
  process_lines model false lines = (out, o) ->
  (o = true ->
     process_line model o t =
       ([Frame (buildDeltaChunk model (str "</think>" ++ LF ++ LF)) [CloseAtEnd];
         Done], false)
     /\ delta_content (buildDeltaChunk model (str "</think>" ++ LF ++ LF))
        = Some (JStr (str "</think>" ++ LF ++ LF))
     /\ map write_of (fst (process_line model o t)) =
          [str "data: "
             ++ JSON_stringify (buildDeltaChunk model (str "</think>" ++ LF ++ LF))
             ++ LF ++ LF;
           str "data: [DONE]" ++ LF ++ LF])
  /\ (exists out',
        process_lines model false (lines ++ [t]) = (out ++ out', false)
        /\ process_lines model false (lines ++ t :: after)
           = (out ++ out' ++ fst (process_lines model false after),
              snd (process_lines model false after))
        /\ (exists before, out' = before ++ [Done])
        /\ (Forall (fun l => textual_line l = true) lines ->
            span_after false (pieces out) = Some o
            /\ span_after false (pieces (out ++ out')) = Some false
            /\ (In Open (pieces (out ++ out')) ->
                In Close (pieces (out ++ out'))
                \/ In CloseAtEnd (pieces (out ++ out'))))).
Proof.
  intros Ht Hrun.
  destruct (process_lines_span model lines false o out) as [Hshow Hspan];
    auto; try discriminate.
  assert (Hdone := process_line_done model o t Ht).
  split.
  - intros ->. rewrite Hdone, (Hshow eq_refl). simpl.
    repeat split. destruct model; reflexivity.
  - exists (fst (process_line model o t)).
    assert (Hafter : snd (process_line model o t) = false).
    { rewrite Hdone. destruct o; simpl; auto. now rewrite (Hshow eq_refl). }
    rewrite !process_lines_app, Hrun. simpl.
    destruct (process_line model o t) as [out' o1] eqn:E. simpl in *. subst o1.
    destruct (process_lines model false after) as [out2 o2]. simpl.
    rewrite app_nil_r. split; [reflexivity|]. split; [reflexivity|].
    assert (Hout : out' = (if o && SHOW_REASONING
                           then [Frame (buildDeltaChunk model (render [CloseAtEnd]))
                                   [CloseAtEnd]]
                           else []) ++ [Done]
                   /\ span_after o (pieces out') = Some false).
    { clear E. destruct o.
      - rewrite (Hshow eq_refl) in Hdone |- *. simpl in Hdone.
        injection Hdone as ->. auto.
      - simpl in Hdone. injection Hdone as ->. auto. }
    destruct Hout as [Hout Hclose]. split; [eauto|].
    intros Htext. specialize (Hspan Htext).
    assert (S : span_after false (pieces (out ++ out')) = Some false).
    { unfold pieces in *. now rewrite flat_map_app, span_after_app, Hspan. }
    repeat split; auto. now apply span_balanced_has_close.
Qed.

(** *** The content of the spliced delta *)

Lemma content_assignment (built : jsstring) (c : json) (d0 : object) :
  let content :=
    match built with
    | _ :: _ => JStr built
    | [] => if is_string c [] then JStr [] else JNull
    end in
  let d1 := obj_set (str "content") content d0 in
  let d2 := if is_null content then obj_delete (str "content") d1 else d1 in
  (built <> [] -> lookup (str "content") d2 = Some (JStr built))
  /\ (built = [] -> is_string c [] = true -> lookup (str "content") d2 = Some (JStr []))
  /\ (built = [] -> is_string c [] = false -> lookup (str "content") d2 = None).
Proof.
  destruct built as [|u built]; simpl.
  - destruct (is_string c []); simpl; repeat split; intros;
      try congruence; auto using lookup_obj_set_same, lookup_obj_delete_same.
  - repeat split; intros; try discriminate. apply lookup_obj_set_same.
Qed.

Lemma splice_delta_content (d d' : object) (o o' : bool) (inject : list piece) :
  SHOW_REASONING = true ->
  splice_delta d o = Completes (d', o', inject) ->
  (render inject <> [] -> lookup (str "content") d' = Some (JStr (render inject)))
  /\ (render inject = [] -> lookup (str "content") d = Some (JStr []) ->
      lookup (str "content") d' = Some (JStr []))
  /\ (render inject = [] ->
      lookup (str "content") d = None \/ lookup (str "content") d = Some JNull ->
      lookup (str "content") d' = None).
Proof.
  intros HS. unfold splice_delta. rewrite HS.
  set (r := nullish_or (lookup (str "reasoning_content") d) JNull).
  set (c := nullish_or (lookup (str "content") d) JNull).
  assert (Hc1 : lookup (str "content") d = Some (JStr []) -> is_string c [] = true).
  { intros E. unfold c. now rewrite E. }
  assert (Hc2 : lookup (str "content") d = None \/ lookup (str "content") d = Some JNull ->
                is_string c [] = false).
  { intros [E|E]; unfold c; now rewrite E. }
  destruct (truthy (Some r)); [destruct (ToString r); try discriminate|];
    (destruct (negb (is_null c) && negb (is_string c []));
     [destruct (ToString c); try discriminate|]);
    cbv beta iota zeta; intros H; injection H as <- <- <-;
    match goal with
    | |- (render ?i <> [] -> _) /\ _ =>
        destruct (content_assignment (render i) c
                    (obj_delete (str "reasoning_content") d)) as (P1 & P2 & P3)
    end;
    repeat split; intros; auto.
Qed.

(** C2 (amended).  With reasoning displayed, a frame that is not [null] and
    whose reasoning and content have a text is spliced, and a frame whose
    reasoning or content has no text is not: the splice throws on it (and
    its line is written as it came).  Whenever the splice completes on a
    frame ([inject] being what it built): the content
    of the outgoing delta is the built string when that is not empty; it is
    the empty string when the built string is empty and the incoming
    content was the empty string; and the delta has no content property at
    all (rather than a [null] one) when the built string is empty and the
    incoming content was missing or [null]. *)
Theorem splice_sets_content (data : json) (o : bool) :
  SHOW_REASONING = true ->
  (data <> JNull -> textual data = true ->
   exists data' o' inject, splice_frame data o = Completes (data', o', inject))
  /\ (textual data = false -> exists o', splice_frame data o = Throws o')
  /\ (forall data' o' inject,
        splice_frame data o = Completes (data', o', inject) ->
        (render inject <> [] -> delta_content data' = Some (JStr (render inject)))
        /\ (render inject = [] -> delta_content data = Some (JStr []) ->
            delta_content data' = Some (JStr []))
        /\ (render inject = [] ->
            delta_content data = None \/ delta_content data = Some JNull ->
            delta_content data' = None)).
Proof.
  intros HS. split; [|split].
  { intros Hn Ht.
    destruct (splice_frame_completes data o Hn Ht) as [[[data' o'] inject] E].
    eauto. }
  { now apply splice_frame_throws_on. }
  intros data' o' inject.
  destruct (frame_delta_dec data) as [[d Hd]|Hd].
  - rewrite (splice_frame_object _ _ _ Hd).
    destruct (splice_delta d o) as [[[d1 o1] inj1]|o1] eqn:E; try discriminate.
    intros H; injection H as <- <- <-.
    assert (Hin : delta_content data = lookup (str "content") d).
    { unfold delta_content. now rewrite Hd. }
    rewrite (delta_content_with_delta _ _ d1 Hd), Hin.
    eapply splice_delta_content; eauto.
  - destruct (splice_frame_plain data o Hd) as [[_ E]|[_ E]]; rewrite E;
      try discriminate.
    intros H; injection H as <- <- <-.
    assert (Hn : delta_content data = None).
    { unfold delta_content. destruct (frame_delta data) as [[delta|]|]; auto.
      destruct delta; auto. now destruct (Hd props). }
    rewrite Hn. change (render []) with (@nil code_unit).
    repeat split; intros; congruence.
Qed.

(** *** Lines that are written through *)

(** C4 (amended).  A line that is not blank, is not the terminator, and
    either lacks the [data: ] prefix or carries a payload that does not
    decode ([JSON.parse] throws, or yields [null]) is written as the line
    with its leading and trailing white space removed, followed by one line
    feed; a line without such white space is therefore written as it came.
    The span is left as it was and the lines after it are processed as if
    the line had not been there. *)
Theorem opaque_line_written_trimmed
  (model : option json) (o : bool) (line : jsstring) (rest : list jsstring) :
  trim line <> [] -> trim line <> str "data: [DONE]" ->
  (startsWith (str "data: ") (trim line) = false
   \/ JSON_parse (slice 6 (trim line)) = None
   \/ JSON_parse (slice 6 (trim line)) = Some JNull) ->
  process_line model o line = ([Opaque (trim line)], o)
  /\ map write_of (fst (process_line model o line)) = [trim line ++ LF]
  /\ (trim line = line ->
      map write_of (fst (process_line model o line)) = [line ++ LF])
  /\ process_lines model o (line :: rest) =
       (Opaque (trim line) :: fst (process_lines model o rest),
        snd (process_lines model o rest)).
Proof.
  intros H1 H2 H3.
  assert (E : process_line model o line = ([Opaque (trim line)], o)).
  { unfold process_line.
    destruct (jseqb (trim line) []) eqn:E1.
    { apply jseqb_eq in E1. contradiction. }
    destruct (jseqb (trim line) (str "data: [DONE]")) eqn:E2.
    { apply jseqb_eq in E2. contradiction. }
    destruct (startsWith (str "data: ") (trim line)); cbn [negb]; auto.
    destruct H3 as [H3|[H3|H3]]; try discriminate; now rewrite H3. }
  simpl. rewrite E. simpl. repeat split.
  - now intros ->.
  - now destruct (process_lines model o rest).
Qed.

(** *** Streams without reasoning *)




Lemma delta_field_of_plain (data : json) (k : jsstring) :
  (forall d, frame_delta data <> Some (Some (JObj d))) ->
  match frame_delta data with
  | Some (Some delta) => prop delta k
  | _ => None
  end = None.
Proof.
  intros H. destruct (frame_delta data) as [[delta|]|]; auto.
  destruct delta; auto. now destruct (H props).
Qed.



(** *** The reasoning field *)

Lemma splice_delta_drops_reasoning (d d' : object) (o o' : bool)
  (inject : list piece) :
  splice_delta d o = Completes (d', o', inject) ->
  lookup (str "reasoning_content") d' = None.
Proof.
  unfold splice_delta. destruct SHOW_REASONING.
  - destruct (truthy _); [destruct (ToString _); try discriminate|];
      (destruct (negb _ && negb _); [destruct (ToString _); try discriminate|]);
      cbv beta iota zeta;
      match goal with
      | |- context [is_null ?c] => destruct (is_null c)
      end;
      intros H; injection H as <- _ _;
      repeat first [ rewrite lookup_obj_delete_other by reflexivity
                   | rewrite lookup_obj_set_other by reflexivity ];
      apply lookup_obj_delete_same.
  - intros H; injection H as <- _ _.
    rewrite lookup_obj_set_other by reflexivity. apply lookup_obj_delete_same.
Qed.

Lemma splice_frame_drops_reasoning (data data' : json) (o o' : bool)
  (inject : list piece) :
  splice_frame data o = Completes (data', o', inject) ->
  delta_reasoning data' = None.
Proof.
  destruct (frame_delta_dec data) as [[d Hd]|Hd].
  - rewrite (splice_frame_object _ _ _ Hd).
    destruct (splice_delta d o) as [[[d1 o1] inj1]|o1] eqn:E; try discriminate.
    intros H; injection H as <- _ _.
    rewrite (delta_reasoning_with_delta _ _ d1 Hd).
    eapply splice_delta_drops_reasoning; eauto.
  - destruct (splice_frame_plain data o Hd) as [[_ E]|[_ E]]; rewrite E;
      try discriminate.
    intros H; injection H as <- _ _.
    unfold delta_reasoning. now apply delta_field_of_plain.
Qed.

Lemma written_line_delta_has_no_reasoning
  (model : option json) (line : jsstring) (o : bool)
  (data : json) (inject : list piece) :
  In (Frame data inject) (fst (process_line model o line)) ->
  delta_reasoning data = None.
Proof.
  destruct (line_cases line) as [H|[H|[(H1 & H2 & H3)|[frame H]]]].
  - rewrite (process_line_blank _ _ _ H). simpl. intros [].
  - rewrite (process_line_done _ _ _ H).
    destruct (o && SHOW_REASONING); simpl.
    + intros [Hin|[Hin|[]]]; try discriminate.
      injection Hin as <- _. destruct model; reflexivity.
    + intros [Hin|[]]; discriminate.
  - rewrite (process_line_opaque _ _ _ H1 H2 H3). simpl.
    intros [Hin|[]]; discriminate.
  - rewrite (process_line_frame _ _ _ _ H).
    destruct (splice_frame frame o) as [[[data1 o1] inj1]|o1] eqn:E; simpl.
    + intros [Hin|[]]. injection Hin as <- _.
      eapply splice_frame_drops_reasoning; eauto.
    + intros [Hin|[]]; discriminate.
Qed.

(** A line that decodes to a frame that is not [null] and whose reasoning
    and content have a text is written as a frame. *)
Lemma process_line_writes_frame (model : option json) (o : bool)
  (line : jsstring) (data : json) :
  line_frame line = Some data -> data <> JNull -> textual data = true ->
  exists data' inject o',
    splice_frame data o = Completes (data', o', inject)
    /\ process_line model o line = ([Frame data' inject], o').
Proof.
  intros H Hn Ht. rewrite (process_line_frame _ _ _ _ H).
  destruct (splice_frame_completes data o Hn Ht) as [[[data' o'] inject] E].
  rewrite E. eauto.
Qed.

(** C6 (amended).  Whatever the stream, a frame the rewriter serializes has
    no reasoning field in the delta of its first choice: the field is
    deleted from that delta before the frame is serialized, and the record
    synthesized at the terminator has none.  (The rest of the frame, the
    deltas of further choices included, is written as it came.)  Every line
    that decodes to a frame that is not [null] and whose reasoning and
    content have a text is serialized so. *)
Theorem written_delta_has_no_reasoning (model : option json) :
  (forall (lines : list jsstring) (o : bool) (data : json) (inject : list piece),
     In (Frame data inject) (fst (process_lines model o lines)) ->
     delta_reasoning data = None)
  /\ (forall (line : jsstring) (o : bool) (data : json),
        line_frame line = Some data -> data <> JNull -> textual data = true ->
        exists data' inject o',
          process_line model o line = ([Frame data' inject], o')
          /\ delta_reasoning data' = None).
Proof.
  split.
  - intros lines o data inject. revert o.
    induction lines as [|line lines IH]; intros o; simpl.
    { intros []. }
    destruct (process_line model o line) as [out1 o1] eqn:E1.
    destruct (process_lines model o1 lines) as [out2 o2] eqn:E2.
    simpl. intros Hin. apply in_app_or in Hin as [Hin|Hin].
    + apply (written_line_delta_has_no_reasoning model line o data inject).
      now rewrite E1.
    + apply (IH o1). now rewrite E2.
  - intros line o data H Hn Ht.
    destruct (process_line_writes_frame model o line data H Hn Ht)
      as (data' & inject & o' & Hs & Hp).
    exists data', inject, o'. split; auto.
    eapply splice_frame_drops_reasoning; eauto.
Qed.

(** *** Reasoning display switched off *)

Lemma process_lines_hidden (model : option json) (lines : list jsstring) :
  SHOW_REASONING = false ->
  pieces (fst (process_lines model false lines)) = []
  /\ snd (process_lines model false lines) = false.
Proof.
  intros HS.
  destruct (process_lines model false lines) as [out o] eqn:E.
  destruct (process_lines_span model lines false o out) as [Hshow _];
    auto; try discriminate.
  assert (Ho : o = false).
  { destruct o; auto. rewrite Hshow in HS; auto. }
  split; auto. simpl. clear Hshow Ho.
  revert out o E. generalize false.
  induction lines as [|line lines IH]; intros o0 out o; simpl.
  - intros E; injection E as <- <-. reflexivity.
  - destruct (process_line model o0 line) as [out1 o1] eqn:E1.
    destruct (process_lines model o1 lines) as [out2 o2] eqn:E2.
    intros E; injection E as <- <-.
    unfold pieces in *. rewrite flat_map_app, (IH _ _ _ E2), app_nil_r.
    clear IH E2.
    destruct (line_cases line) as [H|[H|[(H1 & H2 & H3)|[frame H]]]].
    + rewrite (process_line_blank _ _ _ H) in E1. now injection E1 as <- <-.
    + rewrite (process_line_done _ _ _ H), HS, andb_false_r in E1.
      now injection E1 as <- <-.
    + rewrite (process_line_opaque _ _ _ H1 H2 H3) in E1. now injection E1 as <- <-.
    + rewrite (process_line_frame _ _ _ _ H) in E1.
      destruct (frame_delta_dec frame) as [[d Hd]|Hd].
      * rewrite (splice_frame_object _ _ _ Hd) in E1.
        unfold splice_delta in E1. rewrite HS in E1. now injection E1 as <- <-.
      * destruct (splice_frame_plain frame o0 Hd) as [[_ E]|[_ E]];
          rewrite E in E1; now injection E1 as <- <-.
Qed.

(** C7 (amended).  With reasoning display switched off, every frame that is
    not [null] is written, with the span untouched and nothing put into
    [inject]; its first choice's delta has no reasoning field; when that
    delta is an object its content is the one that came, the empty string
    standing in for a missing or [null] content, and otherwise the frame is
    written as it came.  Over a whole stream no marker is ever written (so
    no closing record is synthesized at the terminator either).  In
    particular, two lines that decode to the frames with deltas
    [{reasoning_content: "Let me think"}] and [{content: "The answer is 4"}],
    followed by the terminator, are written as two frames with contents [""]
    and ["The answer is 4"] and the terminator. *)
Theorem hidden_reasoning_passes_content :
  SHOW_REASONING = false ->
  (forall (data : json) (o : bool),
     data <> JNull ->
     exists data',
       splice_frame data o = Completes (data', o, [])
       /\ delta_reasoning data' = None
       /\ (forall d, frame_delta data = Some (Some (JObj d)) ->
           delta_content data' = Some (nullish_or (delta_content data) (JStr [])))
       /\ ((forall d, frame_delta data <> Some (Some (JObj d))) -> data' = data))
  /\ (forall (model : option json) (lines : list jsstring),
        pieces (fst (process_lines model false lines)) = []
        /\ snd (process_lines model false lines) = false)
  /\ (forall (model : option json) (l1 l2 t : jsstring),
        line_frame l1
          = Some (frame_of [(str "reasoning_content", JStr (str "Let me think"))]) ->
        line_frame l2
          = Some (frame_of [(str "content", JStr (str "The answer is 4"))]) ->
        trim t = str "data: [DONE]" ->
        exists f1 f2,
          process_lines model false [l1; l2; t]
            = ([Frame f1 []; Frame f2 []; Done], false)
          /\ delta_content f1 = Some (JStr [])
          /\ delta_content f2 = Some (JStr (str "The answer is 4"))).
Proof.
  intros HS. split; [|split].
  - intros data o Hn. destruct (frame_delta_dec data) as [[d Hd]|Hd].
    + rewrite (splice_frame_object _ _ _ Hd).
      assert (E : splice_delta d o
                  = Completes
                      (obj_set (str "content")
                         (if negb (is_null (nullish_or (lookup (str "content") d) JNull))
                          then nullish_or (lookup (str "content") d) JNull
                          else JStr [])
                         (obj_delete (str "reasoning_content") d), o, [])).
      { unfold splice_delta. now rewrite HS. }
      assert (Hr := splice_delta_drops_reasoning _ _ _ _ _ E).
      rewrite E. eexists. split; [reflexivity|].
      rewrite (delta_reasoning_with_delta _ _ _ Hd).
      repeat split; auto.
      * intros d0 _. rewrite (delta_content_with_delta _ _ _ Hd).
        rewrite lookup_obj_set_same. unfold delta_content. rewrite Hd. simpl.
        now destruct (lookup (str "content") d) as [[]|].
      * intros Hno. now destruct (Hno d).
    + exists data. destruct (splice_frame_plain data o Hd) as [[E _]|[_ E]].
      { contradiction. }
      repeat split; auto.
      * unfold delta_reasoning. now apply delta_field_of_plain.
      * intros d0 Hd0. now destruct (Hd d0).
  - intros model lines. now apply process_lines_hidden.
  - intros model l1 l2 t H1 H2 Ht. simpl.
    rewrite (process_line_frame _ _ _ _ H1).
    unfold splice_frame at 1, splice_delta. rewrite HS. simpl.
    rewrite (process_line_frame _ _ _ _ H2).
    unfold splice_frame at 1, splice_delta. rewrite HS. simpl.
    rewrite (process_line_done _ _ _ Ht), HS. simpl.
    eexists; eexists. split; [reflexivity|]. split; reflexivity.
Qed.

(** *** Framing: the chunks of a text *)

Lemma split_lf_nonempty (s : jsstring) : split_lf s <> [].
Proof.
  induction s as [|c s IH]; simpl; try discriminate.
  destruct (c =? 0x0A); try discriminate.
  destruct (split_lf s); discriminate.
Qed.

Lemma last_app_nonempty {A : Type} (l l' : list A) (d : A) :
  l' <> [] -> last (l ++ l') d = last l' d.
Proof.
  intros H. induction l as [|x l IH]; simpl; auto.
  destruct (l ++ l') eqn:E; auto.
  apply app_eq_nil in E as [_ E]. contradiction.
Qed.

(** Splitting a text in two: the lines closed in the first part, then the
    lines of what the first part left open followed by the second part. *)
Lemma split_lf_app (a b : jsstring) :
  split_lf (a ++ b) =
    removelast (split_lf a) ++ split_lf (last (split_lf a) [] ++ b).
Proof.
  induction a as [|c a IH]; simpl; auto.
  assert (Hne := split_lf_nonempty a).
  destruct (c =? 0x0A) eqn:Ec.
  - destruct (split_lf a) as [|l ls] eqn:E; try contradiction.
    simpl. now rewrite IH.
  - rewrite IH. destruct (split_lf a) as [|l ls] eqn:E; try contradiction.
    destruct ls as [|l2 ls]; simpl.
    + rewrite Ec. destruct (split_lf (l ++ b)); reflexivity.
    + reflexivity.
Qed.

Lemma split_lf_no_lf (s : jsstring) : ~ In 0x0A s -> split_lf s = [s].
Proof.
  induction s as [|c s IH]; simpl; auto.
  intros H. destruct (c =? 0x0A) eqn:E.
  - apply N.eqb_eq in E. subst. destruct H. now left.
  - rewrite IH; auto.
Qed.

Lemma last_split_lf_no_lf (s : jsstring) : ~ In 0x0A (last (split_lf s) []).
Proof.
  induction s as [|c s IH]; simpl; auto.
  assert (Hne := split_lf_nonempty s).
  destruct (c =? 0x0A) eqn:E.
  - destruct (split_lf s) as [|l ls]; try contradiction. exact IH.
  - destruct (split_lf s) as [|l ls]; try contradiction.
    destruct ls as [|l2 ls]; auto.
    simpl in *. intros [H|H]; auto.
    apply N.eqb_neq in E. congruence.
Qed.

(** One chunk of text or two make no difference to the handler. *)
Lemma on_text_app (model : option json) (st : state) (a b : jsstring) :
  on_text model st (a ++ b) =
    let '(out1, st1) := on_text model st a in
    let '(out2, st2) := on_text model st1 b in
    (out1 ++ out2, st2).
Proof.
  unfold on_text, pop. rewrite app_assoc, split_lf_app.
  set (A := split_lf (buffer st ++ a)).
  set (B := split_lf (last A [] ++ b)).
  assert (HB : B <> []) by apply split_lf_nonempty.
  rewrite removelast_app, last_app_nonempty, process_lines_app by exact HB.
  destruct (process_lines model (thinkOpen st) (removelast A)) as [out1 o1].
  cbn [buffer thinkOpen]. fold B.
  now destruct (process_lines model o1 (removelast B)).
Qed.

Lemma on_text_nil (model : option json) (st : state) :
  ~ In 0x0A (buffer st) -> on_text model st [] = ([], st).
Proof.
  intros H. unfold on_text, pop. rewrite app_nil_r, split_lf_no_lf by exact H.
  simpl. now destruct st.
Qed.

Lemma on_text_buffer (model : option json) (st : state) (text : jsstring) :
  ~ In 0x0A (buffer (snd (on_text model st text))).
Proof.
  unfold on_text, pop.
  destruct (process_lines model (thinkOpen st) _). simpl.
  apply last_split_lf_no_lf.
Qed.

Lemma on_texts_concat (model : option json) (texts : list jsstring) :
  forall st, ~ In 0x0A (buffer st) ->
    on_texts model st texts = on_text model st (List.concat texts).
Proof.
  induction texts as [|text texts IH]; intros st H; simpl.
  - now rewrite on_text_nil.
  - rewrite on_text_app.
    assert (Hb := on_text_buffer model st text).
    destruct (on_text model st text) as [out1 st1]. now rewrite IH.
Qed.

(** The rewriter does not see how a text is cut into chunks: two lists of
    text chunks with the same concatenation give the same writes and leave
    the same state. *)
Lemma on_texts_chunking (model : option json) (texts1 texts2 : list jsstring) :
  List.concat texts1 = List.concat texts2 ->
  on_texts model initial texts1 = on_texts model initial texts2.
Proof.
  intros H. rewrite !on_texts_concat by (simpl; intros []). now rewrite H.
Qed.

Lemma Buffer_toString_ascii (chunk : list byte) :
  Forall (fun b => b <= 0x7F) chunk -> Buffer_toString chunk = chunk.
Proof.
  unfold Buffer_toString. induction 1 as [|b chunk Hb _ IH]; simpl; auto.
  unfold utf8_step, utf8_lead. simpl.
  apply N.leb_le in Hb. rewrite Hb. simpl. now rewrite IH.
Qed.

Lemma on_chunks_ascii (model : option json) (chunks : list (list byte)) :
  Forall (Forall (fun b => b <= 0x7F)) chunks ->
  forall st, on_chunks model st chunks = on_texts model st chunks.
Proof.
  induction 1 as [|chunk chunks Hc _ IH]; intros st; simpl; auto.
  unfold on_data. rewrite (Buffer_toString_ascii _ Hc).
  destruct (on_text model st chunk) as [out1 st1]. now rewrite IH.
Qed.

(** The same for the chunks of a byte stream that is all ASCII. *)
Lemma on_chunks_chunking_ascii (model : option json)
  (chunks1 chunks2 : list (list byte)) :
  Forall (Forall (fun b => b <= 0x7F)) chunks1 ->
  Forall (Forall (fun b => b <= 0x7F)) chunks2 ->
  List.concat chunks1 = List.concat chunks2 ->
  on_chunks model initial chunks1 = on_chunks model initial chunks2.
Proof.
  intros H1 H2 H. rewrite !on_chunks_ascii by assumption.
  now apply on_texts_chunking.
Qed.

(** *** The non-streaming translation *)

Lemma message_content_translated (o1 o2 : option json) (role final : json) :
  message_content
    (JObj (field "index" o1
           ++ [(str "message", JObj [(str "role", role); (str "content", final)])]
           ++ field "finish_reason" o2)) = Some final.
Proof. destruct o1; reflexivity. Qed.

Lemma content_text_default (c : option json) (t : jsstring) :
  ToString (nullish_or c (JStr [])) = Some t -> t = content_text c.
Proof.
  destruct c as [[]|]; unfold content_text; cbn [nullish_or]; intros H;
    try rewrite H; try reflexivity; now injection H.
Qed.

(** C8 (amended).  For a choice that is not [null]: when reasoning is
    displayed and the message has a truthy reasoning field (a non-empty
    string, in particular), and the reasoning and the content have a text,
    the choice is translated and the content of the returned message is the
    opening marker, the reasoning text, the closing marker and the content
    text, in this order, the text of a missing or [null] content being
    empty; when reasoning is not displayed or the message has no truthy
    reasoning, the choice is translated and the content of the returned
    message is the content of the message as it came when there is one that
    is not [null], and the empty string when it is missing or [null]. *)
Theorem translated_choice_content (choice : json) :
  choice <> JNull ->
  let msg := nullish_or (prop choice (str "message")) (JObj []) in
  let reasoning := prop msg (str "reasoning_content") in
  let content := prop msg (str "content") in
  (SHOW_REASONING = true ->
   forall r rtext ctext,
     reasoning = Some r -> truthy (Some r) = true ->
     ToString r = Some rtext ->
     ToString (nullish_or content (JStr [])) = Some ctext ->
     ctext = content_text content
     /\ exists out,
          translate_choice choice = Some out
          /\ message_content out
             = Some (JStr (render [Open; Text rtext; Close; Text ctext])))
  /\ (SHOW_REASONING = false \/ truthy reasoning = false ->
      exists out,
        translate_choice choice = Some out
        /\ (forall v, content = Some v -> v <> JNull -> message_content out = Some v)
        /\ (content = None \/ content = Some JNull ->
            message_content out = Some (JStr []))).
Proof.
  intros Hn msg reasoning content. split.
  - intros HS r rtext ctext Hr Ht Hrt Hct. split.
    { now apply content_text_default. }
    unfold translate_choice. fold msg. fold content. fold reasoning.
    rewrite Hr, HS, Ht, Hrt, Hct. cbn [andb].
    eexists. split.
    { destruct choice; try contradiction; reflexivity. }
    rewrite message_content_translated. do 2 f_equal.
    unfold render. simpl. now rewrite app_nil_r.
  - intros Hoff.
    assert (E : match reasoning with
                | Some r =>
                    if SHOW_REASONING && truthy (Some r)
                    then match ToString r, ToString (nullish_or content (JStr [])) with
                         | Some rt, Some ct =>
                             Some (JStr (str "<think>" ++ LF ++ rt ++ LF
                                         ++ str "</think>" ++ LF ++ LF ++ ct))
                         | _, _ => None
                         end
                    else Some (nullish_or content (JStr []))
                | None => Some (nullish_or content (JStr []))
                end = Some (nullish_or content (JStr []))).
    { destruct reasoning as [r|]; auto.
      destruct Hoff as [-> | ->]; [reflexivity | now rewrite andb_false_r]. }
    unfold translate_choice. fold msg. fold content. fold reasoning. rewrite E.
    eexists. split.
    { destruct choice; try contradiction; reflexivity. }
    rewrite message_content_translated. split.
    + intros v -> Hv. destruct v; auto. contradiction.
    + intros [-> | ->]; reflexivity.
Qed.

(** *** Errors and the response *)

Lemma listeners_send_no_json (model : option json) (events : list stream_event) :
  forall (st : state) (status : N) (body : json),
    ~ In (SendJson status body) (listeners model st events).
Proof.
  induction events as [|e events IH]; intros st status body; simpl; auto.
  destruct e as [chunk| |m]; simpl.
  - destruct (on_data model st chunk) as [out st'].
    intros H. apply in_app_or in H as [H|H].
    + apply in_map_iff in H as (x & Hx & _). discriminate.
    + now apply IH in H.
  - intros [H|[]]. discriminate.
  - intros [H|[]]. discriminate.
Qed.

(** What the [try] block comes to, case by case. *)
Lemma try_block_cases (ENABLE_THINKING_MODE : bool) (TypeError_message : jsstring)
  (key : jsstring) (body : json) (up : upstream) :
  let stream := truthy (prop body (str "stream")) in
  let model := prop body (str "model") in
  try_block ENABLE_THINKING_MODE TypeError_message key body up =
    match build_call ENABLE_THINKING_MODE key body, up with
    | None, _ => ([], Some (TypeError TypeError_message))
    | Some _, Rejects answered message =>
        ([], Some (axios_error stream answered message))
    | Some _, Resolves data events =>
        if stream then (listeners model initial events, None)
        else match completion model data with
             | Some answer => ([SendJson 200 answer], None)
             | None => ([], Some (TypeError TypeError_message))
             end
    end.
Proof.
  unfold try_block. destruct (build_call _ key body); [|reflexivity].
  destruct up; reflexivity.
Qed.

Lemma catch_block_fresh (e : js_error) :
  catch_block e [] =
    match error_detail e with
    | BodyStream => []
    | Body detail => [SendJson (error_status e) (error_body (error_status e) detail)]
    end.
Proof. unfold catch_block. now destruct (error_detail e). Qed.

(** The handler sends at most one JSON body, and nothing beside it. *)
Lemma handler_json_alone (ENABLE_THINKING_MODE : bool) (TypeError_message : jsstring)
  (NIM_API_KEY : option jsstring) (body : json) (up : upstream)
  (before after : list action) (status : N) (answer : json) :
  handler ENABLE_THINKING_MODE TypeError_message NIM_API_KEY body up
    = before ++ SendJson status answer :: after ->
  before = [] /\ after = [].
Proof.
  unfold handler.
  assert (Hone : forall s b,
            [SendJson s b] = before ++ SendJson status answer :: after ->
            before = [] /\ after = []).
  { intros s b H. destruct before as [|x before]; simpl in H.
    - injection H as _ _ <-. auto.
    - injection H as _ H. destruct before; discriminate. }
  assert (Hnone : [] = before ++ SendJson status answer :: after ->
                  before = [] /\ after = []).
  { intros H. destruct before; discriminate. }
  destruct NIM_API_KEY as [[|u key]|]; try apply Hone.
  rewrite try_block_cases. cbv zeta.
  destruct (build_call _ _ body).
  - destruct up as [answered message|data events].
    + rewrite catch_block_fresh. destruct (error_detail _); auto; apply Hone.
    + destruct (truthy (prop body (str "stream"))).
      * intros H. exfalso.
        apply (listeners_send_no_json (prop body (str "model")) events initial
                 status answer).
        rewrite H. apply in_elt.
      * destruct (completion _ data); apply Hone.
  - apply Hone.
Qed.

(** C9 (amended).  Whatever the key, the request and the upstream do:
    when the handler sends a JSON body, nothing was sent before it and
    nothing is sent after it, so a response of which any byte has been
    written never receives a JSON error body.  A missing key is answered by
    a JSON error object with status 500.  With a key, the errors of the
    [try] block before the stream listeners are installed are answered by a
    JSON error object with the status of the error: a request that cannot
    be read (500), an upstream call rejected without a response (500), an
    upstream call of a request that asks for no stream rejected with a
    response (the status of that response, 500 for a status 0), and an
    upstream answer that cannot be translated (500).  (An error the
    upstream stream emits ends the response, whether or not a byte was
    written; it is not part of this statement, and neither is the
    rejection, with a response, of the call of a request that asks for a
    stream.) *)
Theorem json_error_only_on_fresh_response
  (ENABLE_THINKING_MODE : bool) (TypeError_message : jsstring)
  (NIM_API_KEY : option jsstring) (body : json) (up : upstream) :
  let respond :=
    handler ENABLE_THINKING_MODE TypeError_message NIM_API_KEY body up in
  let type_error := SendJson 500 (error_body 500 (JStr TypeError_message)) in
  (forall before status answer after,
     respond = before ++ SendJson status answer :: after ->
     before = [] /\ after = [])
  /\ (NIM_API_KEY = None \/ NIM_API_KEY = Some [] ->
      exists answer, respond = [SendJson 500 answer])
  /\ (forall key,
        NIM_API_KEY = Some key -> key <> [] ->
        (build_call ENABLE_THINKING_MODE key body = None ->
         respond = [type_error])
        /\ (build_call ENABLE_THINKING_MODE key body <> None ->
            (forall message,
               up = Rejects None message ->
               respond = [SendJson 500 (error_body 500 (JStr message))])
            /\ (forall status data message,
                  up = Rejects (Some (status, data)) message ->
                  truthy (prop body (str "stream")) = false ->
                  let code := if status =? 0 then 500 else status in
                  respond
                  = [SendJson code
                       (error_body code
                          (if truthy (Some data) then data else JStr message))])
            /\ (forall data events,
                  up = Resolves data events ->
                  truthy (prop body (str "stream")) = false ->
                  completion (prop body (str "model")) data = None ->
                  respond = [type_error]))).
Proof.
  cbv zeta. split; [|split].
  - intros before status answer after. apply handler_json_alone.
  - intros [-> | ->]; eexists; reflexivity.
  - intros key -> Hk. unfold handler.
    destruct key as [|u key]; [contradiction|].
    rewrite try_block_cases. cbv zeta. split.
    + intros ->. reflexivity.
    + destruct (build_call _ _ body) as [call|]; [intros _ | intros H; now destruct H].
      split; [|split].
      * intros message ->. reflexivity.
      * intros status data msg -> ->. rewrite catch_block_fresh.
        unfold error_detail, error_status. cbn [axios_error response message].
        now destruct (truthy (Some data)).
      * intros data events -> -> ->. reflexivity.
Qed.

(** *** The defaults of the upstream request *)

(** C10.  In the body of the upstream request: a temperature of 0 is sent
    as 0, and only a missing or [null] temperature becomes 0.6; a
    [max_tokens] of 0 becomes 16384, as every falsy [max_tokens] does, a
    truthy one being sent as it is; a missing [stream] becomes [false]. *)
Theorem request_defaults_are_asymmetric
  (nimModel : option json) (finalMessages : json)
  (temperature max_tokens stream : option json) :
  nim_temperature
    (nimRequestBody nimModel finalMessages (Some (JNum (str "0"))) max_tokens stream)
    = JNum (str "0")
  /\ nim_temperature (nimRequestBody nimModel finalMessages None max_tokens stream)
     = JNum (str "0.6")
  /\ nim_temperature
       (nimRequestBody nimModel finalMessages (Some JNull) max_tokens stream)
     = JNum (str "0.6")
  /\ (forall v,
        nim_temperature
          (nimRequestBody nimModel finalMessages (Some v) max_tokens stream)
        = if is_null v then JNum (str "0.6") else v)
  /\ nim_max_tokens
       (nimRequestBody nimModel finalMessages temperature (Some (JNum (str "0"))) stream)
     = JNum (str "16384")
  /\ nim_max_tokens (nimRequestBody nimModel finalMessages temperature None stream)
     = JNum (str "16384")
  /\ (forall v,
        nim_max_tokens
          (nimRequestBody nimModel finalMessages temperature (Some v) stream)
        = if truthy (Some v) then v else JNum (str "16384"))
  /\ nim_stream (nimRequestBody nimModel finalMessages temperature max_tokens None)
     = JBool false.
Proof.
  repeat split. intros v. now destruct v.
Qed.

(** ** Further properties of the handler *)

(** *** Framing *)

Lemma split_lf_line (l r : jsstring) :
  ~ In 0x0A l -> split_lf (l ++ 0x0A :: r) = l :: split_lf r.
Proof.
  induction l as [|c l IH]; intros H; simpl; auto.
  destruct (c =? 0x0A) eqn:E.
  - apply N.eqb_eq in E. subst. destruct H. now left.
  - rewrite IH; auto. intros Hin. apply H. now right.
Qed.

Lemma split_lf_join (lines : list jsstring) (tail : jsstring) :
  Forall (fun l => ~ In 0x0A l) lines ->
  split_lf (List.concat (map (fun l => l ++ LF) lines) ++ tail)
    = lines ++ split_lf tail.
Proof.
  induction 1 as [|l lines Hl _ IH]; simpl; auto.
  rewrite <- !app_assoc. unfold LF at 1. simpl.
  rewrite split_lf_line by exact Hl. now rewrite IH.
Qed.

Lemma on_texts_lines
  (model : option json) (texts lines : list jsstring) (tail : jsstring) :
  Forall (fun l => ~ In 0x0A l) lines ->
  ~ In 0x0A tail ->
  List.concat texts = List.concat (map (fun l => l ++ LF) lines) ++ tail ->
  on_texts model initial texts
    = (fst (process_lines model false lines),
       {| buffer := tail; thinkOpen := snd (process_lines model false lines) |}).
Proof.
  intros Hl Ht E.
  rewrite on_texts_concat by (simpl; intros []).
  unfold on_text, pop. cbn [buffer thinkOpen initial].
  rewrite app_nil_l, E, split_lf_join by exact Hl.
  rewrite (split_lf_no_lf tail Ht), removelast_last, last_last.
  now destruct (process_lines model false lines).
Qed.

(** X1.  Let the text received so far, however it was cut into chunks, be
    the lines [lines], each closed by a line feed, followed by a [tail]
    without line feed.  Then the handler has processed exactly these lines,
    in order and from a closed span, and holds the tail in its buffer. *)
Theorem complete_lines_processed_tail_buffered
  (model : option json) (texts lines : list jsstring) (tail : jsstring) :
  Forall (fun l => ~ In 0x0A l) lines ->
  ~ In 0x0A tail ->
  List.concat texts = List.concat (map (fun l => l ++ LF) lines) ++ tail ->
  on_texts model initial texts
    = (fst (process_lines model false lines),
       {| buffer := tail; thinkOpen := snd (process_lines model false lines) |}).
Proof. apply on_texts_lines. Qed.

(** *** White space around a line *)

Lemma trim_app_white (s : jsstring) (w : code_unit) :
  is_white w = true -> trim (s ++ [w]) = trim s.
Proof.
  intros Hw. unfold trim. induction s as [|c s IH]; simpl.
  - now rewrite Hw.
  - destruct (is_white c); auto.
    unfold trimEnd. change (c :: s ++ [w]) with ((c :: s) ++ [w]).
    rewrite rev_unit. simpl. now rewrite Hw.
Qed.

Lemma process_line_trim (model : option json) (o : bool) (l1 l2 : jsstring) :
  trim l1 = trim l2 -> process_line model o l1 = process_line model o l2.
Proof. intros E. unfold process_line. now rewrite E. Qed.

Lemma process_lines_trim (model : option json) (f : jsstring -> jsstring) :
  (forall l, trim (f l) = trim l) ->
  forall lines o,
    process_lines model o (map f lines) = process_lines model o lines.
Proof.
  intros Hf. induction lines as [|l lines IH]; intros o; simpl; auto.
  rewrite (process_line_trim model o (f l) l (Hf l)).
  destruct (process_line model o l) as [out1 o1]. now rewrite IH.
Qed.

(** X2.  A stream whose lines end in carriage return and line feed is
    rewritten exactly as the same stream with bare line feeds: the same
    writes and the same span, whatever the chunks. *)
Theorem carriage_returns_are_immaterial
  (model : option json) (texts1 texts2 lines : list jsstring) :
  Forall (fun l => ~ In 0x0A l /\ ~ In 0x0D l) lines ->
  List.concat texts1 = List.concat (map (fun l => l ++ [0x0D; 0x0A]) lines) ->
  List.concat texts2 = List.concat (map (fun l => l ++ [0x0A]) lines) ->
  on_texts model initial texts1 = on_texts model initial texts2.
Proof.
  intros Hl E1 E2.
  assert (Hl2 : Forall (fun l => ~ In 0x0A l) lines).
  { eapply Forall_impl; [|exact Hl]. now intros l [H _]. }
  assert (Hl1 : Forall (fun l => ~ In 0x0A l) (map (fun l => l ++ [0x0D]) lines)).
  { apply Forall_map. eapply Forall_impl; [|exact Hl2].
    intros l H Hin. apply in_app_or in Hin as [Hin|[Hin|[]]]; auto.
    discriminate. }
  rewrite (on_texts_lines model texts1 (map (fun l => l ++ [0x0D]) lines) []),
          (on_texts_lines model texts2 lines []); auto.
  - rewrite (process_lines_trim model (fun l => l ++ [0x0D])); auto.
    intros l. now apply trim_app_white.
  - now rewrite app_nil_r.
  - rewrite app_nil_r, E1, map_map. f_equal. apply map_ext.
    intros l. now rewrite <- app_assoc.
Qed.

(** *** Chunks of bytes *)

Lemma utf8_lead_state (b : byte) :
  needed (snd (utf8_lead b)) = O -> snd (utf8_lead b) = utf8_start.
Proof.
  unfold utf8_lead.
  destruct (b <=? 0x7F); auto.
  destruct ((0xC2 <=? b) && (b <=? 0xDF)); try discriminate.
  destruct ((0xE0 <=? b) && (b <=? 0xEF)); try discriminate.
  destruct ((0xF0 <=? b) && (b <=? 0xF4)); try discriminate.
  auto.
Qed.

Lemma utf8_step_state (st : utf8_state) (b : byte) :
  needed (snd (utf8_step st b)) = O -> snd (utf8_step st b) = utf8_start.
Proof.
  unfold utf8_step. destruct (needed st) as [|n].
  - apply utf8_lead_state.
  - destruct ((lower st <=? b) && (b <=? upper st)).
    + destruct n; auto. discriminate.
    + assert (H := utf8_lead_state b).
      destruct (utf8_lead b) as [out st']. exact H.
Qed.

Lemma utf8_feed_state (bs : list byte) :
  forall st, (needed st = O -> st = utf8_start) ->
    needed (snd (utf8_feed st bs)) = O -> snd (utf8_feed st bs) = utf8_start.
Proof.
  induction bs as [|b bs IH]; intros st Hst; simpl; auto.
  assert (H := utf8_step_state st b).
  destruct (utf8_step st b) as [out1 st1].
  specialize (IH st1 H).
  destruct (utf8_feed st1 bs) as [out2 st2]. exact IH.
Qed.

Lemma utf8_decode_feed (bs : list byte) :
  forall st,
    utf8_decode st bs
      = fst (utf8_feed st bs)
        ++ match needed (snd (utf8_feed st bs)) with
           | O => []
           | S _ => [0xFFFD]
           end.
Proof.
  induction bs as [|b bs IH]; intros st; simpl; auto.
  destruct (utf8_step st b) as [out1 st1]. rewrite IH.
  destruct (utf8_feed st1 bs) as [out2 st2]. simpl. now rewrite app_assoc.
Qed.

Lemma utf8_feed_app (a b : list byte) :
  forall st,
    utf8_feed st (a ++ b)
      = (fst (utf8_feed st a) ++ fst (utf8_feed (snd (utf8_feed st a)) b),
         snd (utf8_feed (snd (utf8_feed st a)) b)).
Proof.
  induction a as [|x a IH]; intros st; simpl.
  - now destruct (utf8_feed st b).
  - destruct (utf8_step st x) as [out1 st1]. rewrite IH.
    destruct (utf8_feed st1 a) as [out2 st2]. simpl. now rewrite app_assoc.
Qed.

(** Decoding a chunk that ends on a boundary and what follows it, together
    or one after the other, gives the same text. *)
Lemma Buffer_toString_app (a b : list byte) :
  ends_on_boundary a ->
  Buffer_toString (a ++ b) = Buffer_toString a ++ Buffer_toString b.
Proof.
  unfold ends_on_boundary, Buffer_toString. intros Ha.
  assert (Hs : snd (utf8_feed utf8_start a) = utf8_start).
  { apply utf8_feed_state; auto. }
  rewrite !utf8_decode_feed, utf8_feed_app. cbn [fst snd]. rewrite Hs.
  cbn [needed utf8_start]. now rewrite app_nil_r, app_assoc.
Qed.

Lemma Buffer_toString_concat (chunks : list (list byte)) :
  Forall ends_on_boundary chunks ->
  Buffer_toString (List.concat chunks) = List.concat (map Buffer_toString chunks).
Proof.
  induction 1 as [|chunk chunks Hc _ IH]; simpl; auto.
  now rewrite Buffer_toString_app, IH.
Qed.

Lemma on_chunks_texts (model : option json) (chunks : list (list byte)) :
  forall st,
    on_chunks model st chunks = on_texts model st (map Buffer_toString chunks).
Proof.
  induction chunks as [|chunk chunks IH]; intros st; simpl; auto.
  unfold on_data. destruct (on_text model st (Buffer_toString chunk)) as [out1 st1].
  now rewrite IH.
Qed.

(** X3.  Two deliveries of the same bytes give the same writes and leave the
    same state, provided no chunk of either ends inside a multi-byte UTF-8
    sequence. *)
Theorem chunking_on_character_boundaries
  (model : option json) (chunks1 chunks2 : list (list byte)) :
  Forall ends_on_boundary chunks1 ->
  Forall ends_on_boundary chunks2 ->
  List.concat chunks1 = List.concat chunks2 ->
  on_chunks model initial chunks1 = on_chunks model initial chunks2.
Proof.
  intros H1 H2 E. rewrite !on_chunks_texts.
  apply on_texts_chunking.
  now rewrite <- !Buffer_toString_concat, E.
Qed.

(** X4.  After any chunks from the start of a stream the buffer holds no
    line feed.  When the reasoning and the content of every frame among the
    lines received so far have a text, the markers written so far are well
    nested (opening and closing alternate, starting with an opening one)
    and [thinkOpen] tells whether the last of them is an opening marker. *)
Theorem span_tracks_markers
  (model : option json) (chunks : list (list byte)) :
  (Forall (fun l => textual_line l = true)
     (complete_lines (List.concat (map Buffer_toString chunks))) ->
   span_after false (pieces (fst (on_chunks model initial chunks)))
     = Some (thinkOpen (snd (on_chunks model initial chunks))))
  /\ ~ In 0x0A (buffer (snd (on_chunks model initial chunks))).
Proof.
  rewrite on_chunks_texts, on_texts_concat by (simpl; intros []).
  split; [|apply on_text_buffer].
  unfold complete_lines, on_text, pop. cbn [buffer thinkOpen initial fst app].
  intros Ht.
  destruct (process_lines model false _) as [out o] eqn:E. simpl.
  assert (Hclosed : false = true -> SHOW_REASONING = true) by discriminate.
  destruct (process_lines_span model _ false o out Hclosed E) as [_ S].
  auto.
Qed.

(** *** The texts a stream carries *)

Lemma texts_of_app (a b : list piece) : texts_of (a ++ b) = texts_of a ++ texts_of b.
Proof. apply flat_map_app. Qed.

Lemma render_app (a b : list piece) : render (a ++ b) = render a ++ render b.
Proof. unfold render. now rewrite map_app, concat_app. Qed.

Lemma content_assignment_text (built : jsstring) (c : json) (d0 : object) :
  let content :=
    match built with
    | _ :: _ => JStr built
    | [] => if is_string c [] then JStr [] else JNull
    end in
  let d1 := obj_set (str "content") content d0 in
  let d2 := if is_null content then obj_delete (str "content") d1 else d1 in
  content_text (lookup (str "content") d2) = built.
Proof.
  destruct built as [|u built]; [destruct (is_string c [])|];
    cbv beta iota zeta delta [is_null];
    rewrite ?lookup_obj_set_same, ?lookup_obj_delete_same; reflexivity.
Qed.

Lemma splice_delta_texts (d d' : object) (o o' : bool) (inject : list piece) :
  SHOW_REASONING = true ->
  splice_delta d o = Completes (d', o', inject) ->
  texts_of inject
    = (if truthy (Some (nullish_or (lookup (str "reasoning_content") d) JNull))
       then text_of (nullish_or (lookup (str "reasoning_content") d) JNull)
       else [])
      ++ (if negb (is_null (nullish_or (lookup (str "content") d) JNull))
             && negb (is_string (nullish_or (lookup (str "content") d) JNull) [])
          then text_of (nullish_or (lookup (str "content") d) JNull)
          else [])
  /\ content_text (lookup (str "content") d') = render inject.
Proof.
  intros HS. unfold splice_delta, text_of. rewrite HS.
  set (r := nullish_or (lookup (str "reasoning_content") d) JNull).
  set (c := nullish_or (lookup (str "content") d) JNull).
  destruct (truthy (Some r)); [destruct (ToString r); try discriminate|];
    (destruct (negb (is_null c) && negb (is_string c []));
     [destruct (ToString c); try discriminate|]);
    cbv beta iota zeta; intros H; injection H as <- <- <-;
    (split; [destruct o; reflexivity|]);
    match goal with
    | |- _ = ?b =>
        exact (content_assignment_text b c (obj_delete (str "reasoning_content") d))
    end.
Qed.

Lemma frame_texts_plain (data : json) :
  (forall d, frame_delta data <> Some (Some (JObj d))) -> frame_texts data = [].
Proof.
  intros H. unfold frame_texts.
  destruct (frame_delta data) as [[[]|]|]; auto. now destruct (H props).
Qed.

Lemma splice_frame_texts (data data' : json) (o o' : bool) (inject : list piece) :
  SHOW_REASONING = true ->
  splice_frame data o = Completes (data', o', inject) ->
  texts_of inject = frame_texts data
  /\ content_text (delta_content data') = render inject.
Proof.
  intros HS. destruct (frame_delta_dec data) as [[d Hd]|Hd].
  - rewrite (splice_frame_object _ _ _ Hd).
    destruct (splice_delta d o) as [[[d1 o1] inj1]|o1] eqn:E; try discriminate.
    intros H; injection H as <- <- <-.
    rewrite (delta_content_with_delta _ _ d1 Hd).
    unfold frame_texts. rewrite Hd.
    eapply splice_delta_texts; eauto.
  - destruct (splice_frame_plain data o Hd) as [[_ E]|[_ E]]; rewrite E;
      try discriminate.
    intros H; injection H as <- <- <-.
    rewrite (frame_texts_plain _ Hd). split; auto.
    unfold delta_content. now rewrite delta_field_of_plain.
Qed.

Lemma process_line_texts (model : option json) (o o' : bool) (line : jsstring)
  (out : list output) :
  SHOW_REASONING = true ->
  textual_line line = true ->
  process_line model o line = (out, o') ->
  texts_of (pieces out) = line_texts line
  /\ List.concat (map output_content out) = render (pieces out).
Proof.
  intros HS. unfold line_texts, textual_line.
  destruct (line_cases line) as [H|[H|[(H1 & H2 & H3)|[data H]]]].
  - rewrite (process_line_blank _ _ _ H). intros _ E; injection E as <- <-.
    unfold line_frame. now rewrite H.
  - rewrite (process_line_done _ _ _ H), HS.
    unfold line_frame. rewrite H. simpl.
    destruct o; simpl; intros _ E; injection E as <- <-; split; auto.
    destruct model; reflexivity.
  - rewrite (process_line_opaque _ _ _ H1 H2 H3), H3.
    intros _ E; injection E as <- <-. auto.
  - rewrite (process_line_frame _ _ _ _ H), H. intros Ht.
    destruct (splice_frame data o) as [[[data1 o1] inj1]|o1] eqn:E.
    + intros E'; injection E' as <- <-. unfold pieces. simpl.
      rewrite !app_nil_r. eapply splice_frame_texts; eauto.
    + intros E'; injection E' as <- <-.
      assert (Hn : data = JNull).
      { destruct data; auto;
          match goal with
          | _ : splice_frame ?x o = Throws o1 |- _ =>
              destruct (splice_frame_completes x o) as [r Hr];
                [discriminate | exact Ht | congruence]
          end. }
      subst data. auto.
Qed.

(** X5.  With reasoning displayed, over any run of lines, from any span,
    whose frames have a text for their reasoning and their content: the
    texts put into the written contents are, in order, the reasoning text
    and then the content text of each incoming frame, none dropped, repeated
    or moved; and the contents of the written records, concatenated, are
    these texts with the markers between them. *)
Theorem texts_are_written_in_order
  (model : option json) (lines : list jsstring) :
  SHOW_REASONING = true ->
  Forall (fun l => textual_line l = true) lines ->
  forall (o o' : bool) (out : list output),
    process_lines model o lines = (out, o') ->
    texts_of (pieces out) = flat_map line_texts lines
    /\ List.concat (map output_content out) = render (pieces out).
Proof.
  intros HS Ht. induction Ht as [|line lines Hl _ IH]; intros o o' out; simpl.
  - intros E; injection E as <- <-. auto.
  - destruct (process_line model o line) as [out1 o1] eqn:E1.
    destruct (process_lines model o1 lines) as [out2 o2] eqn:E2.
    intros E; injection E as <- <-.
    destruct (process_line_texts _ _ _ _ _ HS Hl E1) as [T1 C1].
    destruct (IH _ _ _ E2) as [T2 C2].
    unfold pieces in *.
    rewrite flat_map_app, texts_of_app, render_app, map_app, concat_app.
    now rewrite T1, T2, C1, C2.
Qed.

(** *** What the splice leaves alone *)

Lemma obj_delete_obj_set_same (k : jsstring) (v : json) (o : object) :
  obj_delete k (obj_set k v o) = obj_delete k o.
Proof.
  induction o as [|[k' v'] o IH]; simpl.
  - now rewrite jseqb_refl.
  - destruct (jseqb k k') eqn:E; simpl; rewrite E; auto. now rewrite IH.
Qed.

Lemma obj_delete_twice (k : jsstring) (o : object) :
  obj_delete k (obj_delete k o) = obj_delete k o.
Proof.
  induction o as [|[k' v'] o IH]; simpl; auto.
  destruct (jseqb k k') eqn:E; simpl; auto. now rewrite E, IH.
Qed.

Lemma obj_delete_comm (k1 k2 : jsstring) (o : object) :
  obj_delete k1 (obj_delete k2 o) = obj_delete k2 (obj_delete k1 o).
Proof.
  induction o as [|[k' v'] o IH]; simpl; auto.
  destruct (jseqb k2 k') eqn:E2, (jseqb k1 k') eqn:E1; simpl;
    rewrite ?E1, ?E2; auto. now rewrite IH.
Qed.

Lemma obj_delete_obj_set_other (k1 k2 : jsstring) (v : json) (o : object) :
  jseqb k1 k2 = false ->
  obj_delete k1 (obj_set k2 v o) = obj_set k2 v (obj_delete k1 o).
Proof.
  intros Hk. induction o as [|[k' v'] o IH]; simpl.
  - now rewrite Hk.
  - destruct (jseqb k2 k') eqn:E2; simpl.
    + apply jseqb_eq in E2. subst k'. rewrite Hk. simpl. now rewrite jseqb_refl.
    + destruct (jseqb k1 k') eqn:E1; simpl; rewrite ?E2; auto. now rewrite IH.
Qed.

Lemma splice_delta_rest (d d' : object) (o o' : bool) (inject : list piece) :
  splice_delta d o = Completes (d', o', inject) ->
  obj_delete (str "content") (obj_delete (str "reasoning_content") d')
    = obj_delete (str "content") (obj_delete (str "reasoning_content") d).
Proof.
  assert (Hset : forall v,
            obj_delete (str "content")
              (obj_delete (str "reasoning_content")
                 (obj_set (str "content") v (obj_delete (str "reasoning_content") d)))
            = obj_delete (str "content") (obj_delete (str "reasoning_content") d)).
  { intros v. rewrite obj_delete_obj_set_other by reflexivity.
    now rewrite obj_delete_twice, obj_delete_obj_set_same. }
  unfold splice_delta. destruct SHOW_REASONING.
  - destruct (truthy _); [destruct (ToString _); try discriminate|];
      (destruct (negb _ && negb _); [destruct (ToString _); try discriminate|]);
      cbv beta iota zeta;
      match goal with
      | |- context [is_null ?c] => destruct (is_null c)
      end;
      intros H; injection H as <- _ _;
      first [ apply Hset
            | rewrite (obj_delete_comm (str "reasoning_content") (str "content")),
                      obj_delete_twice; apply Hset ].
  - intros H; injection H as <- _ _. apply Hset.
Qed.

Lemma with_delta_other_props (data : json) (d' : object) (k : jsstring) :
  jseqb k (str "choices") = false ->
  prop (with_delta data d') k = prop data k.
Proof.
  intros Hk. destruct data as [| | | | |o]; auto. simpl.
  destruct (lookup (str "choices") o) as [choices|]; auto.
  destruct (at_index choices 0) as [[| | | | |c]|]; auto.
  simpl. now apply lookup_obj_set_other.
Qed.

(** X6.  The splice touches nothing but the content and the reasoning field
    of the first choice's delta.  Every other property of the frame is
    written as it came; when the delta is an object its other properties
    are kept, values and order; when the choices are an array the further
    choices are kept and the first keeps its other properties; and a frame
    without such a delta is written unchanged. *)
Theorem splice_leaves_the_rest
  (data data' : json) (o o' : bool) (inject : list piece) :
  splice_frame data o = Completes (data', o', inject) ->
  (forall k, jseqb k (str "choices") = false -> prop data' k = prop data k)
  /\ (forall d, frame_delta data = Some (Some (JObj d)) ->
      exists d',
        frame_delta data' = Some (Some (JObj d'))
        /\ obj_delete (str "content") (obj_delete (str "reasoning_content") d')
           = obj_delete (str "content") (obj_delete (str "reasoning_content") d))
  /\ (forall choice rest,
        prop data (str "choices") = Some (JArr (choice :: rest)) ->
        exists choice',
          prop data' (str "choices") = Some (JArr (choice' :: rest))
          /\ forall k, jseqb k (str "delta") = false ->
               prop choice' k = prop choice k)
  /\ ((forall d, frame_delta data <> Some (Some (JObj d))) -> data' = data).
Proof.
  destruct (frame_delta_dec data) as [[d Hd]|Hd].
  - rewrite (splice_frame_object _ _ _ Hd).
    destruct (splice_delta d o) as [[[d1 o1] inj1]|o1] eqn:E; try discriminate.
    intros H; injection H as <- _ _.
    split; [|split; [|split]].
    + intros k Hk. now apply with_delta_other_props.
    + intros d0 Hd0. exists d1. split.
      * eapply frame_delta_with_delta; eauto.
      * assert (d0 = d) by congruence. subst. eapply splice_delta_rest; eauto.
    + intros choice rest Hc. clear E.
      destruct data as [| | | | |od]; try discriminate.
      simpl in Hc. simpl. rewrite Hc. simpl.
      destruct choice as [| | | | |c]; simpl;
        try (eexists; split; [exact Hc | auto]).
      eexists. rewrite lookup_obj_set_same. split; [reflexivity|].
      intros k Hk. simpl. now apply lookup_obj_set_other.
    + intros Hno. now destruct (Hno d).
  - destruct (splice_frame_plain data o Hd) as [[_ E]|[_ E]]; rewrite E;
      try discriminate.
    intros H; injection H as <- _ _.
    repeat split; auto.
    + intros d0 Hd0. now destruct (Hd d0).
    + intros choice rest Hc. exists choice. auto.
Qed.

(** *** Hidden reasoning does not show *)

(** X7.  With reasoning display switched off, what is written for a frame
    does not depend on the reasoning its delta carries: two frames that
    agree outside their deltas, and whose deltas agree up to the reasoning
    field, are written as the same frame. *)
Theorem hidden_reasoning_does_not_interfere
  (data1 data2 : json) (d1 d2 : object) (o : bool) :
  SHOW_REASONING = false ->
  frame_delta data1 = Some (Some (JObj d1)) ->
  frame_delta data2 = Some (Some (JObj d2)) ->
  (forall d, with_delta data1 d = with_delta data2 d) ->
  obj_delete (str "reasoning_content") d1 = obj_delete (str "reasoning_content") d2 ->
  splice_frame data1 o = splice_frame data2 o.
Proof.
  intros HS H1 H2 Hout Hd.
  rewrite (splice_frame_object _ _ _ H1), (splice_frame_object _ _ _ H2).
  unfold splice_delta. rewrite HS.
  assert (Hc : lookup (str "content") d1 = lookup (str "content") d2).
  { rewrite <- (lookup_obj_delete_other (str "content") (str "reasoning_content") d1),
            <- (lookup_obj_delete_other (str "content") (str "reasoning_content") d2)
      by reflexivity.
    now rewrite Hd. }
  now rewrite Hc, Hd, Hout.
Qed.

(** *** The shape of a response *)

Lemma listeners_shape (model : option json) (events : list stream_event) :
  forall st, exists writes,
    Forall is_write writes
    /\ (listeners model st events = writes
        \/ listeners model st events = writes ++ [End]).
Proof.
  induction events as [|e events IH]; intros st; simpl.
  - exists []. auto.
  - destruct e as [chunk| |m].
    + destruct (on_data model st chunk) as [out st'].
      destruct (IH st') as (writes & Hw & Hl).
      exists (map (fun o => Write (write_of o)) out ++ writes). split.
      * apply Forall_app. split; auto.
        apply Forall_forall. intros a Ha.
        apply in_map_iff in Ha as (x & <- & _). exact I.
      * destruct Hl as [-> | ->]; auto. right. now rewrite app_assoc.
    + exists []. auto.
    + exists []. auto.
Qed.

(** X8.  Whatever the key, the request and the upstream do, the response is
    either a single JSON body and nothing else, or, for a request that asks
    for a stream, a run of writes that is ended at most once, with nothing
    after the end. *)
Theorem response_is_one_json_or_a_stream
  (ENABLE_THINKING_MODE : bool) (TypeError_message : jsstring)
  (NIM_API_KEY : option jsstring) (body : json) (up : upstream) :
  (exists status answer,
     handler ENABLE_THINKING_MODE TypeError_message NIM_API_KEY body up
     = [SendJson status answer])
  \/ (truthy (prop body (str "stream")) = true
      /\ exists writes,
           Forall is_write writes
           /\ (handler ENABLE_THINKING_MODE TypeError_message NIM_API_KEY body up
               = writes
               \/ handler ENABLE_THINKING_MODE TypeError_message NIM_API_KEY body up
                  = writes ++ [End])).
Proof.
  assert (Hjson : forall status answer log,
            log = [SendJson status answer] ->
            (exists status answer, log = [SendJson status answer])
            \/ (truthy (prop body (str "stream")) = true
                /\ exists writes,
                     Forall is_write writes
                     /\ (log = writes \/ log = writes ++ [End]))).
  { intros status answer log ->. left. eauto. }
  unfold handler. destruct NIM_API_KEY as [[|u key]|];
    try (eapply Hjson; reflexivity).
  rewrite try_block_cases. cbv zeta.
  destruct (build_call _ _ body); [|eapply Hjson; reflexivity].
  destruct up as [answered msg|data events].
  - rewrite catch_block_fresh. unfold error_detail.
    cbn [axios_error response message].
    destruct answered as [[status data]|]; [|eapply Hjson; reflexivity].
    destruct (truthy (prop body (str "stream"))) eqn:Hs.
    + right. split; auto. exists []. auto.
    + destruct (truthy (Some data)); eapply Hjson; reflexivity.
  - destruct (truthy (prop body (str "stream"))) eqn:Hs.
    + right. split; auto. apply listeners_shape.
    + destruct (completion _ data); eapply Hjson; reflexivity.
Qed.

Lemma listeners_data (model : option json) (chunks : list (list byte))
  (rest : list stream_event) :
  forall st,
    listeners model st (map OnData chunks ++ rest)
      = map (fun o => Write (write_of o)) (fst (on_chunks model st chunks))
        ++ listeners model (snd (on_chunks model st chunks)) rest.
Proof.
  induction chunks as [|chunk chunks IH]; intros st; simpl; auto.
  destruct (on_data model st chunk) as [out1 st1]. rewrite IH.
  destruct (on_chunks model st1 chunks) as [out2 st2]. simpl.
  now rewrite map_app, app_assoc.
Qed.

(** X9.  A stream delivered in chunks that end on character boundaries and
    then closed, by its end or by an error, is answered with the records of
    its lines that a line feed closed, in order, and the end of the
    response: what follows the last line feed is dropped, and so is
    whatever the stream emits afterwards. *)
Theorem stream_end_drops_unfinished_line
  (model : option json) (chunks : list (list byte)) (lines : list jsstring)
  (tail : jsstring) (ending : stream_event) (later : list stream_event) :
  Forall ends_on_boundary chunks ->
  Forall (fun l => ~ In 0x0A l) lines ->
  ~ In 0x0A tail ->
  Buffer_toString (List.concat chunks)
    = List.concat (map (fun l => l ++ LF) lines) ++ tail ->
  (ending = OnEnd \/ exists m, ending = OnError m) ->
  listeners model initial (map OnData chunks ++ ending :: later)
    = map (fun o => Write (write_of o)) (fst (process_lines model false lines))
      ++ [End].
Proof.
  intros Hc Hl Ht E He.
  rewrite listeners_data, on_chunks_texts.
  rewrite (on_texts_lines model (map Buffer_toString chunks) lines tail); auto.
  - simpl. destruct He as [-> | [m ->]]; reflexivity.
  - now rewrite <- Buffer_toString_concat.
Qed.

(** *** The non-streaming answer *)

Lemma nullish_or_not_null (v : option json) (d : json) :
  d <> JNull -> nullish_or v d <> JNull.
Proof. intros Hd. destruct v as [[]|]; simpl; auto; discriminate. Qed.

(** The content of the message the callback returns; [None] is the
    [TypeError] of its template literal. *)
Lemma translate_choice_content (choice : json) :
  choice <> JNull ->
  let msg := nullish_or (prop choice (str "message")) (JObj []) in
  let content := nullish_or (prop msg (str "content")) (JStr []) in
  translate_choice choice =
    match
      match prop msg (str "reasoning_content") with
      | Some reasoning =>
          if SHOW_REASONING && truthy (Some reasoning) then
            match ToString reasoning, ToString content with
            | Some r, Some c =>
                Some (JStr (str "<think>" ++ LF ++ r ++ LF
                            ++ str "</think>" ++ LF ++ LF ++ c))
            | _, _ => None
            end
          else Some content
      | None => Some content
      end
    with
    | Some final =>
        Some (JObj (field "index" (prop choice (str "index"))
                    ++ [(str "message",
                         JObj [(str "role",
                                nullish_or (prop msg (str "role"))
                                  (JStr (str "assistant")));
                               (str "content", final)])]
                    ++ field "finish_reason" (prop choice (str "finish_reason"))))
    | None => None
    end.
Proof. intros Hn. destruct choice; try contradiction; reflexivity. Qed.

(** The callback throws exactly on the choices of [untranslatable]. *)
Lemma translate_choice_none (choice : json) :
  translate_choice choice = None <-> untranslatable choice.
Proof.
  unfold untranslatable.
  destruct (is_null choice) eqn:En.
  { destruct choice; try discriminate. split; auto. }
  assert (Hn : choice <> JNull) by (intros ->; discriminate).
  rewrite (translate_choice_content choice Hn). cbv zeta.
  set (msg := nullish_or (prop choice (str "message")) (JObj [])).
  set (content := nullish_or (prop msg (str "content")) (JStr [])).
  destruct (prop msg (str "reasoning_content")) as [r|].
  - destruct SHOW_REASONING.
    + destruct (truthy (Some r)) eqn:Ht; cbn [andb].
      * destruct (ToString r) as [rt|] eqn:Er.
        -- destruct (ToString content) as [ct|] eqn:Ec.
           ++ split; [discriminate|].
              intros [H|(_ & r' & Hr & _ & [H|H])]; try contradiction;
                injection Hr as <-; congruence.
           ++ split; auto. intros _. right. split; auto.
              exists r. auto.
        -- split; auto. intros _. right. split; auto. exists r. auto.
      * split; [discriminate|].
        intros [H|(_ & r' & Hr & Ht' & _)]; try contradiction.
        injection Hr as <-. congruence.
    + split; [discriminate|].
      intros [H|(H & _)]; [contradiction | discriminate].
  - split; [discriminate|].
    intros [H|(_ & r' & Hr & _)]; [contradiction | discriminate].
Qed.

(** X10.  The callback of the non-streaming translation throws on a choice
    that is [null] and, with reasoning displayed, on one whose truthy
    reasoning, or the content beside it, cannot be converted, and on no
    other.  A choice that is translated is answered by an object holding
    its index and finish reason as they came and a message of exactly two
    properties, role and content in this order: whatever else the upstream
    message held (tool calls, for one) is not passed on.  Neither of the
    two is ever [null]: the role defaults to ['assistant'], the content to
    the empty string. *)
Theorem translated_message_is_role_and_content (choice : json) :
  (translate_choice choice = None <-> untranslatable choice)
  /\ (forall out,
        translate_choice choice = Some out ->
        exists role content,
          prop out (str "message")
          = Some (JObj [(str "role", role); (str "content", content)])
          /\ role = nullish_or
                      (prop (nullish_or (prop choice (str "message")) (JObj []))
                         (str "role"))
                      (JStr (str "assistant"))
          /\ role <> JNull
          /\ content <> JNull
          /\ prop out (str "index") = prop choice (str "index")
          /\ prop out (str "finish_reason") = prop choice (str "finish_reason")).
Proof.
  split; [apply translate_choice_none|].
  intros out.
  destruct (is_null choice) eqn:En.
  { destruct choice; discriminate. }
  assert (Hn : choice <> JNull) by (intros ->; discriminate).
  rewrite (translate_choice_content choice Hn). cbv zeta.
  set (msg := nullish_or (prop choice (str "message")) (JObj [])).
  set (base := nullish_or (prop msg (str "content")) (JStr [])).
  assert (Hb : base <> JNull) by (apply nullish_or_not_null; discriminate).
  set (inner := match prop msg (str "reasoning_content") with
                | Some reasoning => _
                | None => Some base
                end).
  assert (Hf : forall final, inner = Some final -> final <> JNull).
  { unfold inner. intros final.
    destruct (prop msg (str "reasoning_content")) as [r|].
    - destruct (SHOW_REASONING && _).
      + destruct (ToString r); try discriminate.
        destruct (ToString base); try discriminate.
        intros H; injection H as <-. discriminate.
      + intros H; injection H as <-. exact Hb.
    - intros H; injection H as <-. exact Hb. }
  destruct inner as [final|]; try discriminate.
  specialize (Hf final eq_refl).
  intros H; injection H as <-.
  exists (nullish_or (prop msg (str "role")) (JStr (str "assistant"))), final.
  split; [destruct (prop choice (str "index")); reflexivity|].
  split; [reflexivity|].
  split; [apply nullish_or_not_null; discriminate|].
  split; [exact Hf|].
  split;
    destruct (prop choice (str "index")), (prop choice (str "finish_reason"));
    reflexivity.
Qed.

Lemma map_all_none {A B : Type} (f : A -> option B) (l : list A) :
  map_all f l = None <-> exists x, In x l /\ f x = None.
Proof.
  induction l as [|x l IH]; simpl.
  - split; [discriminate | intros (x & [] & _)].
  - destruct (f x) as [y|] eqn:Ex.
    + destruct (map_all f l) as [ys|]; split; try discriminate.
      * intros (z & [<-|Hz] & Hf); [congruence|].
        destruct IH as [_ IH]. discriminate IH. eauto.
      * intros _. destruct IH as [IH _]. destruct IH as (z & Hz & Hf); eauto.
      * auto.
    + split; eauto.
Qed.

Lemma map_all_some {A B : Type} (f : A -> option B) (l : list A) :
  forall l', map_all f l = Some l' -> Forall2 (fun x y => f x = Some y) l l'.
Proof.
  induction l as [|x l IH]; simpl; intros l'.
  - intros E; injection E as <-. constructor.
  - destruct (f x) as [y|] eqn:Ex; try discriminate.
    destruct (map_all f l) as [ys|]; try discriminate.
    intros E; injection E as <-. constructor; auto.
Qed.

(** X11.  The non-streaming answer fails, with a [TypeError] that the
    handler turns into a 500, exactly when the upstream body has no array
    of choices or the callback throws on one of the choices.  When it is
    built it holds one translated choice for each upstream choice, in the
    same order, the usage as it came or, when that is missing or [null], a
    usage of zeros, and the model name the client asked for. *)
Theorem completion_translates_every_choice (model : option json) (data : json) :
  (completion model data = None <->
     (forall choices, prop data (str "choices") <> Some (JArr choices))
     \/ (exists choices choice,
           prop data (str "choices") = Some (JArr choices)
           /\ In choice choices /\ untranslatable choice))
  /\ (forall answer,
        completion model data = Some answer ->
        exists choices choices',
          prop data (str "choices") = Some (JArr choices)
          /\ prop answer (str "choices") = Some (JArr choices')
          /\ Forall2 (fun c c' => translate_choice c = Some c') choices choices'
          /\ prop answer (str "usage")
             = Some (nullish_or (prop data (str "usage"))
                       (JObj [(str "prompt_tokens", JNum (str "0"));
                              (str "completion_tokens", JNum (str "0"));
                              (str "total_tokens", JNum (str "0"))]))
          /\ prop answer (str "model") = model).
Proof.
  unfold completion.
  destruct data as [| | | | |o];
    try (split; [split; auto; intros _; left; intros c; discriminate
                | intros answer; discriminate]).
  cbn [prop].
  destruct (lookup (str "choices") o) as [[| | | |choices|]|] eqn:Hc;
    try (split; [split; auto; intros _; left; intros c; discriminate
                | intros answer; discriminate]).
  destruct (map_all translate_choice choices) as [choices'|] eqn:Hm.
  - split.
    + split; try discriminate.
      intros [H|(cs & c & Hcs & Hin & Hu)].
      * now destruct (H choices).
      * injection Hcs as <-.
        assert (Hnone : map_all translate_choice choices = None).
        { apply map_all_none. exists c. split; auto.
          now apply translate_choice_none. }
        congruence.
    + intros answer E. injection E as <-. exists choices, choices'.
      split; auto.
      split; [destruct model; reflexivity|].
      split; [now apply map_all_some|].
      split; destruct model; reflexivity.
  - split.
    + split; auto. intros _. right.
      apply map_all_none in Hm as (x & Hx & Hf).
      apply translate_choice_none in Hf. exists choices, x. auto.
    + intros answer; discriminate.
Qed.

(** *** The JSON error *)

Lemma completion_has_no_error (model : option json) (data answer : json) :
  completion model data = Some answer -> prop answer (str "error") = None.
Proof.
  unfold completion. destruct data; try discriminate;
    destruct (prop _ (str "choices")) as [[]|]; try discriminate;
    destruct (map_all translate_choice _); try discriminate;
    intros E; injection E as <-; destruct model; reflexivity.
Qed.

(** X12.  When a key is configured and the handler answers with a JSON body
    that holds an error, the error's code is the status the body is sent
    with, its type is ['proxy_error'], and the status is never 0 (it is 500
    when the exception brings none). *)
Theorem error_code_is_the_status_sent
  (ENABLE_THINKING_MODE : bool) (TypeError_message : jsstring)
  (key : jsstring) (body : json) (up : upstream)
  (status : N) (answer error : json) :
  key <> [] ->
  handler ENABLE_THINKING_MODE TypeError_message (Some key) body up
  = [SendJson status answer] ->
  prop answer (str "error") = Some error ->
  prop error (str "code") = Some (JNum (dec status))
  /\ prop error (str "type") = Some (JStr (str "proxy_error"))
  /\ status <> 0.
Proof.
  intros Hk. unfold handler. destruct key as [|u key]; try contradiction.
  assert (Hcatch : forall e,
            catch_block e [] = [SendJson status answer] ->
            prop answer (str "error") = Some error ->
            prop error (str "code") = Some (JNum (dec status))
            /\ prop error (str "type") = Some (JStr (str "proxy_error"))
            /\ status <> 0).
  { intros e. rewrite catch_block_fresh.
    destruct (error_detail e) as [detail|]; try discriminate.
    intros E He. injection E as <- <-. simpl in He. injection He as <-.
    repeat split. unfold error_status.
    destruct (response e) as [[s d]|]; try discriminate.
    destruct (s =? 0) eqn:Es; try discriminate. now apply N.eqb_neq. }
  rewrite try_block_cases. cbv zeta.
  destruct (build_call _ _ body); [|apply Hcatch].
  destruct up as [answered msg|data events]; [apply Hcatch|].
  destruct (truthy (prop body (str "stream"))).
  - intros E. exfalso.
    eapply (listeners_send_no_json (prop body (str "model")) events initial).
    rewrite E. now left.
  - destruct (completion _ data) as [ans|] eqn:Ec; [|apply Hcatch].
    intros E He. injection E as _ <-.
    rewrite (completion_has_no_error _ _ _ Ec) in He. discriminate.
Qed.


(** *** The request sent upstream *)

Lemma assoc_some (k v : jsstring) (table : list (string * string)) :
  assoc k table = Some v ->
  exists name id, In (name, id) table /\ k = str name /\ v = str id.
Proof.
  induction table as [|[name id] table IH]; simpl; try discriminate.
  destruct (jseqb k (str name)) eqn:E.
  - intros H; injection H as <-. apply jseqb_eq in E. exists name, id. auto.
  - intros H. destruct (IH H) as (n & i & Hin & Hk & Hv). exists n, i. auto.
Qed.

Lemma assoc_none (k : jsstring) (table : list (string * string)) :
  assoc k table = None <->
  forall name id, In (name, id) table -> k <> str name.
Proof.
  induction table as [|[name id] table IH]; simpl.
  - split; [intros _ name id [] | auto].
  - destruct (jseqb k (str name)) eqn:E.
    + apply jseqb_eq in E. split; try discriminate.
      intros H. now destruct (H name id (or_introl eq_refl)).
    + rewrite IH. split.
      * intros H n i [Hin|Hin]; [|now apply (H n i)].
        injection Hin as <- <-. intros ->. now rewrite jseqb_refl in E.
      * intros H n i Hin. apply (H n i). now right.
Qed.

Lemma named_none (k : jsstring) (names : list string) :
  existsb (fun name => jseqb k (str name)) names = false <->
  forall name, In name names -> k <> str name.
Proof.
  induction names as [|name names IH]; simpl.
  - split; [intros _ name [] | auto].
  - rewrite orb_false_iff, IH. split.
    + intros [E H] n [<-|Hin]; [|now apply H].
      intros ->. now rewrite jseqb_refl in E.
    + intros H. split.
      * destruct (jseqb k (str name)) eqn:E; auto.
        apply jseqb_eq in E. now destruct (H name (or_introl eq_refl)).
      * intros n Hin. apply H. now right.
Qed.

(** X13.  A model whose text is a name of the table is sent as the
    provider's identifier for it, also when the model is no string (an
    array holding the name, say).  A model whose text is neither a name of
    the table nor a name every object inherits is sent as it came.
    Resolving is idempotent: a model that an earlier resolution gave
    resolves to itself, so a client may as well ask for a provider's
    identifier directly.  Only a model that is an array or an object can
    fail to resolve. *)
Theorem model_resolution :
  (forall model name id,
      In (name, id) MODEL_MAPPING ->
      to_text model = Some (str name) ->
      resolve_model model = Some (Json (Some (JStr (str id)))))
  /\ (forall model key,
        to_text model = Some key ->
        (forall name id, In (name, id) MODEL_MAPPING -> key <> str name) ->
        (forall name, In name Object_prototype_names -> key <> str name) ->
        resolve_model model = Some (Json model))
  /\ (forall model v,
        resolve_model model = Some (Json v) ->
        resolve_model v = Some (Json v))
  /\ (forall model,
        resolve_model model = None ->
        exists x, model = Some x
                  /\ ((exists items, x = JArr items) \/ (exists o, x = JObj o))).
Proof.
  split; [|split; [|split]].
  - intros model name id Hin Hkey. unfold resolve_model. rewrite Hkey.
    simpl in Hin.
    repeat (destruct Hin as [Hin|Hin];
            [injection Hin as <- <-; vm_compute; reflexivity|]).
    contradiction.
  - intros model key Hkey Hmap Hproto. unfold resolve_model. rewrite Hkey.
    apply assoc_none in Hmap. apply named_none in Hproto.
    now rewrite Hmap, Hproto.
  - intros model v. unfold resolve_model at 1.
    destruct (to_text model) as [key|] eqn:Hkey; try discriminate.
    destruct (assoc key MODEL_MAPPING) as [id|] eqn:Hid.
    + intros E. injection E as <-.
      apply assoc_some in Hid as (name & i & Hin & _ & ->).
      simpl in Hin.
      repeat (destruct Hin as [Hin|Hin];
              [injection Hin as <- <-; vm_compute; reflexivity|]).
      contradiction.
    + destruct (existsb _ Object_prototype_names) eqn:Hproto; try discriminate.
      intros E. injection E as <-.
      unfold resolve_model. now rewrite Hkey, Hid, Hproto.
  - intros model. unfold resolve_model.
    destruct model as [x|]; simpl; try discriminate.
    destruct x as [|[]| | | |]; simpl; try discriminate;
      intros _; eexists; split; eauto.
Qed.

Lemma is_string_eq (v : json) (s : jsstring) :
  is_string v s = true -> v = JStr s.
Proof.
  destruct v; simpl; try discriminate. intros H. apply jseqb_eq in H. now subst.
Qed.

(** X14.  With the thinking mode on and a model of the Nemotron set, the
    messages sent start with a system message whose content starts with the
    thinking prompt.  Either the client's first message was no system
    message, or there was none: then the new message holds the role and the
    prompt alone, and all the client's messages follow it.  Or it was one:
    then it is sent with its content replaced by the prompt, an empty line
    and the text of its own content (['undefined'] when it had none), its
    other properties as they were, and the client's other messages follow
    it. *)
Theorem nemotron_gets_the_system_prompt
  (ENABLE_THINKING_MODE : bool) (nimModel : model_value)
  (messages : list json) (final : list object) :
  ENABLE_THINKING_MODE = true ->
  has NEMOTRON_REASONING_MODELS nimModel = true ->
  finalMessages ENABLE_THINKING_MODE nimModel messages = Some final ->
  exists first rest tail,
    final = first :: rest
    /\ lookup (str "role") first = Some (JStr (str "system"))
    /\ lookup (str "content") first
       = Some (JStr (str NEMOTRON_THINKING_SYSTEM_PROMPT ++ tail))
    /\ ((tail = []
         /\ List.length first = 2%nat
         /\ rest = map spread messages
         /\ (forall m ms, messages = m :: ms ->
               lookup (str "role") (spread m) <> Some (JStr (str "system"))))
        \/ (exists m ms content,
              messages = m :: ms
              /\ rest = map spread ms
              /\ lookup (str "role") (spread m) = Some (JStr (str "system"))
              /\ to_text (lookup (str "content") (spread m)) = Some content
              /\ tail = LF ++ LF ++ content
              /\ (forall k, k <> str "content" ->
                    lookup k first = lookup k (spread m)))).
Proof.
  intros -> Hm. unfold finalMessages. rewrite Hm. cbn [andb].
  destruct messages as [|m ms]; cbn [map].
  - intros E. injection E as <-.
    exists system_message, [], []. repeat split; auto.
    left. repeat split; auto. intros m ms; discriminate.
  - destruct (lookup (str "role") (spread m)) as [role|] eqn:Hrole.
    + destruct (is_string role (str "system")) eqn:Hs.
      * apply is_string_eq in Hs. subst role.
        destruct (to_text (lookup (str "content") (spread m))) as [content|] eqn:Hc;
          try discriminate.
        intros E. injection E as <-.
        eexists _, _, (LF ++ LF ++ content). split; [reflexivity|].
        split; [|split].
        -- rewrite lookup_obj_set_other; [exact Hrole | reflexivity].
        -- apply lookup_obj_set_same.
        -- right. exists m, ms, content. repeat split; auto.
           intros k Hk. apply lookup_obj_set_other.
           destruct (jseqb k (str "content")) eqn:E; auto.
           apply jseqb_eq in E. contradiction.
      * intros E. injection E as <-.
        exists system_message, (spread m :: map spread ms), [].
        repeat split; auto. left. repeat split; auto.
        intros m' ms' E. injection E as <- <-. rewrite Hrole.
        intros H. injection H as ->. vm_compute in Hs. discriminate.
    + intros E. injection E as <-.
      exists system_message, (spread m :: map spread ms), [].
      repeat split; auto. left. repeat split; auto.
      intros m' ms' E. injection E as <- <-. rewrite Hrole. discriminate.
Qed.

Lemma has_one_set (v : model_value) :
  (has NEMOTRON_REASONING_MODELS v = true ->
   has QWEN3_THINKING_MODELS v = false /\ has NATIVE_REASONING_MODELS v = false)
  /\ (has QWEN3_THINKING_MODELS v = true ->
      has NATIVE_REASONING_MODELS v = false).
Proof.
  destruct v as [[x|]|name]; try (split; discriminate).
  destruct x as [| | |s| |]; try (split; discriminate).
  split; intros H; simpl in H.
  - rewrite orb_false_r in H. apply jseqb_eq in H. subst s.
    split; vm_compute; reflexivity.
  - rewrite orb_false_r in H. apply orb_true_iff in H as [H|H];
      apply jseqb_eq in H; subst s; vm_compute; reflexivity.
Qed.

Lemma build_call_some
  (ENABLE_THINKING_MODE : bool) (key : jsstring) (body : json)
  (call : upstream_call) :
  build_call ENABLE_THINKING_MODE key body = Some call ->
  exists nimModel messages final,
    resolve_model (prop body (str "model")) = Some nimModel
    /\ prop body (str "messages") = Some (JArr messages)
    /\ finalMessages ENABLE_THINKING_MODE nimModel messages = Some final
    /\ call
       = {| call_model := nimModel;
            call_messages := final;
            call_body :=
              nimRequestBody (serialized nimModel) (JArr (map JObj final))
                (prop body (str "temperature"))
                (prop body (str "max_tokens")) (prop body (str "stream"));
            call_kwargs :=
              if ENABLE_THINKING_MODE && has QWEN3_THINKING_MODELS nimModel
              then Some (JObj [(str "enable_thinking", JBool true)])
              else None;
            call_authorization := str "Bearer " ++ key;
            call_accept :=
              if truthy (prop body (str "stream")) then str "text/event-stream"
              else str "application/json";
            call_responseType :=
              if truthy (prop body (str "stream")) then str "stream"
              else str "json" |}.
Proof.
  unfold build_call.
  destruct (resolve_model (prop body (str "model"))) as [nimModel|];
    [|destruct body; discriminate].
  destruct (prop body (str "messages")) as [[| | | |messages|]|];
    try (destruct body; discriminate).
  destruct (finalMessages ENABLE_THINKING_MODE nimModel messages) as [final|] eqn:Hf;
    [|destruct body; discriminate].
  intros E. exists nimModel, messages, final.
  split; [reflexivity|]. split; [reflexivity|]. split; [exact Hf|].
  destruct body; try discriminate; now injection E as <-.
Qed.

(** X15.  A request is switched to thinking in at most one way: when the
    call carries [chat_template_kwargs] (which can only be
    [{enable_thinking: true}]), the messages sent are the clones of the
    client's messages, with no system prompt put in.  With the thinking
    mode off, and for a model that reasons natively, neither happens. *)
Theorem thinking_is_switched_one_way
  (ENABLE_THINKING_MODE : bool) (key : jsstring) (body : json)
  (messages : list json) (call : upstream_call) :
  prop body (str "messages") = Some (JArr messages) ->
  build_call ENABLE_THINKING_MODE key body = Some call ->
  (call_kwargs call = None
   \/ (call_kwargs call = Some (JObj [(str "enable_thinking", JBool true)])
       /\ call_messages call = map spread messages))
  /\ (ENABLE_THINKING_MODE = false
      \/ has NATIVE_REASONING_MODELS (call_model call) = true ->
      call_kwargs call = None /\ call_messages call = map spread messages).
Proof.
  intros Hmsg Hcall.
  apply build_call_some in Hcall as (nimModel & ms & final & _ & Hms & Hf & ->).
  rewrite Hmsg in Hms. injection Hms as <-. cbn [call_kwargs call_messages call_model].
  unfold finalMessages in Hf.
  destruct (has_one_set nimModel) as [Hn Hq].
  destruct ENABLE_THINKING_MODE; cbn [andb] in *.
  - destruct (has NEMOTRON_REASONING_MODELS nimModel) eqn:En.
    + destruct (Hn eq_refl) as [-> Hnat]. split; auto.
      intros [H|H]; [discriminate | congruence].
    + injection Hf as <-.
      destruct (has QWEN3_THINKING_MODELS nimModel) eqn:Eq.
      * split; auto. intros [H|H]; [discriminate|].
        rewrite (Hq eq_refl) in H. discriminate.
      * split; auto.
  - injection Hf as <-. split; auto.
Qed.

Lemma truthy_or_else (v : option json) :
  truthy (Some (or_else v (JBool false))) = truthy v.
Proof.
  unfold or_else. destruct v as [x|]; auto.
  destruct (truthy (Some x)) eqn:E; auto.
Qed.

(** X16.  A request whose body is [null] or holds no array of messages
    gives no upstream call.  When a call is made, the provider is asked for
    an event stream exactly when the [stream] flag that the call forwards
    is truthy, and for JSON otherwise, whatever value the client gave for
    the flag; the messages of the forwarded body are the final messages,
    at least as many as the client sent and at most one more; and the key
    is sent as a bearer token. *)
Theorem upstream_call_is_consistent
  (ENABLE_THINKING_MODE : bool) (key : jsstring) (body : json) :
  ((body = JNull
    \/ forall messages, prop body (str "messages") <> Some (JArr messages)) ->
   build_call ENABLE_THINKING_MODE key body = None)
  /\ (forall call,
        build_call ENABLE_THINKING_MODE key body = Some call ->
        (if truthy (Some (nim_stream (call_body call)))
         then call_accept call = str "text/event-stream"
              /\ call_responseType call = str "stream"
         else call_accept call = str "application/json"
              /\ call_responseType call = str "json"
              /\ nim_stream (call_body call) = JBool false)
        /\ nim_messages (call_body call) = JArr (map JObj (call_messages call))
        /\ (exists messages,
              prop body (str "messages") = Some (JArr messages)
              /\ (List.length (call_messages call) = List.length messages
                  \/ List.length (call_messages call)
                     = S (List.length messages)))
        /\ call_authorization call = str "Bearer " ++ key).
Proof.
  split.
  - intros [-> | H]; [reflexivity|]. unfold build_call.
    destruct body; auto; destruct (resolve_model _); auto;
      destruct (prop _ (str "messages")) as [[| | | |messages|]|] eqn:E; auto;
      now destruct (H messages).
  - intros call Hcall.
    apply build_call_some in Hcall as (nimModel & ms & final & _ & Hms & Hf & ->).
    cbn [call_body call_accept call_responseType call_messages
         call_authorization nimRequestBody nim_stream nim_messages].
    split; [|split; [reflexivity|split; [|reflexivity]]].
    + rewrite truthy_or_else.
      destruct (truthy (prop body (str "stream"))) eqn:E; auto.
      repeat split. unfold or_else.
      destruct (prop body (str "stream")); auto. now rewrite E.
    + exists ms. split; auto. unfold finalMessages in Hf.
      destruct (ENABLE_THINKING_MODE && _).
      * destruct ms as [|m ms]; cbn [map] in Hf.
        -- injection Hf as <-. auto.
        -- destruct (match lookup (str "role") (spread m) with
                     | Some role => is_string role (str "system")
                     | None => false
                     end).
           ++ destruct (to_text _); try discriminate. injection Hf as <-.
              left. simpl. now rewrite length_map.
           ++ injection Hf as <-. right. simpl. now rewrite length_map.
      * injection Hf as <-. left. now rewrite length_map.
Qed.


End Proxy.

(** ** The rewriter on concrete streams *)

(** C3 (the code departs from it).  The record
    [data: {"choices":[{"delta":{"content":"é"}}]}] arrives once as one
    chunk and once as two chunks cut between the two bytes of [é].  Each
    chunk is decoded on its own, so the two halves of the character become
    two U+FFFD: the record written differs from that of the single chunk. *)
Theorem chunk_cut_inside_character_changes_output :
  let head := txt "data: {'choices':[{'delta':{'content':'" in
  let tail := txt "'}}]}" in
  let whole : list byte := head ++ [0xC3; 0xA9] ++ tail ++ [0x0A] in
  let first : list byte := head ++ [0xC3] in
  let second : list byte := [0xA9] ++ tail ++ [0x0A] in
  first ++ second = whole
  /\ map (write_of JSONText.stringify)
       (fst (on_chunks JSONText.parse true 0 None initial [whole]))
     = [head ++ [0xE9] ++ tail ++ LF ++ LF]
  /\ map (write_of JSONText.stringify)
       (fst (on_chunks JSONText.parse true 0 None initial [first; second]))
     = [head ++ [0xFFFD; 0xFFFD] ++ tail ++ LF ++ LF]
  /\ on_chunks JSONText.parse true 0 None initial [first; second]
     <> on_chunks JSONText.parse true 0 None initial [whole].
Proof. vm_compute. repeat split. discriminate. Qed.

(** Against C4 as stated: the line [: keep-alive] ending in CR LF is written
    without its carriage return, not as it came. *)
Lemma carriage_return_line_not_written_as_it_came :
  let chunk : list byte := str ": keep-alive" ++ [0x0D; 0x0A] in
  map (write_of JSONText.stringify)
    (fst (on_chunks JSONText.parse true 0 None initial [chunk]))
  = [str ": keep-alive" ++ [0x0A]]
  /\ [str ": keep-alive" ++ [0x0A]] <> [Buffer_toString chunk].
Proof. vm_compute. split; [reflexivity | discriminate]. Qed.

(** Against C6 as stated: a frame with a second choice is written with the
    reasoning field of that choice. *)
Lemma second_choice_keeps_reasoning :
  let line :=
    txt "data: {'choices':[{'delta':{'content':'a'}},{'delta':{'reasoning_content':'x'}}]}" in
  exists data inject,
    process_line JSONText.parse true 0 None false line = ([Frame data inject], false)
    /\ mentions (str "reasoning_content") data = true
    /\ write_of JSONText.stringify (Frame data inject) = line ++ LF ++ LF.
Proof.
  eexists; eexists. split; [vm_compute; reflexivity|].
  split; vm_compute; reflexivity.
Qed.

(** Against C8 as stated: a message without reasoning whose content is
    [null] is returned with the empty string as content. *)
Lemma null_content_becomes_empty_string :
  let choice :=
    JObj [(str "index", JNum (str "0"));
          (str "message",
           JObj [(str "role", JStr (str "assistant")); (str "content", JNull)]);
          (str "finish_reason", JStr (str "tool_calls"))] in
  exists out,
    translate_choice true choice = Some out
    /\ message_content choice = Some JNull
    /\ message_content out = Some (JStr [])
    /\ message_content out <> message_content choice.
Proof. vm_compute. eexists. repeat split. discriminate. Qed.

(** Against C9 as stated: the upstream stream fails before anything was
    written; the response is ended and no JSON error object is sent. *)
Lemma stream_error_before_first_byte_sends_no_json :
  let body := JObj [(str "messages", JArr []); (str "stream", JBool true)] in
  let log :=
    handler JSONText.parse JSONText.stringify true 0 true (str "TypeError")
      (Some (str "nvapi-key")) body
      (Resolves JNull [OnError (str "socket hang up")]) in
  log = [End] /\ forall status answer, ~ In (SendJson status answer) log.
Proof.
  vm_compute. split; [reflexivity|].
  intros status answer [H|[]]. discriminate.
Qed.

(** Against C1 as stated: a stream that ends without a terminator after a
    frame of reasoning.  The opening marker is written, the response is
    ended, and no closing marker was written. *)
Lemma open_marker_left_open_without_terminator :
  let chunk : list byte :=
    txt "data: {'choices':[{'delta':{'reasoning_content':'Let me think'}}]}" ++ LF in
  let out := fst (on_chunks JSONText.parse true 0 None initial [chunk]) in
  listeners JSONText.parse JSONText.stringify true 0 None initial
    [OnData chunk; OnEnd]
  = [Write (txt "data: {'choices':[{'delta':{'content':'<think>\nLet me think'}}]}"
            ++ LF ++ LF);
     End]
  /\ In Open (pieces out)
  /\ ~ In Close (pieces out)
  /\ ~ In CloseAtEnd (pieces out).
Proof.
  vm_compute. split; [reflexivity|]. split; [left; reflexivity|].
  split; intros [H|[H|[]]]; discriminate.
Qed.

(** Against C2 as stated: a frame whose content is an object with a
    [toString] of its own, with reasoning displayed.  The splice throws,
    the line is written as it came, and the content of the delta is the
    object still: neither a built string, nor empty, nor left out. *)
Lemma unconvertible_content_is_not_spliced :
  let line := txt "data: {'choices':[{'delta':{'content':{'toString':1}}}]}" in
  exists data,
    line_frame JSONText.parse line = Some data
    /\ delta_content data = Some (JObj [(str "toString", JNum (str "1"))])
    /\ splice_frame true data false = Throws false
    /\ map (write_of JSONText.stringify)
         (fst (process_line JSONText.parse true 0 None false line))
       = [line ++ LF].
Proof. vm_compute. eexists. repeat split. Qed.


(** Against C7 as stated: with reasoning display switched off too, a frame
    with a second choice is written with the reasoning field of that
    choice. *)
Lemma second_choice_keeps_reasoning_when_hidden :
  let line :=
    txt "data: {'choices':[{'delta':{'content':'a'}},{'delta':{'reasoning_content':'x'}}]}" in
  exists data inject,
    process_line JSONText.parse false 0 None false line = ([Frame data inject], false)
    /\ mentions (str "reasoning_content") data = true
    /\ write_of JSONText.stringify (Frame data inject) = line ++ LF ++ LF.
Proof.
  eexists; eexists. split; [vm_compute; reflexivity|].
  split; vm_compute; reflexivity.
Qed.

(** ** The theorems at concrete inputs *)

(** Scenario C of the specification: reasoning the upstream never closes,
    then the terminator. *)
Lemma terminator_closes_open_span_witness :
  let model := Some (JStr (str "gpt-4")) in
  let lines :=
    [txt "data: {'choices':[{'delta':{'reasoning_content':'partial thought'}}]}"] in
  let t := str "data: [DONE]" in
  let out := fst (process_lines JSONText.parse true 1700000000123 model false lines) in
  trim t = str "data: [DONE]"
  /\ process_lines JSONText.parse true 1700000000123 model false lines = (out, true)
  /\ map (write_of JSONText.stringify)
       (fst (process_line JSONText.parse true 1700000000123 model true t))
     = [str "data: "
          ++ JSONText.stringify
               (buildDeltaChunk 1700000000123 model (str "</think>" ++ LF ++ LF))
          ++ LF ++ LF;
        str "data: [DONE]" ++ LF ++ LF].
Proof.
  intros model lines t out.
  assert (H1 : trim t = str "data: [DONE]") by (vm_compute; reflexivity).
  assert (H2 : process_lines JSONText.parse true 1700000000123 model false lines
               = (out, true)) by (vm_compute; reflexivity).
  split; [exact H1 | split; [exact H2|]].
  destruct (terminator_closes_open_span JSONText.parse JSONText.stringify true
              1700000000123 model lines [] t out true H1 H2) as [Hopen _].
  exact (proj2 (proj2 (Hopen eq_refl))).
Defined.

Lemma splice_sets_content_witness :
  let data := frame_of [(str "reasoning_content", JStr (str "Let me think"))] in
  let data' := frame_of [(str "content", JStr (str "<think>" ++ LF ++ str "Let me think"))] in
  let inject := [Open; Text (str "Let me think")] in
  true = true
  /\ splice_frame true data false = Completes (data', true, inject)
  /\ delta_content data' = Some (JStr (render inject)).
Proof.
  intros data data' inject.
  assert (H1 : true = true) by reflexivity.
  assert (H2 : splice_frame true data false = Completes (data', true, inject))
    by (vm_compute; reflexivity).
  split; [exact H1 | split; [exact H2|]].
  apply (proj2 (proj2 (splice_sets_content true data false H1))
           data' true inject H2).
  vm_compute. discriminate.
Defined.

Lemma opaque_line_written_trimmed_witness :
  let line := str "  event: ping" ++ [0x0D] in
  trim line <> []
  /\ trim line <> str "data: [DONE]"
  /\ startsWith (str "data: ") (trim line) = false
  /\ process_line JSONText.parse true 0 None true line
     = ([Opaque (str "event: ping")], true).
Proof.
  intros line.
  assert (H1 : trim line <> []) by (vm_compute; discriminate).
  assert (H2 : trim line <> str "data: [DONE]") by (vm_compute; discriminate).
  assert (H3 : startsWith (str "data: ") (trim line) = false)
    by (vm_compute; reflexivity).
  split; [exact H1 | split; [exact H2 | split; [exact H3|]]].
  exact (proj1 (opaque_line_written_trimmed JSONText.parse JSONText.stringify true 0
                  None true line [] H1 H2 (or_introl H3))).
Defined.


Lemma written_delta_has_no_reasoning_witness :
  let lines :=
    [txt "data: {'choices':[{'delta':{'reasoning_content':'Let me think','content':null}}]}"] in
  let data := frame_of [(str "content", JStr (str "<think>" ++ LF ++ str "Let me think"))] in
  let inject := [Open; Text (str "Let me think")] in
  In (Frame data inject) (fst (process_lines JSONText.parse true 0 None false lines))
  /\ delta_reasoning data = None.
Proof.
  intros lines data inject.
  assert (H : In (Frame data inject)
                (fst (process_lines JSONText.parse true 0 None false lines))).
  { vm_compute. left. reflexivity. }
  split; [exact H|].
  exact (proj1 (written_delta_has_no_reasoning JSONText.parse true 0 None)
           lines false data inject H).
Defined.

(** Scenario D of the specification: reasoning display switched off. *)
Lemma hidden_reasoning_passes_content_witness :
  let l1 := txt "data: {'choices':[{'delta':{'reasoning_content':'Let me think'}}]}" in
  let l2 := txt "data: {'choices':[{'delta':{'content':'The answer is 4'}}]}" in
  let t := str "data: [DONE]" in
  false = false
  /\ exists f1 f2,
       process_lines JSONText.parse false 0 None false [l1; l2; t]
         = ([Frame f1 []; Frame f2 []; Done], false)
       /\ delta_content f1 = Some (JStr [])
       /\ delta_content f2 = Some (JStr (str "The answer is 4")).
Proof.
  intros l1 l2 t. split; [reflexivity|].
  apply (proj2 (proj2 (hidden_reasoning_passes_content JSONText.parse false 0
                         eq_refl)) None l1 l2 t);
    vm_compute; reflexivity.
Defined.

Lemma translated_choice_content_witness :
  let choice :=
    JObj [(str "index", JNum (str "0"));
          (str "message",
           JObj [(str "role", JStr (str "assistant"));
                 (str "content", JStr (str "The answer is 4"));
                 (str "reasoning_content", JStr (str "Let me think"))]);
          (str "finish_reason", JStr (str "stop"))] in
  choice <> JNull
  /\ exists out,
       translate_choice true choice = Some out
       /\ message_content out
          = Some (JStr (str "<think>" ++ LF ++ str "Let me think" ++ LF
                        ++ str "</think>" ++ LF ++ LF ++ str "The answer is 4")).
Proof.
  intros choice.
  assert (H : choice <> JNull) by discriminate.
  split; [exact H|].
  destruct (proj1 (translated_choice_content true choice H) eq_refl
              (JStr (str "Let me think")) (str "Let me think")
              (str "The answer is 4") eq_refl eq_refl eq_refl eq_refl)
    as [_ (out & Hout & Hc)].
  exists out. split; [exact Hout | exact Hc].
Defined.

(** The provider answers 429 to a request that asks for no stream. *)
Lemma json_error_only_on_fresh_response_witness :
  let body := JObj [(str "messages", JArr [])] in
  let data := JObj [(str "detail", JStr (str "rate limited"))] in
  let up := Rejects (Some (429, data)) (str "Request failed with status code 429") in
  let key := str "nvapi-key" in
  Some key = Some key
  /\ key <> []
  /\ build_call true key body <> None
  /\ truthy (prop body (str "stream")) = false
  /\ handler JSONText.parse JSONText.stringify true 0 true (str "TypeError")
       (Some key) body up
     = [SendJson 429 (error_body JSONText.stringify 429 data)].
Proof.
  intros body data up key.
  assert (H1 : key <> []) by discriminate.
  assert (H2 : build_call true key body <> None) by (vm_compute; discriminate).
  assert (H3 : truthy (prop body (str "stream")) = false) by reflexivity.
  split; [reflexivity | split; [exact H1 | split; [exact H2 | split; [exact H3|]]]].
  exact (proj1 (proj2 (proj2 (proj2 (proj2 (json_error_only_on_fresh_response
                                              JSONText.parse JSONText.stringify
                                              true 0 true (str "TypeError")
                                              (Some key) body up))
                                      key eq_refl H1) H2))
           429 data (str "Request failed with status code 429") eq_refl H3).
Defined.

(** ** The further properties at concrete inputs *)

Lemma Forall_checked {A : Type} (f : A -> bool) (l : list A) :
  forallb f l = true -> Forall (fun x => f x = true) l.
Proof. intros H. apply Forall_forall. now apply forallb_forall. Qed.

Lemma not_a_unit (u : code_unit) (s : jsstring) :
  forallb (fun c => negb (c =? u)) s = true -> ~ In u s.
Proof.
  induction s as [|c s IH]; simpl; intros H; [intros []|].
  apply andb_true_iff in H as [Hc Hs]. intros [->|Hin].
  - now rewrite N.eqb_refl in Hc.
  - now apply IH.
Qed.

(** The terminator cut in two, and the start of a keep-alive. *)
Lemma complete_lines_processed_tail_buffered_witness :
  let texts := [str "data: [DO"; str "NE]" ++ LF ++ str ": pi"] in
  let lines := [str "data: [DONE]"] in
  let tail := str ": pi" in
  Forall (fun l => ~ In 0x0A l) lines
  /\ ~ In 0x0A tail
  /\ List.concat texts = List.concat (map (fun l => l ++ LF) lines) ++ tail
  /\ on_texts JSONText.parse true 0 None initial texts
     = ([Done], {| buffer := tail; thinkOpen := false |}).
Proof.
  intros texts lines tail.
  assert (H1 : Forall (fun l => ~ In 0x0A l) lines).
  { repeat constructor. apply not_a_unit. reflexivity. }
  assert (H2 : ~ In 0x0A tail) by (apply not_a_unit; reflexivity).
  assert (H3 : List.concat texts
               = List.concat (map (fun l => l ++ LF) lines) ++ tail)
    by reflexivity.
  split; [exact H1 | split; [exact H2 | split; [exact H3|]]].
  rewrite (complete_lines_processed_tail_buffered JSONText.parse true 0 None
             texts lines tail H1 H2 H3).
  vm_compute. reflexivity.
Defined.

Lemma carriage_returns_are_immaterial_witness :
  let lines := [str ": ping"; str "data: [DONE]"] in
  let texts1 := [str ": ping" ++ [0x0D]; [0x0A] ++ str "data: [DONE]" ++ [0x0D; 0x0A]] in
  let texts2 := [str ": ping" ++ [0x0A] ++ str "data: [DONE]" ++ [0x0A]] in
  Forall (fun l => ~ In 0x0A l /\ ~ In 0x0D l) lines
  /\ List.concat texts1 = List.concat (map (fun l => l ++ [0x0D; 0x0A]) lines)
  /\ List.concat texts2 = List.concat (map (fun l => l ++ [0x0A]) lines)
  /\ on_texts JSONText.parse true 0 None initial texts1
     = on_texts JSONText.parse true 0 None initial texts2.
Proof.
  intros lines texts1 texts2.
  assert (H1 : Forall (fun l => ~ In 0x0A l /\ ~ In 0x0D l) lines).
  { repeat constructor; apply not_a_unit; reflexivity. }
  assert (H2 : List.concat texts1
               = List.concat (map (fun l => l ++ [0x0D; 0x0A]) lines))
    by reflexivity.
  assert (H3 : List.concat texts2
               = List.concat (map (fun l => l ++ [0x0A]) lines))
    by reflexivity.
  split; [exact H1 | split; [exact H2 | split; [exact H3|]]].
  exact (carriage_returns_are_immaterial JSONText.parse true 0 None
           texts1 texts2 lines H1 H2 H3).
Defined.

(** A record holding [é], cut after the character and not inside it. *)
Lemma chunking_on_character_boundaries_witness :
  let head := txt "data: {'choices':[{'delta':{'content':'" in
  let tail := txt "'}}]}" in
  let chunks1 : list (list byte) := [head ++ [0xC3; 0xA9]; tail ++ [0x0A]] in
  let chunks2 : list (list byte) := [head ++ [0xC3; 0xA9] ++ tail ++ [0x0A]] in
  Forall ends_on_boundary chunks1
  /\ Forall ends_on_boundary chunks2
  /\ List.concat chunks1 = List.concat chunks2
  /\ on_chunks JSONText.parse true 0 None initial chunks1
     = on_chunks JSONText.parse true 0 None initial chunks2.
Proof.
  intros head tail chunks1 chunks2.
  assert (H1 : Forall ends_on_boundary chunks1)
    by (repeat constructor; vm_compute; reflexivity).
  assert (H2 : Forall ends_on_boundary chunks2)
    by (repeat constructor; vm_compute; reflexivity).
  assert (H3 : List.concat chunks1 = List.concat chunks2)
    by (vm_compute; reflexivity).
  split; [exact H1 | split; [exact H2 | split; [exact H3|]]].
  exact (chunking_on_character_boundaries JSONText.parse true 0 None
           chunks1 chunks2 H1 H2 H3).
Defined.

(** Two frames and the start of the terminator, in two chunks. *)
Lemma span_tracks_markers_witness :
  let chunks : list (list byte) :=
    [txt "data: {'choices':[{'delta':{'reasoning_content':'Let me think'}}]}" ++ LF;
     txt "data: {'choices':[{'delta':{'content':'4'}}]}" ++ LF ++ str "data: [DO"] in
  Forall (fun l => textual_line JSONText.parse l = true)
    (complete_lines (List.concat (map Buffer_toString chunks)))
  /\ span_after false
       (pieces (fst (on_chunks JSONText.parse true 0 None initial chunks)))
     = Some false.
Proof.
  intros chunks.
  assert (H : Forall (fun l => textual_line JSONText.parse l = true)
                (complete_lines (List.concat (map Buffer_toString chunks)))).
  { apply Forall_checked. vm_compute. reflexivity. }
  split; [exact H|].
  rewrite (proj1 (span_tracks_markers JSONText.parse true 0 None chunks) H).
  vm_compute. reflexivity.
Defined.

(** Scenario B of the specification: the texts of its two frames. *)
Lemma texts_are_written_in_order_witness :
  let lines :=
    [txt "data: {'choices':[{'delta':{'reasoning_content':'Let me think'}}]}";
     txt "data: {'choices':[{'delta':{'content':'The answer is 4'}}]}";
     str "data: [DONE]"] in
  let out := fst (process_lines JSONText.parse true 0 None false lines) in
  true = true
  /\ Forall (fun l => textual_line JSONText.parse l = true) lines
  /\ process_lines JSONText.parse true 0 None false lines = (out, false)
  /\ texts_of (pieces out) = [str "Let me think"; str "The answer is 4"]
  /\ List.concat (map output_content out)
     = str "<think>" ++ LF ++ str "Let me think" ++ LF ++ str "</think>"
       ++ LF ++ LF ++ str "The answer is 4".
Proof.
  intros lines out.
  assert (Ht : Forall (fun l => textual_line JSONText.parse l = true) lines).
  { apply Forall_checked. vm_compute. reflexivity. }
  assert (H : process_lines JSONText.parse true 0 None false lines = (out, false))
    by (vm_compute; reflexivity).
  split; [reflexivity | split; [exact Ht | split; [exact H|]]].
  destruct (texts_are_written_in_order JSONText.parse true 0 None lines eq_refl
              Ht false false out H) as [H1 H2].
  rewrite H1, H2. split; vm_compute; reflexivity.
Defined.

Lemma splice_leaves_the_rest_witness :
  let frame (delta : object) :=
    JObj [(str "id", JStr (str "cmpl-1"));
          (str "choices",
           JArr [JObj [(str "index", JNum (str "0")); (str "delta", JObj delta)];
                 JObj [(str "index", JNum (str "1"))]])] in
  let data :=
    frame [(str "role", JStr (str "assistant"));
           (str "reasoning_content", JStr (str "Let me think"))] in
  let data' :=
    frame [(str "role", JStr (str "assistant"));
           (str "content", JStr (str "<think>" ++ LF ++ str "Let me think"))] in
  let inject := [Open; Text (str "Let me think")] in
  splice_frame true data false = Completes (data', true, inject)
  /\ prop data' (str "id") = prop data (str "id").
Proof.
  intros frame data data' inject.
  assert (H : splice_frame true data false = Completes (data', true, inject))
    by (vm_compute; reflexivity).
  split; [exact H|].
  apply (proj1 (splice_leaves_the_rest true data data' false true inject H)).
  reflexivity.
Defined.

Lemma hidden_reasoning_does_not_interfere_witness :
  let d1 := [(str "reasoning_content", JStr (str "Let me think"));
             (str "content", JStr (str "Hi"))] in
  let d2 := [(str "content", JStr (str "Hi"))] in
  false = false
  /\ frame_delta (frame_of d1) = Some (Some (JObj d1))
  /\ frame_delta (frame_of d2) = Some (Some (JObj d2))
  /\ (forall d, with_delta (frame_of d1) d = with_delta (frame_of d2) d)
  /\ obj_delete (str "reasoning_content") d1 = obj_delete (str "reasoning_content") d2
  /\ splice_frame false (frame_of d1) false = splice_frame false (frame_of d2) false.
Proof.
  intros d1 d2.
  assert (H1 : frame_delta (frame_of d1) = Some (Some (JObj d1))) by reflexivity.
  assert (H2 : frame_delta (frame_of d2) = Some (Some (JObj d2))) by reflexivity.
  assert (H3 : forall d, with_delta (frame_of d1) d = with_delta (frame_of d2) d)
    by (intros d; reflexivity).
  assert (H4 : obj_delete (str "reasoning_content") d1
               = obj_delete (str "reasoning_content") d2)
    by (vm_compute; reflexivity).
  split; [reflexivity|].
  split; [exact H1 | split; [exact H2 | split; [exact H3 | split; [exact H4|]]]].
  exact (hidden_reasoning_does_not_interfere false (frame_of d1) (frame_of d2)
           d1 d2 false eq_refl H1 H2 H3 H4).
Defined.

(** A stream that ends in the middle of a line. *)
Lemma stream_end_drops_unfinished_line_witness :
  let chunks : list (list byte) :=
    [str "data: [DO"; str "NE]" ++ [0x0A] ++ str "data: {"] in
  let lines := [str "data: [DONE]"] in
  let tail := str "data: {" in
  Forall ends_on_boundary chunks
  /\ Forall (fun l => ~ In 0x0A l) lines
  /\ ~ In 0x0A tail
  /\ Buffer_toString (List.concat chunks)
     = List.concat (map (fun l => l ++ LF) lines) ++ tail
  /\ (OnEnd = OnEnd \/ exists m, OnEnd = OnError m)
  /\ listeners JSONText.parse JSONText.stringify true 0 None initial
       (map OnData chunks ++ OnEnd :: [OnData (str "late")])
     = [Write (str "data: [DONE]" ++ LF ++ LF); End].
Proof.
  intros chunks lines tail.
  assert (H1 : Forall ends_on_boundary chunks)
    by (repeat constructor; vm_compute; reflexivity).
  assert (H2 : Forall (fun l => ~ In 0x0A l) lines).
  { repeat constructor. apply not_a_unit. reflexivity. }
  assert (H3 : ~ In 0x0A tail) by (apply not_a_unit; reflexivity).
  assert (H4 : Buffer_toString (List.concat chunks)
               = List.concat (map (fun l => l ++ LF) lines) ++ tail)
    by (vm_compute; reflexivity).
  assert (H5 : OnEnd = OnEnd \/ exists m, OnEnd = OnError m)
    by (left; reflexivity).
  split; [exact H1 | split; [exact H2 | split; [exact H3 | split; [exact H4|]]]].
  split; [exact H5|].
  rewrite (stream_end_drops_unfinished_line JSONText.parse JSONText.stringify
             true 0 None chunks lines tail OnEnd [OnData (str "late")]
             H1 H2 H3 H4 H5).
  vm_compute. reflexivity.
Defined.

(** A message with tool calls and no content. *)
Lemma translated_message_is_role_and_content_witness :
  let choice :=
    JObj [(str "index", JNum (str "0"));
          (str "message",
           JObj [(str "role", JStr (str "assistant"));
                 (str "content", JNull);
                 (str "tool_calls", JArr [JObj [(str "id", JStr (str "call_1"))]])]);
          (str "finish_reason", JStr (str "tool_calls"))] in
  let out :=
    JObj [(str "index", JNum (str "0"));
          (str "message",
           JObj [(str "role", JStr (str "assistant")); (str "content", JStr [])]);
          (str "finish_reason", JStr (str "tool_calls"))] in
  translate_choice true choice = Some out
  /\ exists role content,
       prop out (str "message")
       = Some (JObj [(str "role", role); (str "content", content)])
       /\ role <> JNull
       /\ content <> JNull
       /\ prop out (str "finish_reason") = Some (JStr (str "tool_calls")).
Proof.
  intros choice out.
  assert (H : translate_choice true choice = Some out) by reflexivity.
  split; [exact H|].
  destruct (proj2 (translated_message_is_role_and_content true choice) out H)
    as (role & content & H2 & _ & H4 & H5 & _ & H7).
  exists role, content.
  split; [exact H2 | split; [exact H4 | split; [exact H5 | exact H7]]].
Defined.

(** An upstream body with, among its choices, one whose reasoning has no
    text. *)
Lemma completion_translates_every_choice_witness :
  let choice :=
    JObj [(str "message",
           JObj [(str "reasoning_content", JObj [(str "toString", JNum (str "1"))])])] in
  let data := JObj [(str "choices", JArr [JObj []; choice])] in
  (exists choices c,
     prop data (str "choices") = Some (JArr choices)
     /\ In c choices /\ untranslatable true c)
  /\ completion true 0 (Some (JStr (str "gpt-4"))) data = None.
Proof.
  intros choice data.
  assert (H : exists choices c,
            prop data (str "choices") = Some (JArr choices)
            /\ In c choices /\ untranslatable true c).
  { exists [JObj []; choice], choice.
    split; [reflexivity | split; [right; left; reflexivity|]].
    right. split; [reflexivity|].
    exists (JObj [(str "toString", JNum (str "1"))]).
    split; [reflexivity | split; [reflexivity | left; reflexivity]]. }
  split; [exact H|].
  exact (proj2 (proj1 (completion_translates_every_choice true 0
                         (Some (JStr (str "gpt-4"))) data))
           (or_intror H)).
Defined.

(** The provider answers 429 to a request that asks for no stream. *)
Lemma error_code_is_the_status_sent_witness :
  let body := JObj [(str "messages", JArr [])] in
  let data := JObj [(str "detail", JStr (str "rate limited"))] in
  let up := Rejects (Some (429, data)) (str "Request failed with status code 429") in
  let key := str "nvapi-key" in
  let answer := error_body JSONText.stringify 429 data in
  let error := nullish_or (prop answer (str "error")) JNull in
  key <> []
  /\ handler JSONText.parse JSONText.stringify true 0 true (str "TypeError")
       (Some key) body up
     = [SendJson 429 answer]
  /\ prop answer (str "error") = Some error
  /\ prop error (str "code") = Some (JNum (str "429")).
Proof.
  intros body data up key answer error.
  assert (H1 : key <> []) by discriminate.
  assert (H2 : handler JSONText.parse JSONText.stringify true 0 true (str "TypeError")
                 (Some key) body up
               = [SendJson 429 answer]) by (vm_compute; reflexivity).
  assert (H3 : prop answer (str "error") = Some error) by (vm_compute; reflexivity).
  split; [exact H1 | split; [exact H2 | split; [exact H3|]]].
  exact (proj1 (error_code_is_the_status_sent JSONText.parse JSONText.stringify
                  true 0 true (str "TypeError") key body up 429 answer error
                  H1 H2 H3)).
Defined.


(** A model given as an array that holds a name of the table. *)
Lemma model_resolution_witness :
  let model := Some (JArr [JStr (str "gpt-4o")]) in
  In ("gpt-4o", "deepseek-ai/deepseek-v3")%string MODEL_MAPPING
  /\ to_text model = Some (str "gpt-4o")
  /\ resolve_model model = Some (Json (Some (JStr (str "deepseek-ai/deepseek-v3")))).
Proof.
  intros model.
  assert (H1 : In ("gpt-4o", "deepseek-ai/deepseek-v3")%string MODEL_MAPPING).
  { right. right. right. left. reflexivity. }
  assert (H2 : to_text model = Some (str "gpt-4o")) by reflexivity.
  split; [exact H1 | split; [exact H2|]].
  exact (proj1 model_resolution model _ _ H1 H2).
Defined.

(** A system message without content, for Nemotron. *)
Lemma nemotron_gets_the_system_prompt_witness :
  let nimModel := Json (Some (JStr (str "nvidia/llama-3.1-nemotron-ultra-253b-v1"))) in
  let messages :=
    [JObj [(str "role", JStr (str "system")); (str "name", JStr (str "s"))];
     JObj [(str "role", JStr (str "user")); (str "content", JStr (str "Hi"))]] in
  let final :=
    [[(str "role", JStr (str "system")); (str "name", JStr (str "s"));
      (str "content",
       JStr (str "detailed thinking on" ++ LF ++ LF ++ str "undefined"))];
     [(str "role", JStr (str "user")); (str "content", JStr (str "Hi"))]] in
  true = true
  /\ has NEMOTRON_REASONING_MODELS nimModel = true
  /\ finalMessages true nimModel messages = Some final
  /\ exists first rest,
       final = first :: rest
       /\ lookup (str "role") first = Some (JStr (str "system")).
Proof.
  intros nimModel messages final.
  assert (H1 : has NEMOTRON_REASONING_MODELS nimModel = true)
    by (vm_compute; reflexivity).
  assert (H2 : finalMessages true nimModel messages = Some final)
    by (vm_compute; reflexivity).
  split; [reflexivity | split; [exact H1 | split; [exact H2|]]].
  destruct (nemotron_gets_the_system_prompt true nimModel messages final
              eq_refl H1 H2) as (first & rest & tail & E & Hrole & _).
  exists first, rest. split; [exact E | exact Hrole].
Defined.

(** A request for Qwen3. *)
Lemma thinking_is_switched_one_way_witness :
  let key := str "nvapi-key" in
  let messages := [JObj [(str "role", JStr (str "user")); (str "content", JStr (str "Hi"))]] in
  let body := JObj [(str "model", JStr (str "gpt-4")); (str "messages", JArr messages)] in
  prop body (str "messages") = Some (JArr messages)
  /\ exists call,
       build_call true key body = Some call
       /\ (call_kwargs call = None
           \/ (call_kwargs call = Some (JObj [(str "enable_thinking", JBool true)])
               /\ call_messages call = map spread messages)).
Proof.
  intros key messages body.
  assert (H1 : prop body (str "messages") = Some (JArr messages)) by reflexivity.
  split; [exact H1|].
  eexists. split; [vm_compute; reflexivity|].
  refine (proj1 (thinking_is_switched_one_way true key body messages _ H1 _)).
  vm_compute. reflexivity.
Defined.

(** A request whose messages are a string. *)
Lemma upstream_call_is_consistent_witness :
  let key := str "nvapi-key" in
  let body := JObj [(str "messages", JStr (str "Hi"))] in
  (body = JNull
   \/ forall messages, prop body (str "messages") <> Some (JArr messages))
  /\ build_call true key body = None.
Proof.
  intros key body.
  assert (H : body = JNull
              \/ forall messages, prop body (str "messages") <> Some (JArr messages)).
  { right. intros messages. discriminate. }
  split; [exact H|].
  exact (proj1 (upstream_call_is_consistent true key body) H).
Defined.

(** ** The scenarios of the specification, on text *)

(** Scenario B: reasoning, then content. *)
Example scenario_reasoning_then_content :
  map (write_of JSONText.stringify)
    (fst (on_chunks JSONText.parse true 0 None initial
            [txt "data: {'choices':[{'delta':{'reasoning_content':'Let me think'}}]}"
               ++ LF ++ LF
               ++ txt "data: {'choices':[{'delta':{'content':'The answer is 4'}}]}"
               ++ LF ++ LF ++ str "data: [DONE]" ++ LF ++ LF]))
  = [txt "data: {'choices':[{'delta':{'content':'<think>\nLet me think'}}]}" ++ LF ++ LF;
     txt "data: {'choices':[{'delta':{'content':'\n</think>\n\nThe answer is 4'}}]}"
       ++ LF ++ LF;
     str "data: [DONE]" ++ LF ++ LF].
Proof. vm_compute. reflexivity. Qed.

(** Scenario C: reasoning never closed by the upstream. *)
Example scenario_reasoning_never_closed :
  map (write_of JSONText.stringify)
    (fst (on_chunks JSONText.parse true 1700000000123 (Some (JStr (str "gpt-4"))) initial
            [txt "data: {'choices':[{'delta':{'reasoning_content':'partial thought'}}]}"
               ++ LF ++ LF ++ str "data: [DONE]" ++ LF ++ LF]))
  = [txt "data: {'choices':[{'delta':{'content':'<think>\npartial thought'}}]}"
       ++ LF ++ LF;
     txt "data: {'id':'chatcmpl-inject-1700000000123','object':'chat.completion.chunk','created':1700000000,'model':'gpt-4','choices':[{'index':0,'delta':{'content':'</think>\n\n'},'finish_reason':null}]}"
       ++ LF ++ LF;
     str "data: [DONE]" ++ LF ++ LF].
Proof. vm_compute. reflexivity. Qed.

(** Scenario E: a record cut in the middle of its JSON. *)
Example scenario_cut_inside_json :
  on_chunks JSONText.parse true 0 None initial
    [txt "data: {'choices':[{'del"; txt "ta':{'content':'Hi'}}]}" ++ LF]
  = on_chunks JSONText.parse true 0 None initial
      [txt "data: {'choices':[{'delta':{'content':'Hi'}}]}" ++ LF].
Proof. vm_compute. reflexivity. Qed.

(** A content that has no text, after reasoning: [thinkOpen] is cleared
    before the conversion throws, the line is written as it came, and the
    terminator finds nothing to close. *)
Example scenario_content_without_text :
  map (write_of JSONText.stringify)
    (fst (on_chunks JSONText.parse true 0 None initial
            [txt "data: {'choices':[{'delta':{'reasoning_content':'r'}}]}" ++ LF
               ++ txt "data: {'choices':[{'delta':{'content':{'toString':1}}}]}" ++ LF
               ++ str "data: [DONE]" ++ LF]))
  = [txt "data: {'choices':[{'delta':{'content':'<think>\nr'}}]}" ++ LF ++ LF;
     txt "data: {'choices':[{'delta':{'content':{'toString':1}}}]}" ++ LF;
     str "data: [DONE]" ++ LF ++ LF].
Proof. vm_compute. reflexivity. Qed.

(** A reasoning that has no text, before content: [thinkOpen] is set before
    the conversion throws, and the content that follows is written behind a
    closing marker that no opening marker precedes. *)
Example scenario_reasoning_without_text :
  map (write_of JSONText.stringify)
    (fst (on_chunks JSONText.parse true 0 None initial
            [txt "data: {'choices':[{'delta':{'reasoning_content':{'toString':1}}}]}" ++ LF
               ++ txt "data: {'choices':[{'delta':{'content':'x'}}]}" ++ LF]))
  = [txt "data: {'choices':[{'delta':{'reasoning_content':{'toString':1}}}]}" ++ LF;
     txt "data: {'choices':[{'delta':{'content':'\n</think>\n\nx'}}]}" ++ LF ++ LF].
Proof. vm_compute. reflexivity. Qed.
